(** * ExamAi backend: the grading heuristic engine and submission creation

    A shallow embedding of [main.py]: the models of the request bodies, the
    submission endpoints and the grading loop of [grade_submission], over a
    model of the Python values, strings and binary64 floats they compute
    with; then [serialize_doc] and the endpoints that create assessments.
    The first half of the file holds the definitions, the second half the
    facts proved about them. *)

From Stdlib Require Import ZArith String Ascii List Bool Lia SpecFloat DecimalString.
From stdpp Require Import gmap strings.

Local Open Scope Z_scope.

(* ===================================================================== *)
(** * Exceptions                                                          *)
(* ===================================================================== *)

(** The exceptions the modelled code can raise.  [HTTPException] is the one
    [main.py] raises itself; the others come from the Python runtime and
    from [bson.ObjectId]. *)
Inductive exn : Type :=
  | OverflowError
  | ZeroDivisionError
  | ValueError
  | KeyError
  | InvalidId
  | HTTPException (status_code : Z) (detail : string).

Inductive result (A : Type) : Type :=
  | Ok (a : A)
  | Raise (e : exn).
Arguments Ok {A} a.
Arguments Raise {A} e.

(** [result] is a monad; stdpp's [x ← c; k] sequences two computations and
    stops at the first exception. *)
#[global] Instance result_ret : MRet result := @Ok.
#[global] Instance result_bind : MBind result :=
  fun A B k c =>
    match c with
    | Ok a => k a
    | Raise e => Raise e
    end.

(* ===================================================================== *)
(** * Python floats: IEEE 754 binary64                                    *)
(* ===================================================================== *)

Module Float64.

(** Every finite binary64 value is an integer multiple of [2^-1074], so a
    finite float is kept as that integer: [Fin n] stands for [n * 2^-1074].
    The sign of zero is observable ([round(-0.001, 2)] is [-0.0]), hence
    [NegZero]. *)
Inductive float : Type :=
  | Fin (n : Z)
  | NegZero
  | Inf (neg : bool)
  | NaN.

(** [1.0] counted in units of [2^-1074]. *)
Definition unit_ : Z := 2 ^ 1074.

(** The least magnitude (in units) that is too large to be finite:
    [2^1024]. *)
Definition huge : Z := 2 ^ 2098.

(** The integer nearest to [p / d] (for [0 < d]), ties to the even one. *)
Definition round_half_even (p d : Z) : Z :=
  let f := p / d in
  let r2 := 2 * (p mod d) in
  if r2 <? d then f
  else if d <? r2 then f + 1
  else if Z.even f then f else f + 1.

(** roundTiesToEven of the non-negative rational [p / q] (in units) to a
    53-bit significand with unbounded exponent.  Below [2^53] units the
    grid is the integers (subnormals and the first normal binade); above,
    the spacing is [2^k] with [k = floor(log2 (p/q)) - 52]. *)
Definition nearest_even (p q : Z) : Z :=
  let k := Z.max 0 (Z.log2 (p / q) - 52) in
  round_half_even p (q * 2 ^ k) * 2 ^ k.

Definition sign_of (x : float) : bool :=
  match x with
  | Fin n => n <? 0
  | NegZero => true
  | Inf s => s
  | NaN => false
  end.

Definition magnitude (x : float) : Z :=
  match x with
  | Fin n => Z.abs n
  | _ => 0
  end.

Definition is_zero (x : float) : bool :=
  match x with
  | Fin n => n =? 0
  | NegZero => true
  | _ => false
  end.

(** A sign and a rounded magnitude as a float; magnitudes from [huge] on
    overflow to infinity. *)
Definition pack (s : bool) (m : Z) : float :=
  if huge <=? m then Inf s
  else if m =? 0 then (if s then NegZero else Fin 0)
  else Fin (if s then - m else m).

(** IEEE multiplication: the exact product, rounded. *)
Definition fmul (x y : float) : float :=
  match x, y with
  | NaN, _ | _, NaN => NaN
  | Inf sx, Inf sy => Inf (xorb sx sy)
  | Inf sx, _ => if is_zero y then NaN else Inf (xorb sx (sign_of y))
  | _, Inf sy => if is_zero x then NaN else Inf (xorb (sign_of x) sy)
  | _, _ =>
      pack (xorb (sign_of x) (sign_of y))
           (nearest_even (magnitude x * magnitude y) unit_)
  end.

(** IEEE division: the exact quotient, rounded. *)
Definition fdiv (x y : float) : float :=
  match x, y with
  | NaN, _ | _, NaN => NaN
  | Inf sx, Inf sy => NaN
  | Inf sx, _ => Inf (xorb sx (sign_of y))
  | _, Inf sy => if sign_of x then (if sy then Fin 0 else NegZero)
                 else (if sy then NegZero else Fin 0)
  | _, _ =>
      if is_zero y then
        (if is_zero x then NaN else Inf (xorb (sign_of x) (sign_of y)))
      else
        pack (xorb (sign_of x) (sign_of y))
             (nearest_even (magnitude x * unit_) (magnitude y))
  end.

(** The exact value of a finite float, in units. *)
Definition fval (x : float) : Z :=
  match x with
  | Fin n => n
  | _ => 0
  end.

Definition flt (x y : float) : bool :=
  match x, y with
  | NaN, _ | _, NaN => false
  | Inf sx, Inf sy => sx && negb sy
  | Inf sx, _ => sx
  | _, Inf sy => negb sy
  | _, _ => fval x <? fval y
  end.

Definition fle (x y : float) : bool :=
  match x, y with
  | NaN, _ | _, NaN => false
  | Inf sx, Inf sy => sx || negb sy
  | Inf sx, _ => sx
  | _, Inf sy => negb sy
  | _, _ => fval x <=? fval y
  end.

Definition feq (x y : float) : bool :=
  match x, y with
  | NaN, _ | _, NaN => false
  | Inf sx, Inf sy => Bool.eqb sx sy
  | Inf _, _ | _, Inf _ => false
  | _, _ => fval x =? fval y
  end.

(** The float a decimal literal [a / 10^b] denotes (correctly rounded). *)
Definition literal (a : Z) (b : Z) : float :=
  pack (a <? 0) (nearest_even (Z.abs a * unit_) (10 ^ b)).

(** The literals of [grade_submission]. *)
Definition f0_0 : float := Fin 0.
Definition f0_3 : float := Fin (5404319552844595 * 2 ^ 1020).
Definition f0_5 : float := Fin (2 ^ 1073).
Definition f0_6 : float := Fin (5404319552844595 * 2 ^ 1021).
Definition f1_0 : float := Fin unit_.
Definition f5_0 : float := Fin (5 * unit_).
Definition f100_0 : float := Fin (100 * unit_).

(** The same value in the Standard Library's [spec_float], to compare
    [fmul] and [fdiv] with [SFmul] and [SFdiv]. *)
Definition to_SF (x : float) : spec_float :=
  match x with
  | NaN => S754_nan
  | Inf s => S754_infinity s
  | NegZero => S754_zero true
  | Fin n =>
      if n =? 0 then S754_zero false
      else
        let a := Z.abs n in
        let k := Z.max 0 (Z.log2 a - 52) in
        S754_finite (n <? 0) (Z.to_pos (a / 2 ^ k)) (k - 1074)
  end.

(** ** The Python operations on floats and ints *)

(** [float(z)], as the mixed operations [int * float] and [int / float]
    convert their int operand: correctly rounded, [OverflowError] when the
    int is too large. *)
Definition float_of_int (z : Z) : result float :=
  let m := nearest_even (Z.abs z * unit_) 1 in
  if huge <=? m then Raise OverflowError
  else Ok (Fin (if z <? 0 then - m else m)).

(** [a / b] on two ints: the correctly rounded quotient. *)
Definition int_truediv (a b : Z) : result float :=
  if b =? 0 then Raise ZeroDivisionError
  else
    let m := nearest_even (Z.abs a * unit_) (Z.abs b) in
    if huge <=? m then Raise OverflowError
    else Ok (pack (xorb (a <? 0) (b <? 0)) m).

(** [x / y] on two floats. *)
Definition float_truediv (x y : float) : result float :=
  if is_zero y then Raise ZeroDivisionError else Ok (fdiv x y).

(** [k / y] with an int [k] and a float [y]. *)
Definition int_div_float (k : Z) (y : float) : result float :=
  x ← float_of_int k; float_truediv x y.

(** [z * y] with an int [z] and a float [y]. *)
Definition int_mul_float (z : Z) (y : float) : result float :=
  x ← float_of_int z; Ok (fmul x y).

(** [min(a, b)]: the first argument unless the second is smaller. *)
Definition py_min (a b : float) : float :=
  if flt b a then b else a.

(** [round(x)]: the nearest int, ties to even. *)
Definition py_round (x : float) : result Z :=
  match x with
  | Fin n => Ok (round_half_even n unit_)
  | NegZero => Ok 0
  | Inf _ => Raise OverflowError
  | NaN => Raise ValueError
  end.

(** [round(x, 2)]: the exact value of [x] rounded to the nearest multiple
    of [0.01] (ties to even), and that decimal converted back to the
    nearest float. *)
Definition py_round2 (x : float) : float :=
  match x with
  | Fin n =>
      let h := round_half_even (100 * n) unit_ in
      pack (n <? 0) (nearest_even (Z.abs h * unit_) 100)
  | _ => x
  end.

End Float64.

(* ===================================================================== *)
(** * Python strings                                                      *)
(* ===================================================================== *)

Module PyStr.

(** A Python [str] is a sequence of code points.  The model keeps the code
    points below 256 (Latin-1), one per [ascii]; on these [lower] and the
    whitespace test of [split] are the ones of CPython. *)

Definition in_range (lo hi n : N) : bool := ((lo <=? n) && (n <=? hi))%N.

(** [str.isspace] on one code point: TAB..CR, FS..US, space, NEL, NBSP. *)
Definition isspace (c : ascii) : bool :=
  let n := N_of_ascii c in
  in_range 9 13 n || in_range 28 32 n || (n =? 133)%N || (n =? 160)%N.

(** The lowercase mapping: [A-Z] and the Latin-1 capitals (all of
    [192..222] but the multiplication sign 215) move up by 32. *)
Definition lower_char (c : ascii) : ascii :=
  let n := N_of_ascii c in
  if in_range 65 90 n || (in_range 192 222 n && negb (n =? 215)%N)
  then ascii_of_N (n + 32)
  else c.

(** [s.lower()] *)
Fixpoint lower (s : string) : string :=
  match s with
  | EmptyString => EmptyString
  | String c s' => String (lower_char c) (lower s')
  end.

(** [split_from w s]: the words of [s], where [w] is the word read so far. *)
Fixpoint split_from (w : string) (s : string) : list string :=
  match s with
  | EmptyString => if String.eqb w EmptyString then [] else [w]
  | String c s' =>
      if isspace c then
        (if String.eqb w EmptyString then split_from EmptyString s'
         else w :: split_from EmptyString s')
      else split_from (w +:+ String c EmptyString) s'
  end.

(** [s.split()]: the maximal runs of non-whitespace characters. *)
Definition split (s : string) : list string := split_from EmptyString s.

(** [str(z)] for an int (also its form in an f-string). *)
Definition str_of_int (z : Z) : string := NilZero.string_of_int (Z.to_int z).

(** [sep.join(l)] *)
Fixpoint join (sep : string) (l : list string) : string :=
  match l with
  | [] => EmptyString
  | [x] => x
  | x :: l' => x +:+ sep +:+ join sep l'
  end.

End PyStr.

(* ===================================================================== *)
(** * Python values                                                       *)
(* ===================================================================== *)

Module PyVal.
Import Float64 PyStr.

(** What a field typed [Any] holds once it went through JSON and the
    document store. *)
#[warnings="-register-all"] Inductive pyval : Type :=
  | PNone
  | PBool (b : bool)
  | PInt (z : Z)
  | PFloat (x : float)
  | PStr (s : string)
  | PList (l : list pyval)
  | PDict (d : list (string * pyval)).

(** [key is not None] *)
Definition is_not_none (v : pyval) : bool :=
  match v with
  | PNone => false
  | _ => true
  end.

(** An int equals a float when the float's exact value is that int. *)
Definition int_eq_float (z : Z) (x : float) : bool :=
  match x with
  | Fin n => n =? z * unit_
  | NegZero => z =? 0
  | _ => false
  end.

Fixpoint assoc (k : string) (d : list (string * pyval)) : option pyval :=
  match d with
  | [] => None
  | (k', v) :: d' => if String.eqb k k' then Some v else assoc k d'
  end.

(** Python's [a == b].  Numbers ([bool], [int], [float]) compare by value
    across their three types; a [str] equals only a [str], [None] only
    [None]; lists compare element by element, dicts key by key. *)
Fixpoint py_eq (a b : pyval) {struct a} : bool :=
  match a, b with
  | PNone, PNone => true
  | PBool x, PBool y => Z.b2z x =? Z.b2z y
  | PBool x, PInt z => Z.b2z x =? z
  | PInt z, PBool x => z =? Z.b2z x
  | PBool x, PFloat f => int_eq_float (Z.b2z x) f
  | PFloat f, PBool x => int_eq_float (Z.b2z x) f
  | PInt x, PInt y => x =? y
  | PInt z, PFloat f => int_eq_float z f
  | PFloat f, PInt z => int_eq_float z f
  | PFloat x, PFloat y => feq x y
  | PStr x, PStr y => String.eqb x y
  | PList xs, PList ys =>
      (fix go (xs ys : list pyval) {struct xs} : bool :=
         match xs, ys with
         | [], [] => true
         | x :: xs', y :: ys' => py_eq x y && go xs' ys'
         | _, _ => false
         end) xs ys
  | PDict xs, PDict ys =>
      (List.length xs =? List.length ys)%nat &&
      (fix all (xs : list (string * pyval)) {struct xs} : bool :=
         match xs with
         | [] => true
         | (k, v) :: xs' =>
             match assoc k ys with
             | Some w => py_eq v w
             | None => false
             end && all xs'
         end) xs
  | _, _ => false
  end.

(** The two [repr] functions of the Python runtime this model leaves open:
    the shortest decimal form of a float and the quoted form of a str.
    Only the text of a non-string answer depends on them. *)
Class PyRuntime : Type := {
  repr_float : float -> string;
  repr_str : string -> string
}.

(** [repr(v)] *)
Fixpoint py_repr `{PyRuntime} (v : pyval) : string :=
  match v with
  | PNone => "None"
  | PBool true => "True"
  | PBool false => "False"
  | PInt z => str_of_int z
  | PFloat x => repr_float x
  | PStr s => repr_str s
  | PList l => "[" +:+ join ", " (List.map py_repr l) +:+ "]"
  | PDict d =>
      "{" +:+ join ", "
                (List.map (fun kv => repr_str (fst kv) +:+ ": " +:+ py_repr (snd kv)) d)
          +:+ "}"
  end.

(** [str(v)]: a str is itself, any other value its [repr]. *)
Definition py_str `{PyRuntime} (v : pyval) : string :=
  match v with
  | PStr s => s
  | _ => py_repr v
  end.

End PyVal.

(* ===================================================================== *)
(** * Models                                                              *)
(* ===================================================================== *)

Module Models.
Import Float64 PyVal.

(** [class Question(BaseModel)]; an absent [answer_key] is [None]. *)
Record Question : Type := {
  prompt : string;
  type : string;
  options : option (list string);
  answer_key : pyval;
  points : Z
}.

(** [class AssessmentCreate(BaseModel)] *)
Record AssessmentCreate : Type := {
  title : string;
  description : option string;
  source_type : option string;
  source_reference : option string;
  questions : list Question
}.

(** [class SubmissionAnswer(BaseModel)] *)
Record SubmissionAnswer : Type := {
  question_index : Z;
  answer : pyval
}.

(** [class SubmissionCreate(BaseModel)] *)
Record SubmissionCreate : Type := {
  assessment_id : string;
  student_name : option string;
  answers : list SubmissionAnswer
}.

(** One entry of [feedback]: the dict with the keys [question_index],
    [points], [earned], [correctness] and [feedback]. *)
Record Feedback : Type := {
  fb_question_index : Z;
  fb_points : Z;
  fb_earned : Z;
  fb_correctness : float;
  fb_feedback : string
}.

(** [class GradeResult(BaseModel)] *)
Record GradeResult : Type := {
  graded : bool;
  total_points : Z;
  score : float;
  feedback : list Feedback
}.

End Models.

(* ===================================================================== *)
(** * The grading heuristic engine                                        *)
(* ===================================================================== *)

Module Grading.
Import Float64 PyStr PyVal Models.

(** [next((a for a in answers if a.get("question_index") == i), None)] *)
Definition find_answer (answers : list SubmissionAnswer) (i : nat)
  : option SubmissionAnswer :=
  List.find (fun a => question_index a =? Z.of_nat i) answers.

(** [set(str(x).lower().split())] *)
Definition word_set (s : string) : gset string := list_to_set (split (lower s)).

(** [len(prompt_words & ans_words)] *)
Definition overlap_of (prompt_text ans_text : string) : Z :=
  Z.of_nat (size (word_set prompt_text ∩ word_set ans_text)).

Definition baseline : float * string :=
  (f0_5, "Partial credit: baseline heuristic"%string).

(** The body of the loop of [grade_submission] up to the type branches:
    [correctness] and [rationale] for question [q] and the answer found for
    it, if any. *)
Definition correctness_of `{PyRuntime} (q : Question)
    (user_ans : option SubmissionAnswer) : result (float * string) :=
  match user_ans with
  | None => Ok baseline
  | Some ua =>
      if String.eqb (type q) "multiple_choice" then
        let key := answer_key q in
        if is_not_none key && py_eq (answer ua) key
        then Ok (f1_0, "Correct option"%string)
        else Ok (f0_0, "Incorrect option"%string)
      else if String.eqb (type q) "short_answer" then
        let overlap := overlap_of (prompt q) (py_str (answer ua)) in
        c ← int_div_float overlap f5_0;
        Ok (py_min f1_0 c, "Keyword overlap score: " +:+ str_of_int overlap)
      else if String.eqb (type q) "essay" then
        let length := Z.of_nat (String.length (py_str (answer ua))) in
        Ok (if 200 <? length then f1_0 else if 80 <? length then f0_6 else f0_3,
            "Length heuristic: " +:+ str_of_int length +:+ " chars")
      else Ok baseline
  end.

(** One turn of the loop: the feedback entry of question [q] at index [i]. *)
Definition grade_question `{PyRuntime} (i : nat) (q : Question)
    (answers : list SubmissionAnswer) : result Feedback :=
  cr ← correctness_of q (find_answer answers i);
  let pts := points q in
  x ← int_mul_float pts (fst cr);
  earned ← py_round x;
  Ok {| fb_question_index := Z.of_nat i;
        fb_points := pts;
        fb_earned := earned;
        fb_correctness := py_round2 (fst cr);
        fb_feedback := snd cr |}.

(** [for i, q in enumerate(questions)], from index [i] on, with the running
    [earned] and [feedback]. *)
Fixpoint grade_loop `{PyRuntime} (i : nat) (questions : list Question)
    (answers : list SubmissionAnswer) (earned : Z) (feedback : list Feedback)
  : result (Z * list Feedback) :=
  match questions with
  | [] => Ok (earned, feedback)
  | q :: rest =>
      fb ← grade_question i q answers;
      grade_loop (S i) rest answers (earned + fb_earned fb) (feedback ++ [fb])
  end.

(** [sum(int(q.get("points", 1)) for q in questions)] *)
Definition sum_points (questions : list Question) : Z :=
  List.fold_right (fun q acc => points q + acc) 0 questions.

(** [round((earned / total_points) * 100.0, 2) if total_points > 0 else 0.0] *)
Definition score_of (earned total_points : Z) : result float :=
  if 0 <? total_points then
    r ← int_truediv earned total_points;
    Ok (py_round2 (fmul r f100_0))
  else Ok f0_0.

(** The engine: [grade_submission] from the two lists it read to the
    [GradeResult] it returns. *)
Definition grade `{PyRuntime} (questions : list Question)
    (answers : list SubmissionAnswer) : result GradeResult :=
  let total_points := sum_points questions in
  ef ← grade_loop 0 questions answers 0 [];
  score ← score_of (fst ef) total_points;
  Ok {| graded := true;
        total_points := total_points;
        score := score;
        feedback := snd ef |}.

End Grading.

(* ===================================================================== *)
(** * The document store and the submission endpoints                     *)
(* ===================================================================== *)

Module Endpoints.
Import Float64 PyStr PyVal Models Grading.

(** ** [bson.ObjectId] *)

Definition hex_value (c : ascii) : option N :=
  let n := N_of_ascii c in
  if in_range 48 57 n then Some (n - 48)%N
  else if in_range 97 102 n then Some (n - 87)%N
  else if in_range 65 70 n then Some (n - 55)%N
  else None.

(** [Py_ISSPACE], the whitespace [bytes.fromhex] skips between bytes. *)
Definition ascii_space (c : ascii) : bool :=
  let n := N_of_ascii c in
  in_range 9 13 n || (n =? 32)%N.

(** [bytes.fromhex(s)]: pairs of hex digits, whitespace allowed between
    pairs; [None] stands for its [ValueError]. *)
Fixpoint fromhex (s : string) : option string :=
  match s with
  | EmptyString => Some EmptyString
  | String c s' =>
      if ascii_space c then fromhex s'
      else
        match hex_value c, s' with
        | Some hi, String d s'' =>
            match hex_value d with
            | Some lo =>
                match fromhex s'' with
                | Some bytes => Some (String (ascii_of_N (16 * hi + lo)) bytes)
                | None => None
                end
            | None => None
            end
        | _, _ => None
        end
  end.

(** [ObjectId(oid)] for a str: 24 characters that [bytes.fromhex] accepts,
    [InvalidId] otherwise.  The value is the id's bytes. *)
Definition ObjectId (oid : string) : result string :=
  if (String.length oid =? 24)%nat then
    match fromhex oid with
    | Some bytes => Ok bytes
    | None => Raise InvalidId
    end
  else Raise InvalidId.

Definition hex_digit (n : N) : ascii :=
  if (n <? 10)%N then ascii_of_N (n + 48) else ascii_of_N (n + 87).

(** [str(oid)]: two lowercase hex digits per byte. *)
Fixpoint hex_of (bytes : string) : string :=
  match bytes with
  | EmptyString => EmptyString
  | String c rest =>
      let n := N_of_ascii c in
      String (hex_digit (n / 16)) (String (hex_digit (n mod 16)) (hex_of rest))
  end.

(** ** The store *)

(** A stored document: an assessment as [create_assessment] wrote it, or a
    submission, with the [GradeResult] fields once it was graded. *)
Inductive document : Type :=
  | AssessmentDoc (a : AssessmentCreate)
  | SubmissionDoc (s : SubmissionCreate) (g : option GradeResult).

(** [db]: the collections by name, each a map from [_id] to document. *)
Abbreviation database := (gmap string (gmap string document)).

(** [db[collection].find_one({"_id": oid})] *)
Definition find_one (db : database) (collection : string) (oid : string)
  : option document :=
  (db !!! collection) !! oid.

(** [db[collection].update_one({"_id": oid}, {"$set": ...})]: no change
    when the filter matches nothing. *)
Definition update_one (db : database) (collection : string) (oid : string)
    (set : document -> document) : database :=
  match find_one db collection oid with
  | Some doc => <[collection := <[oid := set doc]> (db !!! collection)]> db
  | None => db
  end.

(** The store's generator of fresh [_id]s. *)
Class Driver : Type := {
  generate_id : database -> string
}.

(** Modelled from the spec: [create_document] of the absent module
    [database], "create_document(collection, data) -> id": the document is
    stored under an id the store assigns, and the id's text is returned. *)
Definition create_document `{Driver} (collection : string) (data : document)
    (db : database) : string * database :=
  let oid := generate_id db in
  (hex_of oid, <[collection := <[oid := data]> (db !!! collection)]> db).

(** ** [POST /submissions] *)

Definition create_submission `{Driver} (payload : SubmissionCreate)
    (db : database) : result (string * SubmissionCreate) * database :=
  match ObjectId (assessment_id payload) with
  | Raise e => (Raise e, db)
  | Ok oid =>
      match find_one db "assessment" oid with
      | None => (Raise (HTTPException 404 "Assessment not found"), db)
      | Some _ =>
          let data := payload in
          let r := create_document "submission" (SubmissionDoc data None) db in
          (Ok (fst r, data), snd r)
      end
  end.

(** ** [POST /submissions/{submission_id}/grade] *)

(** [assessment.get("questions", [])] *)
Definition questions_of (doc : document) : list Question :=
  match doc with
  | AssessmentDoc a => questions a
  | SubmissionDoc _ _ => []
  end.

(** [sub.get("answers", [])] *)
Definition answers_of (doc : document) : list SubmissionAnswer :=
  match doc with
  | SubmissionDoc s _ => answers s
  | AssessmentDoc _ => []
  end.

(** [sub["assessment_id"]] *)
Definition assessment_id_of (doc : document) : result string :=
  match doc with
  | SubmissionDoc s _ => Ok (assessment_id s)
  | AssessmentDoc _ => Raise KeyError
  end.

(** The [$set] of the grade fields. *)
Definition set_grade (g : GradeResult) (doc : document) : document :=
  match doc with
  | SubmissionDoc s _ => SubmissionDoc s (Some g)
  | AssessmentDoc a => AssessmentDoc a
  end.

Definition grade_submission `{PyRuntime} (submission_id : string)
    (db : database) : result GradeResult * database :=
  match ObjectId submission_id with
  | Raise e => (Raise e, db)
  | Ok sid =>
      match find_one db "submission" sid with
      | None => (Raise (HTTPException 404 "Submission not found"), db)
      | Some sub =>
          match aid ← assessment_id_of sub; ObjectId aid with
          | Raise e => (Raise e, db)
          | Ok aid =>
              match find_one db "assessment" aid with
              | None =>
                  (Raise (HTTPException 404 "Assessment not found for submission"), db)
              | Some assessment =>
                  match grade (questions_of assessment) (answers_of sub) with
                  | Raise e => (Raise e, db)
                  | Ok g => (Ok g, update_one db "submission" sid (set_grade g))
                  end
              end
          end
      end
  end.

End Endpoints.

(* ===================================================================== *)
(** * Notions the statements use                                          *)
(* ===================================================================== *)

Module Spec.
Import Float64 PyStr PyVal Models Grading Endpoints.

(** The integers (in units of [2^-1074]) with a significand of at most 53
    bits: the magnitudes a float can have. *)
Definition representable (n : Z) : Prop :=
  exists m e, n = m * 2 ^ e /\ Z.abs m < 2 ^ 53 /\ 0 <= e.

(** [min(1, k / 5)] computed exactly and then rounded once: the float
    nearest to it. *)
Definition min_one_fifth (k : Z) : float :=
  pack false (nearest_even (Z.min (5 * unit_) (k * unit_)) 5).

(** The sum of the [earned] fields of a feedback list. *)
Definition earned_total (fbs : list Feedback) : Z :=
  List.fold_right (fun fb acc => fb_earned fb + acc) 0 fbs.

(** [sys.maxsize]: no Python string or list is longer. *)
Definition sys_maxsize : Z := 2 ^ 63 - 1.

(** Whether [fmul] (and [fdiv]) gives what the Standard Library's [SFmul]
    (and [SFdiv]) gives at binary64. *)
Definition agrees_mul (x y : float) : bool :=
  match to_SF (fmul x y), SFmul 53 1024 (to_SF x) (to_SF y) with
  | S754_finite s m e, S754_finite s' m' e' =>
      Bool.eqb s s' && Pos.eqb m m' && Z.eqb e e'
  | S754_zero s, S754_zero s' | S754_infinity s, S754_infinity s' => Bool.eqb s s'
  | S754_nan, S754_nan => true
  | _, _ => false
  end.

Definition agrees_div (x y : float) : bool :=
  match to_SF (fdiv x y), SFdiv 53 1024 (to_SF x) (to_SF y) with
  | S754_finite s m e, S754_finite s' m' e' =>
      Bool.eqb s s' && Pos.eqb m m' && Z.eqb e e'
  | S754_zero s, S754_zero s' | S754_infinity s, S754_infinity s' => Bool.eqb s s'
  | S754_nan, S754_nan => true
  | _, _ => false
  end.

(** Pairs of floats to compare the two models on: every pair of the
    special values, and finite pairs whose results are inexact, tied in the
    subnormal range, negative, overflowing and underflowing. *)
Definition specials : list float :=
  [ f0_0; NegZero; f1_0; Inf false; Inf true; NaN ].

Definition sample_pairs : list (float * float) :=
  list_prod specials specials ++
  [ (Fin (10 * unit_), f0_3);
    (Fin 1, f0_5);
    (literal (-7) 3, literal 123456789 0);
    (Fin ((2 ^ 53 - 1) * 2 ^ 2045), literal 2 0);
    (Fin 1, Fin (- (2 ^ 2097)));
    (Fin (9007199254740996 * unit_), f1_0);
    (literal 46153846153846156 17, f100_0) ].

(** Ints to compare [float_of_int] with [binary_normalize] on. *)
Definition sample_ints : list Z :=
  [ 0; 1; -1; 5; 13; 2 ^ 53; 2 ^ 53 + 1; 2 ^ 53 + 3; - (2 ^ 53 + 3);
    2 ^ 60 + 2 ^ 7; 2 ^ 60 + 2 ^ 7 + 1; 2 ^ 1024 - 2 ^ 970; 2 ^ 1024 ].

(** Whether [float_of_int] gives what [binary_normalize] gives ([Raise]
    against the infinity that stands for an overflow there). *)
Definition agrees_int (z : Z) : bool :=
  match float_of_int z, binary_normalize 53 1024 z 0 false with
  | Ok x, S754_finite s' m' e' =>
      match to_SF x with
      | S754_finite s m e => Bool.eqb s s' && Pos.eqb m m' && Z.eqb e e'
      | _ => false
      end
  | Ok x, S754_zero _ => is_zero x
  | Raise OverflowError, S754_infinity _ => true
  | _, _ => false
  end.

(** Whether [int_truediv] gives what [SFdiv] gives on the two ints as
    (unnormalised) floats. *)
Definition agrees_truediv (ab : Z * Z) : bool :=
  match int_truediv (fst ab) (snd ab),
        SFdiv 53 1024 (S754_finite (fst ab <? 0) (Z.to_pos (Z.abs (fst ab))) 0)
                      (S754_finite (snd ab <? 0) (Z.to_pos (Z.abs (snd ab))) 0) with
  | Ok x, S754_finite s' m' e' =>
      match to_SF x with
      | S754_finite s m e => Bool.eqb s s' && Pos.eqb m m' && Z.eqb e e'
      | _ => false
      end
  | _, _ => false
  end.

Definition sample_quotients : list (Z * Z) :=
  [ (6, 13); (2, 5); (1, 3); (-1, 100000); (9007199254740996, 9007199254740995);
    (1, 2 ^ 1074); (3, 2 ^ 1075) ].

(** The floats [0.0], [0.2], [0.4], [0.6], [0.8] and [1.0]. *)
Definition fifths : list float :=
  [ f0_0;
    Fin (7205759403792794 * 2 ^ 1019);
    Fin (7205759403792794 * 2 ^ 1020);
    f0_6;
    Fin (7205759403792794 * 2 ^ 1021);
    f1_0 ].

(** Every value [correctness] can take: the six fifths, [0.3] and [0.5]. *)
Definition credits : list float := fifths ++ [f0_3; f0_5].

(** A float between [0.0] and [1.0]. *)
Definition unit_interval (c : float) : Prop :=
  exists n, c = Fin n /\ 0 <= n <= unit_.

(** A string as long as a Python str can be. *)
Definition python_sized (s : string) : Prop :=
  Z.of_nat (String.length s) <= sys_maxsize.


(** ** Sample data *)

(** A runtime for the examples; none of them prints a float. *)
Definition sample_runtime : PyRuntime :=
  {| repr_float := fun _ => "nan"%string;
     repr_str := fun s => ("'" +:+ s +:+ "'")%string |}.

(** A driver for the examples. *)
Definition sample_driver : Driver :=
  {| generate_id := fun _ => "abcdefghijkl"%string |}.

(** The three questions of [create_assessment_from_upload] for a file named
    [upload]. *)
Definition template_short : Question :=
  {| prompt := "Describe the main concept from upload.";
     type := "short_answer";
     options := None;
     answer_key := PNone;
     points := 5 |}.

Definition template_choice : Question :=
  {| prompt := "Which option best matches the definition?";
     type := "multiple_choice";
     options := Some ["Option A"; "Option B"; "Option C"; "Option D"]%string;
     answer_key := PInt 1;
     points := 3 |}.

Definition template_essay : Question :=
  {| prompt := "Write a short essay explaining the implications.";
     type := "essay";
     options := None;
     answer_key := PNone;
     points := 10 |}.

(** A multiple-choice question stored without an [answer_key]. *)
Definition choice_without_key : Question :=
  {| prompt := "Which option best matches the definition?";
     type := "multiple_choice";
     options := Some ["Option A"; "Option B"]%string;
     answer_key := PNone;
     points := 3 |}.

(** A multiple-choice question worth [2^53 + 3] points. *)
Definition choice_with_large_points : Question :=
  {| prompt := "Which option best matches the definition?";
     type := "multiple_choice";
     options := None;
     answer_key := PInt 1;
     points := 9007199254740995 |}.

(** An unanswered question worth [pts] points. *)
Definition plain_question (pts : Z) : Question :=
  {| prompt := "Explain."; type := "short_answer"; options := None;
     answer_key := PNone; points := pts |}.

Definition answer_at (i : Z) (v : pyval) : SubmissionAnswer :=
  {| question_index := i; answer := v |}.

(** A text of 50 characters. *)
Definition fifty_characters : string :=
  "The implications are broad and touch every field..".

(** ** Three statements of the specification that the code refutes *)

(** "If [answer_key] is absent ... correctness stays at the pre-set default
    (0.5)", for an answered multiple-choice question. *)
Definition absent_key_keeps_default : Prop :=
  forall (rt : PyRuntime) (q : Question) (ua : SubmissionAnswer),
    type q = "multiple_choice"%string -> answer_key q = PNone ->
    exists rationale, correctness_of q (Some ua) = Ok (f0_5, rationale).

(** The [assessment_id] resolves to a stored assessment. *)
Definition resolves (db : database) (id : string) : Prop :=
  exists oid doc, ObjectId id = Ok oid /\ find_one db "assessment" oid = Some doc.

(** "Submission references a non-existent [assessment_id]: the request
    fails with NotFound, no record persisted." *)
Definition unresolved_is_not_found : Prop :=
  forall (drv : Driver) (payload : SubmissionCreate) (db : database),
    ~ resolves db (assessment_id payload) ->
    create_submission payload db =
      (Raise (HTTPException 404 "Assessment not found"), db).

(** With non-negative points, [correctness] is within 0.0 and 1.0, every
    question earns between 0 and its points, and the score is within 0.0
    and 100.0 when [total_points > 0]. *)
Definition earned_within_points : Prop :=
  forall (rt : PyRuntime) (qs : list Question) (answers : list SubmissionAnswer)
         (r : GradeResult),
    (forall q, In q qs -> 0 <= points q) ->
    grade qs answers = Ok r ->
    (forall fb, In fb (feedback r) ->
       fle f0_0 (fb_correctness fb) = true /\ fle (fb_correctness fb) f1_0 = true /\
       0 <= fb_earned fb <= fb_points fb) /\
    (0 < total_points r ->
       fle f0_0 (score r) = true /\ fle (score r) f100_0 = true).

End Spec.

(* ===================================================================== *)
(** * Documents as the endpoints return them                              *)
(* ===================================================================== *)

Module Documents.
Import Float64 PyStr PyVal Endpoints.

(** What a key of a stored document can hold: the values of JSON, and the
    store's [ObjectId]s. *)
#[warnings="-register-all"] Inductive bson : Type :=
  | BNull
  | BBool (b : bool)
  | BInt (n : Z)
  | BDouble (x : float)
  | BString (s : string)
  | BObjectId (oid : string)
  | BArray (items : list bson)
  | BDocument (fields : gmap string bson).

(** A [Dict[str, Any]] as a map from its keys: the order of the keys, which
    no step of [serialize_doc] looks at, is not kept. *)
Abbreviation dict := (gmap string bson).

(** [repr] of the values whose [str] is not modelled: a float, a list, a
    dict (and [None], a bool, an int, for which it is fixed below). *)
Class BsonRuntime : Type := {
  repr_value : bson -> string
}.

(** [str(v)]: the 24 hex digits of an [ObjectId], a str itself. *)
Definition bson_str `{BsonRuntime} (v : bson) : string :=
  match v with
  | BObjectId oid => hex_of oid
  | BString s => s
  | BNull => "None"
  | BBool true => "True"
  | BBool false => "False"
  | BInt n => str_of_int n
  | _ => repr_value v
  end.

(** [str(x) if isinstance(x, ObjectId) else x] *)
Definition str_if_object_id (x : bson) : bson :=
  match x with
  | BObjectId oid => BString (hex_of oid)
  | _ => x
  end.

(** One turn of the loop of [serialize_doc]: the value left under a key
    that held [v]. *)
Definition convert (v : bson) : bson :=
  match v with
  | BObjectId oid => BString (hex_of oid)
  | BArray items => BArray (List.map str_if_object_id items)
  | _ => v
  end.

(** [serialize_doc(doc)]; [None] is Python's [None]. *)
Definition serialize_doc `{BsonRuntime} (doc : option dict) : option dict :=
  match doc with
  | None => None
  | Some doc =>
      if decide (doc = ∅) then Some doc
      else
        let d := doc in
        let d := match d !! "_id" with
                 | Some v => <["id" := BString (bson_str v)]> (delete "_id" d)
                 | None => d
                 end in
        Some (convert <$> d)
  end.

End Documents.

(* ===================================================================== *)
(** * The assessment endpoints                                            *)
(* ===================================================================== *)

Module Assessments.
Import Float64 PyStr PyVal Models Grading Endpoints.

(** [class Assessment(AssessmentCreate)]: the fields of an
    [AssessmentCreate] and the [id]. *)
Record Assessment : Type := {
  id : option string;
  fields : AssessmentCreate
}.

(** ** [POST /assessments] *)

(** The document is stored first; [ObjectId(inserted_id)] can then raise,
    and what [find_one] returns is not used. *)
Definition create_assessment `{Driver} (payload : AssessmentCreate)
    (db : database) : result Assessment * database :=
  let data := payload in
  let r := create_document "assessment" (AssessmentDoc data) db in
  let inserted_id := fst r in
  match ObjectId inserted_id with
  | Raise e => (Raise e, snd r)
  | Ok oid =>
      let doc := find_one (snd r) "assessment" oid in
      (Ok {| id := Some inserted_id; fields := data |}, snd r)
  end.

(** ** [POST /assessments/from-upload] *)

(** [file.filename or "upload"] *)
Definition filename_or_upload (filename : option string) : string :=
  match filename with
  | Some (String c s) => String c s
  | _ => "upload"
  end.

Definition fake_questions (filename : string) : list Question :=
  [ {| prompt := "Describe the main concept from " +:+ filename +:+ ".";
       type := "short_answer";
       options := None;
       answer_key := PNone;
       points := 5 |};
    {| prompt := "Which option best matches the definition?";
       type := "multiple_choice";
       options := Some ["Option A"; "Option B"; "Option C"; "Option D"]%string;
       answer_key := PInt 1;
       points := 3 |};
    {| prompt := "Write a short essay explaining the implications.";
       type := "essay";
       options := None;
       answer_key := PNone;
       points := 10 |} ].

(** The three query parameters are strs; [filename] is the name the upload
    came with, if any. *)
Definition create_assessment_from_upload `{Driver}
    (title description source_type : string) (filename : option string)
    (db : database) : Assessment * database :=
  let filename := filename_or_upload filename in
  let payload :=
    {| title := title;
       description := Some description;
       source_type := Some source_type;
       source_reference := Some filename;
       questions := fake_questions filename |} in
  let r := create_document "assessment" (AssessmentDoc payload) db in
  ({| id := Some (fst r); fields := payload |}, snd r).

End Assessments.

(* ===================================================================== *)
(** * Sample data for the endpoints                                       *)
(* ===================================================================== *)

Module Samples.
Import Float64 PyStr PyVal Models Grading Endpoints Spec Documents Assessments.

(** The id [sample_driver] assigns, and its text. *)
Definition sample_id : string := "abcdefghijkl".
Definition sample_id_text : string := "6162636465666768696a6b6c".

(** A driver whose ids are not those of the store. *)
Definition short_id_driver : Driver :=
  {| generate_id := fun _ => "abc"%string |}.

Definition sample_assessment : AssessmentCreate :=
  {| title := "Quiz";
     description := None;
     source_type := None;
     source_reference := None;
     questions := [template_choice] |}.

Definition sample_submission : SubmissionCreate :=
  {| assessment_id := sample_id_text;
     student_name := Some "Ada"%string;
     answers := [answer_at 0 (PInt 1)] |}.

(** The grade of [sample_submission]: 3 of 3 points. *)
Definition sample_grade : GradeResult :=
  {| graded := true;
     total_points := 3;
     score := f100_0;
     feedback := [ {| fb_question_index := 0; fb_points := 3; fb_earned := 3;
                      fb_correctness := f1_0;
                      fb_feedback := "Correct option" |} ] |}.

Definition store_with_assessment : database :=
  {[ "assessment"%string := {[ sample_id := AssessmentDoc sample_assessment ]} ]}.

Definition store_with_submission : database :=
  <[ "submission"%string := {[ sample_id := SubmissionDoc sample_submission None ]} ]>
    store_with_assessment.

Definition store_with_grade : database :=
  <[ "submission"%string :=
       {[ sample_id := SubmissionDoc sample_submission (Some sample_grade) ]} ]>
    store_with_assessment.

(** A runtime for the examples; none of them prints a float, a list or a
    dict. *)
Definition sample_bson_runtime : BsonRuntime :=
  {| repr_value := fun _ => "?"%string |}.

(** A stored document with its [_id] and a list of two [ObjectId]s. *)
Definition sample_document : dict :=
  <[ "_id"%string := BObjectId sample_id ]>
    (<[ "title"%string := BString "Quiz" ]>
       {[ "owners"%string := BArray [BObjectId sample_id; BInt 7] ]}).

End Samples.

(* ===================================================================== *)
(** * Words of a text, as the specification describes them                *)
(* ===================================================================== *)

Module WordSpec.
Import PyStr.

(** No character of [w] is whitespace. *)
Fixpoint no_space (w : string) : bool :=
  match w with
  | EmptyString => true
  | String c w' => negb (isspace c) && no_space w'
  end.

(** [s] is empty or begins with a whitespace character. *)
Definition starts_blank (s : string) : Prop :=
  match s with
  | EmptyString => True
  | String c _ => isspace c = true
  end.

(** [s] is empty or ends with a whitespace character. *)
Definition ends_blank (s : string) : Prop :=
  s = EmptyString \/
  exists s' c, s = s' +:+ String c EmptyString /\ isspace c = true.

(** Following the specification, "splitting on whitespace into words":
    [w] is a whitespace-separated word of [s] when it is a non-empty run
    of non-whitespace characters of [s] with whitespace, or an end of [s],
    on either side.  It does not mention [split]. *)
Definition word_of (w s : string) : Prop :=
  w <> EmptyString /\ no_space w = true /\
  exists pre post, s = pre +:+ w +:+ post /\ ends_blank pre /\ starts_blank post.

(** What [split_from acc s] gives: the run of [s] that continues [acc], and
    the runs of [s] that begin after a whitespace character. *)
Definition first_word (acc w s : string) : Prop :=
  w <> EmptyString /\
  exists r post, s = r +:+ post /\ no_space r = true /\ w = acc +:+ r /\
                 starts_blank post.

Definition later_word (w s : string) : Prop :=
  exists pre c rest,
    s = pre +:+ String c rest /\ isspace c = true /\ first_word EmptyString w rest.

(** An answer text with a tab and a line feed between its words. *)
Definition tabbed_answer : string :=
  "describe" +:+ String "009"%char
    ("THE" +:+ String "010"%char "main Concept FROM upload.").

End WordSpec.

(* ===================================================================== *)
(** * Facts about the float model                                         *)
(* ===================================================================== *)

Module Float64Facts.
Import Float64 Spec.

Lemma unit_pos : 0 < unit_.
Proof. unfold unit_. apply Z.pow_pos_nonneg; lia. Qed.

Lemma pow2_pos (k : Z) : 0 <= k -> 0 < 2 ^ k.
Proof. intros. apply Z.pow_pos_nonneg; lia. Qed.

(** ** Rounding a quotient to an integer *)

Lemma round_half_even_cases (p d : Z) :
  0 < d ->
  round_half_even p d = p / d \/
  (round_half_even p d = p / d + 1 /\ 0 < p mod d).
Proof.
  intros Hd. unfold round_half_even.
  pose proof (Z.mod_pos_bound p d Hd) as Hr.
  destruct (Z.ltb_spec (2 * (p mod d)) d); [now left|].
  destruct (Z.ltb_spec d (2 * (p mod d))); [right; lia|].
  destruct (Z.even (p / d)); [now left | right; lia].
Qed.

Lemma round_half_even_le (p d a : Z) :
  0 < d -> p <= a * d -> round_half_even p d <= a.
Proof.
  intros Hd Hp.
  pose proof (Z.div_mod p d ltac:(lia)) as Hdm.
  pose proof (Z.mod_pos_bound p d Hd) as Hr.
  destruct (round_half_even_cases p d Hd) as [-> | [-> Hpos]]; nia.
Qed.

Lemma round_half_even_ge (p d a : Z) :
  0 < d -> a * d <= p -> a <= round_half_even p d.
Proof.
  intros Hd Hp.
  pose proof (Z.div_mod p d ltac:(lia)) as Hdm.
  pose proof (Z.mod_pos_bound p d Hd) as Hr.
  destruct (round_half_even_cases p d Hd) as [-> | [-> Hpos]]; nia.
Qed.

Lemma round_half_even_exact (a d : Z) :
  0 < d -> round_half_even (a * d) d = a.
Proof.
  intros Hd. apply Z.le_antisymm.
  - apply round_half_even_le; lia.
  - apply round_half_even_ge; lia.
Qed.

Lemma round_half_even_scale (p d c : Z) :
  0 < d -> 0 < c -> round_half_even (p * c) (d * c) = round_half_even p d.
Proof.
  intros Hd Hc. unfold round_half_even.
  rewrite Z.div_mul_cancel_r by lia.
  rewrite Zmult_mod_distr_r.
  replace (2 * (p mod d * c)) with (2 * (p mod d) * c) by ring.
  destruct (Z.ltb_spec (2 * (p mod d)) d), (Z.ltb_spec (2 * (p mod d) * c) (d * c));
    try nia.
  destruct (Z.ltb_spec d (2 * (p mod d))), (Z.ltb_spec (d * c) (2 * (p mod d) * c));
    try nia; reflexivity.
Qed.

(** ** Representable magnitudes *)

Lemma representable_divide (y k : Z) :
  representable y -> 0 <= k -> 2 ^ (52 + k) <= Z.abs y -> (2 ^ k | y).
Proof.
  intros (m & e & -> & Hm & He) Hk Hy.
  destruct (Z_le_gt_dec k e) as [Hke | Hke].
  - exists (m * 2 ^ (e - k)).
    rewrite <- Z.mul_assoc, <- Z.pow_add_r by lia.
    f_equal. f_equal. lia.
  - exfalso.
    rewrite Z.abs_mul, (Z.abs_eq (2 ^ e)) in Hy by (apply Z.pow_nonneg; lia).
    assert (H1 : 2 ^ (52 + k) = 2 ^ 53 * 2 ^ e * 2 ^ (k - e - 1)).
    { rewrite <- !Z.pow_add_r by lia. f_equal. lia. }
    pose proof (pow2_pos e He). pose proof (pow2_pos (k - e - 1) ltac:(lia)).
    remember (2 ^ 53) as B. remember (2 ^ e) as E. remember (2 ^ (k - e - 1)) as R.
    nia.
Qed.

Lemma representable_int (t : Z) :
  Z.abs t <= 2 ^ 53 -> representable (t * unit_).
Proof.
  intros Ht. destruct (Z.eq_dec (Z.abs t) (2 ^ 53)) as [E | NE].
  - exists (Z.sgn t), 1127. split; [|split]; [| destruct t; simpl; lia | lia].
    unfold unit_. replace 1127 with (53 + 1074) by reflexivity.
    rewrite Z.pow_add_r by lia. rewrite <- E.
    rewrite Z.mul_assoc. f_equal. symmetry. rewrite Z.mul_comm. apply Z.abs_sgn.
  - exists t, 1074. unfold unit_. split; [reflexivity | lia].
Qed.


(** ** Rounding to the nearest float *)

Lemma grid_exponent (p q : Z) :
  let k := Z.max 0 (Z.log2 (p / q) - 52) in
  0 <= k /\ (0 < k -> 2 ^ (52 + k) <= p / q).
Proof.
  cbv zeta. split; [lia|]. intros Hk.
  assert (Hl : 53 <= Z.log2 (p / q)) by lia.
  assert (Hpos : 0 < p / q).
  { destruct (Z_lt_le_dec 0 (p / q)); [assumption|].
    rewrite Z.log2_nonpos in Hl; lia. }
  replace (52 + Z.max 0 (Z.log2 (p / q) - 52)) with (Z.log2 (p / q)) by lia.
  apply Z.log2_spec; assumption.
Qed.

Lemma nearest_even_le (p q y : Z) :
  0 <= p -> 0 < q -> representable y -> p <= y * q -> nearest_even p q <= y.
Proof.
  intros Hp Hq Hy Hle. unfold nearest_even.
  destruct (grid_exponent p q) as [Hk Hbig].
  set (k := Z.max 0 (Z.log2 (p / q) - 52)) in *.
  pose proof (pow2_pos k Hk) as H2k.
  assert (Hfl : p / q <= y).
  { apply Z.div_le_upper_bound; lia. }
  assert (Hy0 : 0 <= y).
  { pose proof (Z.div_pos p q Hp Hq). lia. }
  assert (Hdiv : (2 ^ k | y)).
  { destruct (Z.eq_dec k 0) as [-> | Hne].
    - exists y. rewrite Z.pow_0_r. lia.
    - apply representable_divide; [assumption | lia |].
      rewrite Z.abs_eq by lia. specialize (Hbig ltac:(lia)). lia. }
  destruct Hdiv as [c ->].
  apply Z.mul_le_mono_nonneg_r; [lia|].
  apply round_half_even_le; nia.
Qed.

Lemma nearest_even_ge (p q y : Z) :
  0 <= p -> 0 < q -> representable y -> y * q <= p -> y <= nearest_even p q.
Proof.
  intros Hp Hq Hy Hle. unfold nearest_even.
  destruct (grid_exponent p q) as [Hk Hbig].
  set (k := Z.max 0 (Z.log2 (p / q) - 52)) in *.
  pose proof (pow2_pos k Hk) as H2k.
  destruct (Z_lt_le_dec y (2 ^ (52 + k))) as [Hsmall | Hlarge].
  - destruct (Z.eq_dec k 0) as [Hk0 | Hne].
    + rewrite Hk0, Z.pow_0_r, !Z.mul_1_r.
      apply round_half_even_ge; lia.
    + specialize (Hbig ltac:(lia)).
      apply Z.le_trans with (2 ^ 52 * 2 ^ k).
      * rewrite <- Z.pow_add_r by lia. lia.
      * apply Z.mul_le_mono_nonneg_r; [lia|].
        apply round_half_even_ge; [nia|].
        rewrite Z.pow_add_r in Hbig by lia.
        assert (Hq2 : 2 ^ 52 * 2 ^ k * q <= p).
        { pose proof (Z.mul_div_le p q Hq). nia. }
        lia.
  - assert (Hy0 : 0 <= y) by (pose proof (pow2_pos (52 + k) ltac:(lia)); lia).
    destruct (representable_divide y k Hy Hk) as [c ->].
    { rewrite Z.abs_eq by lia. assumption. }
    apply Z.mul_le_mono_nonneg_r; [lia|].
    apply round_half_even_ge; nia.
Qed.

Lemma nearest_even_exact (y q : Z) :
  0 <= y -> 0 < q -> representable y -> nearest_even (y * q) q = y.
Proof.
  intros Hy Hq Hr. apply Z.le_antisymm.
  - apply nearest_even_le; [nia | assumption | assumption | lia].
  - apply nearest_even_ge; [nia | assumption | assumption | lia].
Qed.

Lemma nearest_even_nonneg (p q : Z) :
  0 <= p -> 0 < q -> 0 <= nearest_even p q.
Proof.
  intros Hp Hq. apply nearest_even_ge; [assumption | assumption | | lia].
  exists 0, 0. split; [reflexivity | split; [simpl; lia | lia]].
Qed.

(** ** Powers of two below [huge] *)

Lemma representable_pow2 (e : Z) : 0 <= e -> representable (2 ^ e).
Proof.
  intros He. exists 1, e. split; [lia | split; [simpl; lia | assumption]].
Qed.

Lemma int_units_lt_huge (t : Z) : Z.abs t <= 2 ^ 53 -> Z.abs t * unit_ < huge.
Proof.
  intros Ht. unfold unit_, huge.
  apply Z.le_lt_trans with (2 ^ 53 * 2 ^ 1074).
  - apply Z.mul_le_mono_nonneg_r; [apply Z.pow_nonneg; lia | assumption].
  - rewrite <- Z.pow_add_r by lia. apply Z.pow_lt_mono_r; lia.
Qed.

Lemma unit_lt_huge : unit_ < huge.
Proof. unfold unit_, huge. apply Z.pow_lt_mono_r; lia. Qed.

(** ** Conversions *)

Lemma float_of_int_exact (z : Z) :
  Z.abs z <= 2 ^ 53 -> float_of_int z = Ok (Fin (z * unit_)).
Proof.
  intros Hz. unfold float_of_int.
  replace (Z.abs z * unit_) with (Z.abs z * unit_ * 1) by lia.
  rewrite nearest_even_exact;
    [ | pose proof unit_pos; nia | lia | apply representable_int; lia ].
  pose proof (int_units_lt_huge z Hz) as Hlt.
  destruct (Z.leb_spec huge (Z.abs z * unit_)); [lia|].
  f_equal. f_equal. destruct (Z.ltb_spec z 0); nia.
Qed.

(** A float of a non-negative int is finite and on the same side of every
    exactly representable int as the int itself. *)
Lemma float_of_int_nonneg (z : Z) (x : float) :
  0 <= z -> float_of_int z = Ok x ->
  exists n, x = Fin n /\ 0 <= n < huge /\
    (forall t, Z.abs t <= 2 ^ 53 -> t <= z -> t * unit_ <= n) /\
    (forall t, Z.abs t <= 2 ^ 53 -> z <= t -> n <= t * unit_).
Proof.
  intros Hz. unfold float_of_int.
  rewrite (Z.abs_eq z) by lia.
  destruct (Z.leb_spec huge (nearest_even (z * unit_) 1)) as [|Hlt]; [discriminate|].
  destruct (Z.ltb_spec z 0); [lia|].
  intros [= <-]. eexists; split; [reflexivity|].
  pose proof unit_pos as HU.
  split; [split; [apply nearest_even_nonneg; nia | assumption] |].
  split; intros t Ht Hle.
  - apply nearest_even_ge; [nia | lia | apply representable_int; assumption | nia].
  - apply nearest_even_le; [nia | lia | apply representable_int; assumption | nia].
Qed.

Lemma float_of_int_defined (z : Z) :
  Z.abs z <= 2 ^ 1023 -> exists x, float_of_int z = Ok x.
Proof.
  intros Hz. unfold float_of_int.
  pose proof unit_pos as HU.
  assert (Hle : nearest_even (Z.abs z * unit_) 1 <= 2 ^ 2097).
  { apply nearest_even_le; [nia | lia | apply representable_pow2; lia |].
    replace (2 ^ 2097) with (2 ^ 1023 * unit_).
    - nia.
    - unfold unit_. rewrite <- Z.pow_add_r by lia. f_equal. }
  assert (Hh : 2 ^ 2097 < huge) by (unfold huge; apply Z.pow_lt_mono_r; lia).
  destruct (Z.leb_spec huge (nearest_even (Z.abs z * unit_) 1)); [lia|].
  eexists; reflexivity.
Qed.

(** ** Products and quotients of non-negative floats *)

Lemma pack_pos (m : Z) : 0 <= m < huge -> pack false m = Fin m.
Proof.
  intros [H0 Hh]. unfold pack.
  destruct (Z.leb_spec huge m); [lia|].
  destruct (Z.eqb_spec m 0); [subst; reflexivity | reflexivity].
Qed.

Lemma fmul_bounded (a b y : Z) :
  0 <= a -> 0 <= b -> representable y -> y < huge -> a * b <= y * unit_ ->
  exists n, fmul (Fin a) (Fin b) = Fin n /\ 0 <= n <= y.
Proof.
  intros Ha Hb Hy Hh Hle. unfold fmul, sign_of, magnitude.
  destruct (Z.ltb_spec a 0); [lia|]. destruct (Z.ltb_spec b 0); [lia|].
  rewrite !Z.abs_eq by lia. simpl xorb.
  pose proof unit_pos as HU.
  assert (G0 : 0 <= nearest_even (a * b) unit_) by (apply nearest_even_nonneg; nia).
  assert (G1 : nearest_even (a * b) unit_ <= y) by (apply nearest_even_le; [nia|lia|assumption|lia]).
  rewrite pack_pos by lia. eexists; split; [reflexivity | lia].
Qed.

Lemma fmul_at_least (a b y : Z) :
  0 <= a -> 0 <= b -> representable y -> y * unit_ <= a * b ->
  fle (Fin y) (fmul (Fin a) (Fin b)) = true.
Proof.
  intros Ha Hb Hy Hle. unfold fmul, sign_of, magnitude.
  destruct (Z.ltb_spec a 0); [lia|]. destruct (Z.ltb_spec b 0); [lia|].
  rewrite !Z.abs_eq by lia. simpl xorb.
  pose proof unit_pos as HU.
  assert (G1 : y <= nearest_even (a * b) unit_) by (apply nearest_even_ge; [nia|lia|assumption|lia]).
  unfold pack. destruct (Z.leb_spec huge (nearest_even (a * b) unit_)); [reflexivity|].
  destruct (Z.eqb_spec (nearest_even (a * b) unit_) 0) as [E|NE]; simpl; apply Z.leb_le; lia.
Qed.

Lemma int_truediv_bounded (a b t : Z) :
  0 <= a -> 0 < b -> Z.abs t <= 2 ^ 53 -> a <= t * b ->
  exists n, int_truediv a b = Ok (Fin n) /\ 0 <= n <= t * unit_.
Proof.
  intros Ha Hb Ht Hle. unfold int_truediv.
  destruct (Z.eqb_spec b 0); [lia|].
  rewrite (Z.abs_eq a), (Z.abs_eq b) by lia.
  pose proof unit_pos as HU.
  assert (G0 : 0 <= nearest_even (a * unit_) b) by (apply nearest_even_nonneg; nia).
  assert (G1 : nearest_even (a * unit_) b <= t * unit_).
  { apply nearest_even_le; [nia | lia | apply representable_int; assumption | nia]. }
  assert (Ht0 : 0 <= t) by nia.
  pose proof (int_units_lt_huge t Ht) as Hh. rewrite Z.abs_eq in Hh by lia.
  destruct (Z.leb_spec huge (nearest_even (a * unit_) b)); [lia|].
  destruct (Z.ltb_spec a 0); [lia|]. destruct (Z.ltb_spec b 0); [lia|].
  simpl xorb. rewrite pack_pos by lia. eexists; split; [reflexivity | lia].
Qed.

(** ** Rounding floats *)

Lemma py_round_bounds (n lo hi : Z) :
  lo * unit_ <= n <= hi * unit_ ->
  exists r, py_round (Fin n) = Ok r /\ lo <= r <= hi.
Proof.
  intros [Hlo Hhi]. pose proof unit_pos as HU.
  eexists; split; [reflexivity|]. split.
  - apply round_half_even_ge; assumption.
  - apply round_half_even_le; assumption.
Qed.

Lemma py_round2_bounded (n t : Z) :
  0 <= n <= t * unit_ -> Z.abs t <= 2 ^ 53 ->
  exists n', py_round2 (Fin n) = Fin n' /\ 0 <= n' <= t * unit_.
Proof.
  intros [H0 Hle] Ht. pose proof unit_pos as HU. unfold py_round2.
  destruct (Z.ltb_spec n 0); [lia|].
  set (h := round_half_even (100 * n) unit_).
  assert (Hh0 : 0 <= h) by (apply round_half_even_ge; lia).
  assert (Hh1 : h <= 100 * t) by (apply round_half_even_le; lia).
  rewrite (Z.abs_eq h) by lia.
  assert (Ht0 : 0 <= t) by nia.
  assert (G0 : 0 <= nearest_even (h * unit_) 100) by (apply nearest_even_nonneg; nia).
  assert (G1 : nearest_even (h * unit_) 100 <= t * unit_).
  { apply nearest_even_le; [nia | lia | apply representable_int; assumption | nia]. }
  pose proof (int_units_lt_huge t Ht) as Hh. rewrite Z.abs_eq in Hh by lia.
  rewrite pack_pos by lia. eexists; split; [reflexivity | lia].
Qed.

(** ** The rounded magnitude is a float *)

Lemma representable_scaled (t e : Z) :
  Z.abs t <= 2 ^ 53 -> 0 <= e -> representable (t * 2 ^ e).
Proof.
  intros Ht He. destruct (Z.eq_dec (Z.abs t) (2 ^ 53)) as [E | NE].
  - exists (Z.sgn t), (53 + e). split; [|split]; [| destruct t; simpl; lia | lia].
    rewrite Z.pow_add_r by lia. rewrite <- E.
    rewrite Z.mul_assoc. f_equal. symmetry. rewrite Z.mul_comm. apply Z.abs_sgn.
  - exists t, e. split; [reflexivity | lia].
Qed.

Lemma nearest_even_representable (p q : Z) :
  0 <= p -> 0 < q -> representable (nearest_even p q).
Proof.
  intros Hp Hq. unfold nearest_even.
  destruct (grid_exponent p q) as [Hk Hbig].
  set (k := Z.max 0 (Z.log2 (p / q) - 52)) in *.
  pose proof (pow2_pos k Hk) as H2k.
  apply representable_scaled; [|assumption].
  assert (Hfl0 : 0 <= p / q) by (apply Z.div_pos; lia).
  assert (Hup : p / q < 2 ^ (53 + k)).
  { destruct (Z.eq_dec (p / q) 0) as [E | NE].
    - rewrite E. apply pow2_pos. lia.
    - pose proof (Z.log2_spec (p / q) ltac:(lia)) as [_ Hlt].
      eapply Z.lt_le_trans; [exact Hlt|].
      apply Z.pow_le_mono_r; lia. }
  rewrite Z.pow_add_r in Hup by lia.
  assert (Hp' : p < 2 ^ 53 * 2 ^ k * q).
  { pose proof (Z.div_mod p q ltac:(lia)). pose proof (Z.mod_pos_bound p q Hq). nia. }
  rewrite Z.abs_eq by (apply round_half_even_ge; nia).
  apply round_half_even_le; nia.
Qed.

Lemma float_of_int_representable (z : Z) (n : Z) :
  float_of_int z = Ok (Fin n) -> representable n /\ Z.abs n < huge.
Proof.
  unfold float_of_int. pose proof unit_pos as HU.
  assert (Hr : representable (nearest_even (Z.abs z * unit_) 1))
    by (apply nearest_even_representable; nia).
  assert (H0 : 0 <= nearest_even (Z.abs z * unit_) 1)
    by (apply nearest_even_nonneg; nia).
  destruct (Z.leb_spec huge (nearest_even (Z.abs z * unit_) 1)); [discriminate|].
  intros [= <-]. destruct (z <? 0).
  - split; [|lia]. destruct Hr as (m & e & -> & Hm & He).
    exists (- m), e. split; [ring | lia].
  - split; [assumption | lia].
Qed.

Lemma float_of_int_finite (z : Z) (x : float) :
  float_of_int z = Ok x -> exists n, x = Fin n.
Proof.
  unfold float_of_int.
  destruct (huge <=? nearest_even (Z.abs z * unit_) 1); [discriminate|].
  intros [= <-]. eexists; reflexivity.
Qed.

(** Multiplying a float by a factor of magnitude at most 1 cannot
    overflow, so its product can always be rounded to an int. *)
Lemma py_round_fmul_defined (a b : Z) :
  representable a -> Z.abs a < huge -> Z.abs b <= unit_ ->
  exists r, py_round (fmul (Fin a) (Fin b)) = Ok r.
Proof.
  intros Hr Ha Hb. pose proof unit_pos as HU.
  unfold fmul, magnitude.
  assert (Hle : nearest_even (Z.abs a * Z.abs b) unit_ <= Z.abs a).
  { apply nearest_even_le; [nia | lia | | nia].
    destruct Hr as (m & e & -> & Hm & He).
    exists (Z.abs m), e. rewrite Z.abs_mul, Z.abs_idemp.
    rewrite (Z.abs_eq (2 ^ e)) by (apply Z.pow_nonneg; lia).
    split; [reflexivity | lia]. }
  unfold pack.
  destruct (Z.leb_spec huge (nearest_even (Z.abs a * Z.abs b) unit_)); [lia|].
  destruct (nearest_even (Z.abs a * Z.abs b) unit_ =? 0);
    destruct (xorb (sign_of (Fin a)) (sign_of (Fin b))); eexists; reflexivity.
Qed.

(** ** Halving *)

Lemma unit_twice : unit_ = 2 ^ 1073 * 2.
Proof.
  unfold unit_. replace 1074 with (1073 + 1) by reflexivity.
  rewrite Z.pow_add_r, Z.pow_1_r by lia. reflexivity.
Qed.

Lemma half_of_zero :
  (x ← int_mul_float 0 f0_5; py_round x) = Ok (round_half_even 0 2).
Proof.
  unfold int_mul_float. rewrite float_of_int_exact by (simpl; lia).
  cbn [mbind result_bind]. rewrite Z.mul_0_l.
  unfold fmul, f0_5, magnitude, sign_of. rewrite Z.abs_0, Z.mul_0_l.
  replace (nearest_even 0 unit_) with 0.
  - unfold pack. pose proof unit_pos as HU.
    destruct (Z.leb_spec huge 0) as [Hh|_];
      [pose proof unit_lt_huge; lia|].
    cbn [Z.eqb]. destruct (xorb (0 <? 0) (2 ^ 1073 <? 0)); cbn [py_round].
    + reflexivity.
    + f_equal.
  - symmetry. change 0 with (0 * unit_) at 1.
    apply nearest_even_exact; [lia | apply unit_pos |].
    exists 0, 0. split; [reflexivity | split; [simpl; lia | lia]].
Qed.

Lemma half_of_int (z : Z) :
  Z.abs z <= 2 ^ 53 ->
  (x ← int_mul_float z f0_5; py_round x) = Ok (round_half_even z 2).
Proof.
  intros Hz. destruct (Z.eq_dec z 0) as [-> | Hz0]; [apply half_of_zero|].
  unfold int_mul_float.
  rewrite (float_of_int_exact z Hz). cbn [mbind result_bind].
  unfold fmul, f0_5, magnitude.
  pose proof unit_pos as HU.
  pose proof (pow2_pos 1073 ltac:(lia)) as HP.
  rewrite Z.abs_mul, (Z.abs_eq unit_), (Z.abs_eq (2 ^ 1073)) by lia.
  replace (Z.abs z * unit_ * 2 ^ 1073) with (Z.abs z * 2 ^ 1073 * unit_) by ring.
  rewrite nearest_even_exact;
    [ | nia | lia | apply representable_scaled; lia ].
  assert (Hh : Z.abs z * 2 ^ 1073 < huge).
  { pose proof (int_units_lt_huge z Hz) as Hlt. rewrite unit_twice in Hlt. nia. }
  unfold pack. destruct (Z.leb_spec huge (Z.abs z * 2 ^ 1073)); [lia|].
  unfold sign_of.
  destruct (Z.eqb_spec (Z.abs z * 2 ^ 1073) 0) as [E | NE]; [nia|].
  destruct (Z.ltb_spec (2 ^ 1073) 0); [lia|]. rewrite xorb_false_r.
  assert (Hv : (if z * unit_ <? 0 then - (Z.abs z * 2 ^ 1073) else Z.abs z * 2 ^ 1073)
               = z * 2 ^ 1073).
  { destruct (Z.ltb_spec (z * unit_) 0);
      [rewrite Z.abs_neq by nia | rewrite Z.abs_eq by nia]; ring. }
  rewrite Hv. cbn [py_round]. f_equal.
  rewrite unit_twice, (Z.mul_comm (2 ^ 1073) 2).
  apply round_half_even_scale; lia.
Qed.

Lemma round_half_even_two (z : Z) :
  let r := round_half_even z 2 in
  (Z.even z = true -> z = 2 * r) /\
  (Z.even z = false -> Z.even r = true /\ Z.abs (2 * r - z) = 1).
Proof.
  cbv zeta. unfold round_half_even.
  pose proof (Z.div_mod z 2 ltac:(lia)) as Hdm.
  pose proof (Z.mod_pos_bound z 2 ltac:(lia)) as Hr.
  rewrite Zeven_mod.
  destruct (Z.eqb_spec (z mod 2) 0) as [E | NE].
  - rewrite E. simpl. split; [lia | discriminate].
  - assert (E1 : z mod 2 = 1) by lia. rewrite E1. simpl.
    split; [discriminate|]. intros _.
    destruct (Z.even (z / 2)) eqn:Ev.
    + split; [assumption | lia].
    + split; [| lia]. rewrite Z.even_add, Ev. reflexivity.
Qed.

(** ** [min] *)

Lemma py_min_left (a b : float) : fle a b = true -> py_min a b = a.
Proof.
  unfold py_min, fle, flt. intros H.
  destruct a as [na| |sa|], b as [nb| |sb|]; simpl in *;
    try discriminate; try reflexivity;
    try (destruct sa; try destruct sb; simpl in *; try discriminate; reflexivity);
    try (destruct sb; simpl in *; try discriminate; reflexivity).
  all: try (apply Z.leb_le in H; destruct (Z.ltb_spec nb na); [lia | reflexivity]).
  all: try (apply Z.leb_le in H; destruct (Z.ltb_spec 0 na); [lia | reflexivity]).
  all: try (apply Z.leb_le in H; destruct (Z.ltb_spec nb 0); [lia | reflexivity]).
Qed.

(** ** The literals, and the model against the Standard Library's floats *)

Example literals_rounded :
  literal 0 1 = f0_0 /\ literal 3 1 = f0_3 /\ literal 5 1 = f0_5 /\
  literal 6 1 = f0_6 /\ literal 10 1 = f1_0 /\ literal 50 1 = f5_0 /\
  literal 1000 1 = f100_0.
Proof. vm_compute. repeat split. Qed.

Example literals_as_spec_float :
  to_SF f0_3 = S754_finite false 5404319552844595 (-54) /\
  to_SF f0_5 = S754_finite false 4503599627370496 (-53) /\
  to_SF f0_6 = S754_finite false 5404319552844595 (-53) /\
  to_SF f1_0 = S754_finite false 4503599627370496 (-52) /\
  to_SF f5_0 = S754_finite false 5629499534213120 (-50) /\
  to_SF f100_0 = S754_finite false 7036874417766400 (-46).
Proof. vm_compute. repeat split. Qed.

(** [fmul] and [fdiv] give what [SFmul] and [SFdiv] give at binary64, on
    every pair of [sample_pairs]. *)
Example fmul_fdiv_agree_with_spec_float :
  forallb (fun xy => agrees_mul (fst xy) (snd xy) && agrees_div (fst xy) (snd xy))
          sample_pairs = true.
Proof. vm_cast_no_check (eq_refl true). Qed.

(** [float_of_int] and [int_truediv] give what [binary_normalize] and
    [SFdiv] give, on [sample_ints] and [sample_quotients]. *)
Example conversions_agree_with_spec_float :
  forallb agrees_int sample_ints = true /\
  forallb agrees_truediv sample_quotients = true.
Proof. split; vm_cast_no_check (eq_refl true). Qed.

(** ** The credit of a short answer *)

Lemma nearest_even_scale (p q c : Z) :
  0 < q -> 0 < c -> nearest_even (p * c) (q * c) = nearest_even p q.
Proof.
  intros Hq Hc. unfold nearest_even.
  rewrite Z.div_mul_cancel_r by lia.
  set (k := Z.max 0 (Z.log2 (p / q) - 52)).
  pose proof (pow2_pos k ltac:(lia)) as H2k.
  f_equal. replace (q * c * 2 ^ k) with (q * 2 ^ k * c) by ring.
  apply round_half_even_scale; [nia | lia].
Qed.

Lemma representable_unit : representable unit_.
Proof. apply representable_pow2. lia. Qed.

(** [min(1, k / 5)] is a float between [0.0] and [1.0]. *)
Lemma min_one_fifth_unit (k : Z) :
  0 <= k -> exists n, min_one_fifth k = Fin n /\ 0 <= n <= unit_.
Proof.
  intros Hk. unfold min_one_fifth. pose proof unit_pos as HU.
  set (p := Z.min (5 * unit_) (k * unit_)).
  assert (Hp : 0 <= p <= 5 * unit_) by (unfold p; nia).
  assert (G0 : 0 <= nearest_even p 5) by (apply nearest_even_nonneg; lia).
  assert (G1 : nearest_even p 5 <= unit_)
    by (apply nearest_even_le; [lia | lia | apply representable_unit | lia]).
  pose proof unit_lt_huge.
  rewrite pack_pos by lia. eexists; split; [reflexivity | lia].
Qed.

Lemma min_one_fifth_large (k : Z) : 5 <= k -> min_one_fifth k = f1_0.
Proof.
  intros Hk. unfold min_one_fifth. pose proof unit_pos as HU.
  rewrite Z.min_l by nia.
  rewrite (Z.mul_comm 5 unit_).
  rewrite nearest_even_exact; [ | lia | lia | apply representable_unit ].
  apply pack_pos. pose proof unit_lt_huge. lia.
Qed.

Lemma py_min_one (n : Z) : n <= unit_ -> py_min f1_0 (Fin n) = Fin n.
Proof.
  intros Hn. unfold py_min, flt, f1_0, fval.
  destruct (Z.ltb_spec n unit_); [reflexivity|]. f_equal. lia.
Qed.

Lemma five_is_not_zero : is_zero f5_0 = false.
Proof.
  unfold f5_0. cbn [is_zero]. apply Z.eqb_neq. pose proof unit_pos. lia.
Qed.

Lemma fdiv_by_five (n : Z) :
  0 <= n -> fdiv (Fin n) f5_0 = pack false (nearest_even (n * unit_) (5 * unit_)).
Proof.
  intros Hn. pose proof unit_pos as HU.
  unfold fdiv. fold f5_0 in *.
  change (fdiv (Fin n) f5_0) with (fdiv (Fin n) (Fin (5 * unit_))).
  unfold fdiv.
  replace (is_zero (Fin (5 * unit_))) with false by (symmetry; apply five_is_not_zero).
  unfold sign_of, magnitude.
  destruct (Z.ltb_spec n 0); [lia|]. destruct (Z.ltb_spec (5 * unit_) 0); [lia|].
  rewrite !Z.abs_eq by lia. reflexivity.
Qed.

(** The two roundings of [float(k) / 5.0] and the [min] give the float
    nearest to the exact [min(1, k / 5)]. *)
Lemma short_answer_credit (k : Z) (x : float) :
  0 <= k -> float_of_int k = Ok x ->
  py_min f1_0 (fdiv x f5_0) = min_one_fifth k.
Proof.
  intros Hk Hx. pose proof unit_pos as HU.
  destruct (Z_lt_le_dec k 5) as [Hlt | Hge].
  - rewrite float_of_int_exact in Hx by (rewrite Z.abs_eq; lia).
    injection Hx as <-.
    rewrite fdiv_by_five by nia.
    rewrite nearest_even_scale by lia.
    destruct (min_one_fifth_unit k Hk) as (n & Hn & Hrange).
    unfold min_one_fifth in *. rewrite Z.min_r in * by nia.
    rewrite Hn. apply py_min_one. lia.
  - rewrite min_one_fifth_large by assumption.
    destruct (float_of_int_nonneg k x Hk Hx) as (n & -> & [Hn0 Hnh] & Hlo & _).
    specialize (Hlo 5 ltac:(simpl; lia) Hge).
    apply py_min_left. rewrite fdiv_by_five by assumption.
    assert (G : unit_ <= nearest_even (n * unit_) (5 * unit_)).
    { apply nearest_even_ge; [nia | lia | apply representable_unit | nia]. }
    unfold pack, f1_0.
    destruct (Z.leb_spec huge (nearest_even (n * unit_) (5 * unit_))); [reflexivity|].
    destruct (Z.eqb_spec (nearest_even (n * unit_) (5 * unit_)) 0); [lia|].
    cbn [fle fval]. apply Z.leb_le. assumption.
Qed.

(** The six credits a short answer can get: 0.0, 0.2, 0.4, 0.6, 0.8, 1.0. *)
Lemma min_one_fifth_table (k : Z) :
  0 <= k -> min_one_fifth k = nth (Z.to_nat (Z.min k 5)) fifths f1_0.
Proof.
  intros Hk. destruct (Z_lt_le_dec k 5) as [Hlt | Hge].
  - assert (k = 0 \/ k = 1 \/ k = 2 \/ k = 3 \/ k = 4) as Hc by lia.
    destruct Hc as [-> | [-> | [-> | [-> | ->]]]]; vm_compute; reflexivity.
  - rewrite Z.min_r by lia. rewrite min_one_fifth_large by assumption. reflexivity.
Qed.

Lemma fifths_increasing (a b : nat) :
  (a <= b <= 5)%nat -> fle (nth a fifths f1_0) (nth b fifths f1_0) = true.
Proof.
  intros Hab. pose proof (pow2_pos 1019 ltac:(lia)) as HP.
  assert (H20 : 2 ^ 1020 = 2 * 2 ^ 1019) by (rewrite <- Z.pow_succ_r by lia; f_equal).
  assert (H21 : 2 ^ 1021 = 4 * 2 ^ 1019)
    by (change 1021 with (Z.succ (Z.succ 1019)); rewrite !Z.pow_succ_r by lia; ring).
  assert (HU : unit_ = 2 ^ 55 * 2 ^ 1019)
    by (unfold unit_; rewrite <- Z.pow_add_r by lia; f_equal).
  unfold fifths, f0_0, f0_6, f1_0. rewrite HU, H20, H21.
  change (2 ^ 55) with 36028797018963968.
  generalize dependent (2 ^ 1019). intros P HP _ _ _.
  destruct a as [|[|[|[|[|[|a]]]]]]; [| | | | | | lia];
    destruct b as [|[|[|[|[|[|b]]]]]]; try lia;
    cbn [nth fle fval]; apply Z.leb_le; lia.
Qed.

Lemma min_one_fifth_monotone (j k : Z) :
  0 <= j <= k -> fle (min_one_fifth j) (min_one_fifth k) = true.
Proof.
  intros Hjk. rewrite !min_one_fifth_table by lia.
  apply fifths_increasing. lia.
Qed.

Lemma min_one_fifth_range (k : Z) :
  0 <= k -> fle f0_0 (min_one_fifth k) = true /\ fle (min_one_fifth k) f1_0 = true.
Proof.
  intros Hk. destruct (min_one_fifth_unit k Hk) as (n & -> & Hn).
  unfold f0_0, f1_0. cbn [fle fval]. split; apply Z.leb_le; lia.
Qed.

End Float64Facts.

(* ===================================================================== *)
(** * Facts about words                                                   *)
(* ===================================================================== *)

Module WordFacts.
Import Float64 PyStr PyVal Models Grading Spec.

Lemma lower_length (s : string) : String.length (lower s) = String.length s.
Proof. induction s as [|c s IH]; simpl; [reflexivity | now rewrite IH]. Qed.

Lemma split_from_length (w s : string) :
  (List.length (split_from w s) <=
   String.length s + (if String.eqb w EmptyString then 0 else 1))%nat.
Proof.
  revert w. induction s as [|c s IH]; intros w; simpl.
  - destruct (String.eqb w EmptyString); simpl; lia.
  - destruct (isspace c).
    + specialize (IH EmptyString). simpl in IH.
      destruct (String.eqb w EmptyString); simpl; lia.
    + specialize (IH (w +:+ String c EmptyString)).
      assert (E : String.eqb (w +:+ String c EmptyString) EmptyString = false).
      { destruct w; reflexivity. }
      rewrite E in IH. destruct (String.eqb w EmptyString); lia.
Qed.

Lemma split_length (s : string) :
  (List.length (split s) <= String.length s)%nat.
Proof. pose proof (split_from_length EmptyString s) as H. simpl in H. unfold split. lia. Qed.

Lemma size_list_to_set_le (l : list string) :
  (size (list_to_set l : gset string) <= List.length l)%nat.
Proof.
  induction l as [|x l IH].
  - rewrite list_to_set_nil, size_empty. simpl. lia.
  - rewrite list_to_set_cons. cbn [List.length].
    pose proof (size_union_alt {[x]} (list_to_set l : gset string)) as H.
    rewrite H, size_singleton.
    assert (Hsub : list_to_set l ∖ {[x]} ⊆ (list_to_set l : gset string))
      by apply subseteq_difference_l, reflexivity.
    apply subseteq_size in Hsub. lia.
Qed.

(** The overlap is at most the number of characters of the prompt. *)
Lemma overlap_le_length (p a : string) :
  0 <= overlap_of p a <= Z.of_nat (String.length p).
Proof.
  unfold overlap_of. split; [lia|].
  apply Nat2Z.inj_le.
  etransitivity; [apply (subseteq_size _ (word_set p)), intersection_subseteq_l|].
  unfold word_set. etransitivity; [apply size_list_to_set_le|].
  etransitivity; [apply split_length|]. rewrite lower_length. lia.
Qed.

(** The overlap counts the distinct words that both texts have, once
    lowercased and split at whitespace. *)
Lemma overlap_counts_shared_words (p a : string) :
  exists shared : list string,
    NoDup shared /\
    (forall w, In w shared <-> In w (split (lower p)) /\ In w (split (lower a))) /\
    overlap_of p a = Z.of_nat (List.length shared).
Proof.
  exists (elements (word_set p ∩ word_set a)). split; [|split].
  - apply NoDup_elements.
  - intros w. rewrite <- !list_elem_of_In, elem_of_elements, elem_of_intersection.
    unfold word_set. rewrite !elem_of_list_to_set. reflexivity.
  - reflexivity.
Qed.

End WordFacts.

(* ===================================================================== *)
(** * Facts about the grading loop                                        *)
(* ===================================================================== *)

Module GradingFacts.
Import Float64 PyStr PyVal Models Grading Spec Float64Facts WordFacts.

Lemma bind_Ok_inv {A B : Type} (c : result A) (k : A -> result B) (b : B) :
  c ≫= k = Ok b -> exists a, c = Ok a /\ k a = Ok b.
Proof.
  destruct c as [a|e]; intros H; [exists a; split; [reflexivity | exact H] | discriminate].
Qed.

Lemma bind_Ok {A B : Type} (c : result A) (k : A -> result B) (a : A) :
  c = Ok a -> c ≫= k = k a.
Proof. intros ->. reflexivity. Qed.

(** ** One question *)

Lemma grade_question_inv `{PyRuntime} (i : nat) (q : Question)
    (answers : list SubmissionAnswer) (fb : Feedback) :
  grade_question i q answers = Ok fb ->
  exists c rationale x,
    correctness_of q (find_answer answers i) = Ok (c, rationale) /\
    float_of_int (points q) = Ok x /\
    py_round (fmul x c) = Ok (fb_earned fb) /\
    fb = {| fb_question_index := Z.of_nat i;
            fb_points := points q;
            fb_earned := fb_earned fb;
            fb_correctness := py_round2 c;
            fb_feedback := rationale |}.
Proof.
  unfold grade_question, int_mul_float. intros Hg.
  apply bind_Ok_inv in Hg as ([c rationale] & Hc & Hg).
  apply bind_Ok_inv in Hg as (y & Hy & Hg).
  apply bind_Ok_inv in Hy as (x & Hx & Hy). injection Hy as <-.
  apply bind_Ok_inv in Hg as (e & He & Hg). injection Hg as <-.
  exists c, rationale, x. repeat split; assumption.
Qed.

Lemma grade_question_intro `{PyRuntime} (i : nat) (q : Question)
    (answers : list SubmissionAnswer) (c : float) (rationale : string)
    (x : float) (e : Z) :
  correctness_of q (find_answer answers i) = Ok (c, rationale) ->
  float_of_int (points q) = Ok x ->
  py_round (fmul x c) = Ok e ->
  grade_question i q answers =
    Ok {| fb_question_index := Z.of_nat i;
          fb_points := points q;
          fb_earned := e;
          fb_correctness := py_round2 c;
          fb_feedback := rationale |}.
Proof.
  intros Hc Hx He. unfold grade_question, int_mul_float.
  rewrite (bind_Ok _ _ _ Hc). cbn [fst snd].
  rewrite (bind_Ok _ _ _ Hx). cbn [mbind result_bind].
  rewrite He. reflexivity.
Qed.

(** ** The loop *)

Lemma earned_total_app (l1 l2 : list Feedback) :
  earned_total (l1 ++ l2) = earned_total l1 + earned_total l2.
Proof.
  unfold earned_total. induction l1 as [|fb l1 IH]; simpl; [reflexivity|].
  rewrite IH. lia.
Qed.

Lemma grade_loop_inv `{PyRuntime} (answers : list SubmissionAnswer)
    (qs : list Question) :
  forall (i : nat) (e : Z) (fbs : list Feedback) (e' : Z) (fbs' : list Feedback),
    grade_loop i qs answers e fbs = Ok (e', fbs') ->
    exists new,
      fbs' = fbs ++ new /\
      e' = e + earned_total new /\
      List.length new = List.length qs /\
      forall (j : nat) (q : Question), qs !! j = Some q ->
        exists fb, new !! j = Some fb /\
                   grade_question (i + j) q answers = Ok fb.
Proof.
  induction qs as [|q qs IH]; intros i e fbs e' fbs' Hg; cbn [grade_loop] in Hg.
  - injection Hg as <- <-. exists []. rewrite app_nil_r.
    repeat split; [unfold earned_total; simpl; lia | intros j q' Hj; discriminate].
  - apply bind_Ok_inv in Hg as (fb & Hfb & Hg).
    apply IH in Hg as (new & -> & -> & Hlen & Hall).
    exists (fb :: new). rewrite <- app_assoc. repeat split.
    + unfold earned_total. cbn [fold_right]. fold (earned_total new). lia.
    + simpl. rewrite Hlen. reflexivity.
    + intros [|j] q' Hj.
      * injection Hj as <-. exists fb. rewrite Nat.add_0_r. split; [reflexivity | assumption].
      * destruct (Hall j q' Hj) as (fb' & Hnew & Hq).
        exists fb'. split; [exact Hnew|].
        replace (i + S j)%nat with (S i + j)%nat by lia. assumption.
Qed.

Lemma grade_loop_total `{PyRuntime} (answers : list SubmissionAnswer)
    (qs : list Question) :
  forall (i : nat) (e : Z) (fbs : list Feedback),
    (forall (j : nat) (q : Question), qs !! j = Some q ->
       exists fb, grade_question (i + j) q answers = Ok fb) ->
    exists r, grade_loop i qs answers e fbs = Ok r.
Proof.
  induction qs as [|q qs IH]; intros i e fbs Hall; cbn [grade_loop].
  - eexists; reflexivity.
  - destruct (Hall 0%nat q eq_refl) as (fb & Hfb).
    rewrite Nat.add_0_r in Hfb. rewrite (bind_Ok _ _ _ Hfb).
    apply IH. intros j q' Hj.
    replace (S i + j)%nat with (i + S j)%nat by lia. apply Hall. exact Hj.
Qed.

(** ** The engine *)

Lemma grade_inv `{PyRuntime} (qs : list Question)
    (answers : list SubmissionAnswer) (r : GradeResult) :
  grade qs answers = Ok r ->
  graded r = true /\
  total_points r = sum_points qs /\
  List.length (feedback r) = List.length qs /\
  (forall (j : nat) (q : Question), qs !! j = Some q ->
     exists fb, feedback r !! j = Some fb /\ grade_question j q answers = Ok fb) /\
  score_of (earned_total (feedback r)) (sum_points qs) = Ok (score r).
Proof.
  unfold grade. intros Hg.
  apply bind_Ok_inv in Hg as ([e fbs] & Hloop & Hg).
  apply bind_Ok_inv in Hg as (s & Hs & Hg). injection Hg as <-.
  apply grade_loop_inv in Hloop as (new & -> & -> & Hlen & Hall).
  cbn [fst snd graded total_points score feedback] in *.
  rewrite app_nil_l in *. rewrite Z.add_0_l in Hs.
  repeat split; assumption.
Qed.


(** ** The branches of [correctness_of] *)

Lemma correctness_unanswered `{PyRuntime} (q : Question) :
  correctness_of q None = Ok (f0_5, "Partial credit: baseline heuristic"%string).
Proof. reflexivity. Qed.

Lemma correctness_multiple_choice `{PyRuntime} (q : Question) (ua : SubmissionAnswer) :
  type q = "multiple_choice"%string ->
  correctness_of q (Some ua) =
    if is_not_none (answer_key q) && py_eq (answer ua) (answer_key q)
    then Ok (f1_0, "Correct option"%string)
    else Ok (f0_0, "Incorrect option"%string).
Proof. intros Ht. unfold correctness_of. rewrite Ht. reflexivity. Qed.

Lemma correctness_short_answer `{PyRuntime} (q : Question) (ua : SubmissionAnswer) :
  type q = "short_answer"%string ->
  python_sized (prompt q) ->
  let k := overlap_of (prompt q) (py_str (answer ua)) in
  correctness_of q (Some ua) =
    Ok (min_one_fifth k, "Keyword overlap score: " +:+ str_of_int k).
Proof.
  intros Ht Hsize k. unfold correctness_of. rewrite Ht.
  cbn [String.eqb Ascii.eqb Bool.eqb]. fold k.
  destruct (overlap_le_length (prompt q) (py_str (answer ua))) as [Hk0 Hk1].
  fold k in Hk0, Hk1.
  destruct (float_of_int_defined k) as (x & Hx).
  { unfold python_sized, sys_maxsize in Hsize. rewrite Z.abs_eq by lia.
    transitivity (2 ^ 63); [lia|]. apply Z.pow_le_mono_r; lia. }
  unfold int_div_float. rewrite (bind_Ok _ _ _ Hx).
  unfold float_truediv. rewrite five_is_not_zero. cbn [mbind result_bind].
  rewrite (short_answer_credit k x Hk0 Hx). reflexivity.
Qed.

Lemma correctness_essay `{PyRuntime} (q : Question) (ua : SubmissionAnswer) :
  type q = "essay"%string ->
  let length := Z.of_nat (String.length (py_str (answer ua))) in
  correctness_of q (Some ua) =
    Ok (if 200 <? length then f1_0 else if 80 <? length then f0_6 else f0_3,
        "Length heuristic: " +:+ str_of_int length +:+ " chars").
Proof. intros Ht length. unfold correctness_of. rewrite Ht. reflexivity. Qed.

(** ** The values [correctness] takes *)

Lemma credits_unit_interval (c : float) : In c credits -> unit_interval c.
Proof.
  pose proof (pow2_pos 1019 ltac:(lia)) as HP.
  assert (H20 : 2 ^ 1020 = 2 * 2 ^ 1019) by (rewrite <- Z.pow_succ_r by lia; f_equal).
  assert (H21 : 2 ^ 1021 = 4 * 2 ^ 1019)
    by (change 1021 with (Z.succ (Z.succ 1019)); rewrite !Z.pow_succ_r by lia; ring).
  assert (H73 : 2 ^ 1073 = 2 ^ 54 * 2 ^ 1019)
    by (rewrite <- Z.pow_add_r by lia; f_equal).
  assert (HU : unit_ = 2 ^ 55 * 2 ^ 1019)
    by (unfold unit_; rewrite <- Z.pow_add_r by lia; f_equal).
  unfold credits, fifths, unit_interval, f0_0, f0_3, f0_5, f0_6, f1_0.
  rewrite HU, H20, H21, H73.
  change (2 ^ 55) with 36028797018963968. change (2 ^ 54) with 18014398509481984.
  generalize dependent (2 ^ 1019). intros P HP _ _ _ _ Hin.
  cbn [In app] in Hin.
  repeat (destruct Hin as [<- | Hin]; [eexists; split; [reflexivity | lia] |]).
  contradiction.
Qed.

Lemma credits_rounded (c : float) : In c credits -> py_round2 c = c.
Proof.
  unfold credits, fifths. cbn [In app]. intros Hin.
  repeat (destruct Hin as [<- | Hin]; [vm_compute; reflexivity |]).
  contradiction.
Qed.

Lemma fifth_credit (n : nat) : (n <= 5)%nat -> In (nth n fifths f1_0) credits.
Proof.
  intros Hn. unfold credits. apply in_or_app. left.
  apply nth_In. cbn [List.length fifths]. lia.
Qed.

Lemma credit_0_0 : In f0_0 credits.
Proof. apply (fifth_credit 0). lia. Qed.

Lemma credit_0_6 : In f0_6 credits.
Proof. apply (fifth_credit 3). lia. Qed.

Lemma credit_1_0 : In f1_0 credits.
Proof. apply (fifth_credit 5). lia. Qed.

Lemma credit_0_3 : In f0_3 credits.
Proof. unfold credits. apply in_or_app. right. left. reflexivity. Qed.

Lemma credit_0_5 : In f0_5 credits.
Proof. unfold credits. apply in_or_app. right. right. left. reflexivity. Qed.

Lemma min_one_fifth_credit (k : Z) : 0 <= k -> In (min_one_fifth k) credits.
Proof.
  intros Hk. rewrite min_one_fifth_table by assumption.
  apply fifth_credit. lia.
Qed.

Lemma correctness_of_credit `{PyRuntime} (q : Question)
    (ua : option SubmissionAnswer) :
  python_sized (prompt q) ->
  exists c rationale, correctness_of q ua = Ok (c, rationale) /\ In c credits.
Proof.
  intros Hsize. destruct ua as [ua|].
  2: { eexists _, _. split; [reflexivity | apply credit_0_5]. }
  destruct (String.eqb_spec (type q) "multiple_choice") as [Hmc | Hnmc].
  { rewrite correctness_multiple_choice by assumption.
    destruct (is_not_none (answer_key q) && py_eq (answer ua) (answer_key q));
      eexists _, _; (split; [reflexivity|]); [apply credit_1_0 | apply credit_0_0]. }
  destruct (String.eqb_spec (type q) "short_answer") as [Hsa | Hnsa].
  { rewrite correctness_short_answer by assumption.
    eexists _, _. split; [reflexivity|].
    apply min_one_fifth_credit, overlap_le_length. }
  destruct (String.eqb_spec (type q) "essay") as [Hes | Hnes].
  { rewrite correctness_essay by assumption.
    eexists _, _. split; [reflexivity|].
    destruct (200 <? _); [apply credit_1_0|].
    destruct (80 <? _); [apply credit_0_6 | apply credit_0_3]. }
  unfold correctness_of.
  apply String.eqb_neq in Hnmc, Hnsa, Hnes. rewrite Hnmc, Hnsa, Hnes.
  eexists _, _. split; [reflexivity | apply credit_0_5].
Qed.

(** ** Points within the exact range of a float *)

Lemma grade_question_bounded `{PyRuntime} (i : nat) (q : Question)
    (answers : list SubmissionAnswer) :
  0 <= points q <= 2 ^ 53 -> python_sized (prompt q) ->
  exists fb, grade_question i q answers = Ok fb /\
    fb_points fb = points q /\
    0 <= fb_earned fb <= points q /\
    unit_interval (fb_correctness fb).
Proof.
  intros Hpts Hsize.
  destruct (correctness_of_credit q (find_answer answers i) Hsize)
    as (c & rationale & Hc & Hin).
  pose proof (credits_rounded c Hin) as Hround.
  destruct (credits_unit_interval c Hin) as (n & -> & Hn).
  pose proof unit_pos as HU.
  assert (Hx : float_of_int (points q) = Ok (Fin (points q * unit_)))
    by (apply float_of_int_exact; rewrite Z.abs_eq; lia).
  destruct (fmul_bounded (points q * unit_) n (points q * unit_))
    as (m & Hm & Hm0 & Hm1);
    [ nia | lia | apply representable_int; rewrite Z.abs_eq; lia
    | pose proof (int_units_lt_huge (points q)) as Hh;
      rewrite Z.abs_eq in Hh by lia; apply Hh; lia
    | nia | ].
  destruct (py_round_bounds m 0 (points q)) as (e & He & Hrange); [lia|].
  rewrite <- Hm in He.
  eexists. split; [apply (grade_question_intro _ _ _ _ _ _ _ Hc Hx He)|].
  cbn [fb_points fb_earned fb_correctness]. rewrite Hround.
  repeat split; try lia. exists n. split; [reflexivity | lia].
Qed.

(** ** A whole grading run over points in the exact range *)

Lemma earned_total_bounded (qs : list Question) (fbs : list Feedback) :
  Forall2 (fun q fb => 0 <= fb_earned fb <= points q) qs fbs ->
  0 <= earned_total fbs <= sum_points qs.
Proof.
  induction 1 as [|q fb qs fbs Hq _ IH]; unfold earned_total, sum_points in *;
    cbn [fold_right]; lia.
Qed.

Lemma score_of_bounded (earned total : Z) :
  0 <= earned <= total ->
  exists s, score_of earned total = Ok s /\
    (0 < total -> exists n, s = Fin n /\ 0 <= n <= 100 * unit_) /\
    (total <= 0 -> s = f0_0).
Proof.
  intros He. unfold score_of. pose proof unit_pos as HU.
  destruct (Z.ltb_spec 0 total) as [Hpos | Hnpos].
  - destruct (int_truediv_bounded earned total 1) as (n & Hn & Hn0 & Hn1);
      [lia | lia | simpl; lia | lia |].
    rewrite (bind_Ok _ _ _ Hn). unfold f100_0.
    destruct (fmul_bounded n (100 * unit_) (100 * unit_)) as (m & Hm & Hm0 & Hm1);
      [ lia | lia | apply representable_int; simpl; lia
      | apply (int_units_lt_huge 100); simpl; lia | nia | ].
    rewrite Hm.
    destruct (py_round2_bounded m 100) as (m' & Hm' & Hrange); [lia | simpl; lia |].
    rewrite Hm'. eexists. split; [reflexivity|].
    split; [intros _; eexists; split; [reflexivity | lia] | lia].
  - eexists. split; [reflexivity|]. split; [lia | reflexivity].
Qed.

Lemma grade_bounded `{PyRuntime} (qs : list Question)
    (answers : list SubmissionAnswer) :
  (forall q, In q qs -> 0 <= points q <= 2 ^ 53 /\ python_sized (prompt q)) ->
  exists r, grade qs answers = Ok r /\
    (forall fb, In fb (feedback r) ->
       0 <= fb_earned fb <= fb_points fb /\ unit_interval (fb_correctness fb)) /\
    (0 < total_points r -> exists n, score r = Fin n /\ 0 <= n <= 100 * unit_) /\
    (total_points r <= 0 -> score r = f0_0).
Proof.
  intros Hqs.
  assert (Hall : forall (j : nat) (q : Question), qs !! j = Some q ->
            exists fb, grade_question (0 + j) q answers = Ok fb /\
              fb_points fb = points q /\ 0 <= fb_earned fb <= points q /\
              unit_interval (fb_correctness fb)).
  { intros j q Hj. apply grade_question_bounded; apply Hqs;
      apply list_elem_of_In, (list_elem_of_lookup_2 _ j), Hj. }
  destruct (grade_loop_total answers qs 0 0 []) as ([e fbs] & Hloop).
  { intros j q Hj. destruct (Hall j q Hj) as (fb & Hfb & _). exists fb. exact Hfb. }
  destruct (grade_loop_inv answers qs 0 0 [] e fbs Hloop)
    as (new & Hfbs & He & Hlen & Hnew).
  rewrite app_nil_l in Hfbs. subst fbs. rewrite Z.add_0_l in He. subst e.
  assert (Hrel : Forall2 (fun q fb => fb_points fb = points q /\
                            0 <= fb_earned fb <= points q /\
                            unit_interval (fb_correctness fb)) qs new).
  { apply Forall2_same_length_lookup_2; [lia|].
    intros j q fb Hq Hfb.
    destruct (Hnew j q Hq) as (fb1 & Hfb1 & Hg1).
    destruct (Hall j q Hq) as (fb2 & Hg2 & Hb).
    rewrite Hfb in Hfb1. injection Hfb1 as <-.
    rewrite Hg1 in Hg2. injection Hg2 as <-. exact Hb. }
  destruct (score_of_bounded (earned_total new) (sum_points qs))
    as (s & Hs & Hspos & Hszero).
  { apply earned_total_bounded. eapply Forall2_impl; [exact Hrel|].
    cbn beta. intros q fb (_ & Hb & _). exact Hb. }
  exists {| graded := true; total_points := sum_points qs; score := s; feedback := new |}.
  split; [|split; [|split]].
  - unfold grade. rewrite (bind_Ok _ _ _ Hloop). cbn [fst snd].
    rewrite (bind_Ok _ _ _ Hs). reflexivity.
  - cbn [feedback]. intros fb Hin.
    apply list_elem_of_In, list_elem_of_lookup in Hin as (j & Hj).
    destruct (Forall2_lookup_r _ _ _ _ _ Hrel Hj) as (q & Hq & Hp & Hb & Hu).
    rewrite Hp. split; assumption.
  - exact Hspos.
  - exact Hszero.
Qed.


(** ** What a returned [correctness] can be *)

Lemma correctness_of_credit_inv `{PyRuntime} (q : Question)
    (ua : option SubmissionAnswer) (c : float) (rationale : string) :
  correctness_of q ua = Ok (c, rationale) -> In c credits.
Proof.
  destruct ua as [ua|]; [|intros [= <- _]; apply credit_0_5].
  destruct (String.eqb_spec (type q) "multiple_choice") as [Hmc | Hnmc].
  { rewrite correctness_multiple_choice by assumption.
    destruct (is_not_none (answer_key q) && py_eq (answer ua) (answer_key q));
      intros [= <- _]; [apply credit_1_0 | apply credit_0_0]. }
  destruct (String.eqb_spec (type q) "short_answer") as [Hsa | Hnsa].
  { unfold correctness_of. rewrite Hsa. cbn [String.eqb Ascii.eqb Bool.eqb].
    intros Hc. apply bind_Ok_inv in Hc as (c' & Hc' & [= <- _]).
    unfold int_div_float in Hc'. apply bind_Ok_inv in Hc' as (x & Hx & Hdiv).
    unfold float_truediv in Hdiv. rewrite five_is_not_zero in Hdiv.
    injection Hdiv as <-.
    rewrite (short_answer_credit _ x (proj1 (overlap_le_length _ _)) Hx).
    apply min_one_fifth_credit, overlap_le_length. }
  destruct (String.eqb_spec (type q) "essay") as [Hes | Hnes].
  { rewrite correctness_essay by assumption. intros [= <- _].
    destruct (200 <? _); [apply credit_1_0|].
    destruct (80 <? _); [apply credit_0_6 | apply credit_0_3]. }
  unfold correctness_of.
  apply String.eqb_neq in Hnmc, Hnsa, Hnes. rewrite Hnmc, Hnsa, Hnes.
  intros [= <- _]. apply credit_0_5.
Qed.

(** ** The feedback entry of a question *)

Lemma feedback_at `{PyRuntime} (qs : list Question)
    (answers : list SubmissionAnswer) (r : GradeResult) (i : nat) (q : Question) :
  grade qs answers = Ok r -> qs !! i = Some q ->
  exists fb c rationale x,
    feedback r !! i = Some fb /\
    correctness_of q (find_answer answers i) = Ok (c, rationale) /\
    float_of_int (points q) = Ok x /\
    py_round (fmul x c) = Ok (fb_earned fb) /\
    fb_question_index fb = Z.of_nat i /\
    fb_points fb = points q /\
    fb_correctness fb = c /\
    fb_feedback fb = rationale.
Proof.
  intros Hg Hq. apply grade_inv in Hg as (_ & _ & _ & Hall & _).
  destruct (Hall i q Hq) as (fb & Hfb & Hgq).
  apply grade_question_inv in Hgq as (c & rationale & x & Hc & Hx & He & Heq).
  exists fb, c, rationale, x.
  pose proof (credits_rounded c (correctness_of_credit_inv _ _ _ _ Hc)) as Hround.
  rewrite Heq. cbn [fb_question_index fb_points fb_earned fb_correctness fb_feedback].
  rewrite <- Heq. repeat split; try assumption.
Qed.

Lemma find_answer_none (answers : list SubmissionAnswer) (i : nat) :
  find_answer answers i = None <->
  forall a, In a answers -> question_index a <> Z.of_nat i.
Proof.
  unfold find_answer. split.
  - intros Hnone a Hin. apply Z.eqb_neq. exact (find_none _ _ Hnone a Hin).
  - intros Hall. destruct (find _ answers) as [a|] eqn:Hf; [|reflexivity].
    apply find_some in Hf as [Hin Heq]. apply Z.eqb_eq in Heq.
    exfalso. exact (Hall a Hin Heq).
Qed.

(** ** Products by zero *)

Lemma round_zero_product (z : Z) (x : float) :
  float_of_int z = Ok x -> py_round (fmul x f0_0) = Ok 0.
Proof.
  intros Hx. destruct (float_of_int_finite z x Hx) as (n & ->).
  unfold fmul, f0_0, magnitude. rewrite Z.abs_0, Z.mul_0_r.
  replace (nearest_even 0 unit_) with 0.
  - unfold pack. pose proof unit_pos. pose proof unit_lt_huge.
    destruct (Z.leb_spec huge 0); [lia|]. cbn [Z.eqb].
    destruct (xorb (sign_of (Fin n)) (sign_of (Fin 0))); cbn [py_round];
      [reflexivity | f_equal].
  - symmetry. change 0 with (0 * unit_) at 1.
    apply nearest_even_exact; [lia | apply unit_pos |].
    exists 0, 0. split; [reflexivity | split; [simpl; lia | lia]].
Qed.

(** ** Bounds of a run that returned *)

Lemma grade_question_bounds `{PyRuntime} (i : nat) (q : Question)
    (answers : list SubmissionAnswer) (fb : Feedback) :
  0 <= points q <= 2 ^ 53 ->
  grade_question i q answers = Ok fb ->
  fb_points fb = points q /\
  0 <= fb_earned fb <= points q /\
  unit_interval (fb_correctness fb).
Proof.
  intros Hpts Hg.
  apply grade_question_inv in Hg as (c & rationale & x & Hc & Hx & He & Heq).
  pose proof (correctness_of_credit_inv _ _ _ _ Hc) as Hin.
  pose proof (credits_rounded c Hin) as Hround.
  destruct (credits_unit_interval c Hin) as (n & -> & Hn).
  pose proof unit_pos as HU.
  rewrite float_of_int_exact in Hx by (rewrite Z.abs_eq; lia).
  injection Hx as <-.
  destruct (fmul_bounded (points q * unit_) n (points q * unit_))
    as (m & Hm & Hm0 & Hm1);
    [ nia | lia | apply representable_int; rewrite Z.abs_eq; lia
    | pose proof (int_units_lt_huge (points q)) as Hh;
      rewrite Z.abs_eq in Hh by lia; apply Hh; lia
    | nia | ].
  destruct (py_round_bounds m 0 (points q)) as (e & He' & Hrange); [lia|].
  rewrite Hm in He. rewrite He' in He. injection He as He.
  rewrite Heq. cbn [fb_points fb_earned fb_correctness]. rewrite Hround.
  repeat split; try lia. exists n. split; [reflexivity | lia].
Qed.

Lemma unit_interval_fle (c : float) :
  unit_interval c -> fle f0_0 c = true /\ fle c f1_0 = true.
Proof.
  intros (n & -> & Hn). unfold f0_0, f1_0. cbn [fle fval].
  split; apply Z.leb_le; lia.
Qed.

Lemma grade_bounds `{PyRuntime} (qs : list Question)
    (answers : list SubmissionAnswer) (r : GradeResult) :
  (forall q, In q qs -> 0 <= points q <= 2 ^ 53) ->
  grade qs answers = Ok r ->
  (forall fb, In fb (feedback r) ->
     0 <= fb_earned fb <= fb_points fb /\ unit_interval (fb_correctness fb)) /\
  (0 < total_points r -> exists n, score r = Fin n /\ 0 <= n <= 100 * unit_).
Proof.
  intros Hqs Hg. apply grade_inv in Hg as (_ & Htot & Hlen & Hall & Hscore).
  assert (Hrel : Forall2 (fun q fb => fb_points fb = points q /\
                            0 <= fb_earned fb <= points q /\
                            unit_interval (fb_correctness fb)) qs (feedback r)).
  { apply Forall2_same_length_lookup_2; [lia|].
    intros j q fb Hq Hfb.
    destruct (Hall j q Hq) as (fb1 & Hfb1 & Hg1).
    rewrite Hfb in Hfb1. injection Hfb1 as <-.
    apply (grade_question_bounds j q answers fb); [|exact Hg1].
    apply Hqs, list_elem_of_In, (list_elem_of_lookup_2 _ j), Hq. }
  split.
  - intros fb Hin.
    apply list_elem_of_In, list_elem_of_lookup in Hin as (j & Hj).
    destruct (Forall2_lookup_r _ _ _ _ _ Hrel Hj) as (q & Hq & Hp & Hb & Hu).
    rewrite Hp. split; assumption.
  - intros Hpos.
    destruct (score_of_bounded (earned_total (feedback r)) (sum_points qs))
      as (s & Hs & Hspos & _).
    { apply earned_total_bounded. eapply Forall2_impl; [exact Hrel|].
      cbn beta. intros q fb (_ & Hb & _). exact Hb. }
    rewrite Hs in Hscore. injection Hscore as <-.
    apply Hspos. lia.
Qed.

End GradingFacts.

(* ===================================================================== *)
(** * [split] gives the words of the specification                        *)
(* ===================================================================== *)

Module WordSpecFacts.
Import PyStr Grading WordSpec WordFacts.

Lemma append_nil (b : string) : EmptyString +:+ b = b.
Proof. reflexivity. Qed.

Lemma append_cons (x : ascii) (a b : string) :
  String x a +:+ b = String x (a +:+ b).
Proof. reflexivity. Qed.

Lemma append_assoc (a b c : string) : (a +:+ b) +:+ c = a +:+ (b +:+ c).
Proof.
  induction a as [|x a IH]; [reflexivity|].
  rewrite !append_cons, IH. reflexivity.
Qed.

Lemma append_empty_r (a : string) : a +:+ EmptyString = a.
Proof.
  induction a as [|x a IH]; [reflexivity|]. rewrite append_cons, IH. reflexivity.
Qed.

Lemma no_space_append (a b : string) :
  no_space (a +:+ b) = no_space a && no_space b.
Proof.
  induction a as [|x a IH]; [reflexivity|].
  rewrite append_cons. cbn [no_space]. rewrite IH, andb_assoc. reflexivity.
Qed.

Lemma split_from_words (s : string) :
  forall acc w, In w (split_from acc s) <-> first_word acc w s \/ later_word w s.
Proof.
  induction s as [|c s IH]; intros acc w.
  - cbn [split_from]. split.
    + destruct (String.eqb_spec acc EmptyString) as [->|Hne]; [intros []|].
      intros [<- | []]. left. split; [exact Hne|].
      exists EmptyString, EmptyString. rewrite !append_empty_r.
      repeat split; reflexivity.
    + intros [(Hw & r & post & Hs & _ & -> & _) | (pre & c & rest & Hs & _)].
      * destruct r; [|discriminate]. rewrite append_empty_r in Hw.
        rewrite append_empty_r.
        destruct (String.eqb_spec acc EmptyString) as [->|_]; [contradiction|].
        left. reflexivity.
      * destruct pre; discriminate.
  - cbn [split_from]. destruct (isspace c) eqn:Hc.
    + assert (Hhere : In w (if String.eqb acc EmptyString then split_from EmptyString s
                           else acc :: split_from EmptyString s)
                      <-> (w = acc /\ acc <> EmptyString) \/
                          In w (split_from EmptyString s)).
      { destruct (String.eqb_spec acc EmptyString) as [->|Hne]; cbn [In].
        - split; [intros Hin; right; exact Hin|].
          intros [[_ Hne] | Hin]; [contradiction | exact Hin].
        - split.
          + intros [<- | Hin]; [left; split; [reflexivity | exact Hne] | right; exact Hin].
          + intros [[-> _] | Hin]; [left; reflexivity | right; exact Hin]. }
      rewrite Hhere, IH. split.
      * intros [[-> Hne] | [Hfirst | Hlater]].
        -- left. split; [exact Hne|]. exists EmptyString, (String c s).
           rewrite !append_empty_r. repeat split; try reflexivity; exact Hc.
        -- right. exists EmptyString, c, s.
           split; [reflexivity|]. split; [exact Hc | exact Hfirst].
        -- right. destruct Hlater as (pre & c' & rest & -> & Hc' & Hw).
           exists (String c pre), c', rest.
           split; [reflexivity|]. split; [exact Hc' | exact Hw].
      * intros [(Hw & r & post & Hs & Hr & -> & Hpost) | (pre & c' & rest & Hs & Hc' & Hw)].
        -- destruct r as [|x r].
           ++ left. rewrite append_empty_r in *. split; [reflexivity | exact Hw].
           ++ rewrite append_cons in Hs. injection Hs as <- _. cbn [no_space] in Hr.
              rewrite Hc in Hr. discriminate.
        -- destruct pre as [|x pre]; rewrite ?append_nil, ?append_cons in Hs.
           ++ injection Hs as <- <-. right. left. exact Hw.
           ++ injection Hs as <- ->. right. right. exists pre, c', rest.
              split; [reflexivity|]. split; [exact Hc' | exact Hw].
    + rewrite IH. split.
      * intros [(Hw & r & post & -> & Hr & -> & Hpost) | Hlater].
        -- left. split; [exact Hw|].
           exists (String c r), post.
           split; [reflexivity|]. split; [cbn [no_space]; rewrite Hc, Hr; reflexivity|].
           split; [rewrite append_assoc; reflexivity | exact Hpost].
        -- right. destruct Hlater as (pre & c' & rest & -> & Hc' & Hw).
           exists (String c pre), c', rest.
           split; [reflexivity|]. split; [exact Hc' | exact Hw].
      * intros [(Hw & r & post & Hs & Hr & -> & Hpost) | (pre & c' & rest & Hs & Hc' & Hw)].
        -- destruct r as [|x r]; rewrite ?append_nil, ?append_cons in Hs.
           ++ subst post. cbn [starts_blank] in Hpost. congruence.
           ++ injection Hs as <- ->. left. split.
              ** exact Hw.
              ** exists r, post. cbn [no_space] in Hr.
                 apply andb_true_iff in Hr as [_ Hr].
                 split; [reflexivity|]. split; [exact Hr|].
                 split; [rewrite append_assoc; reflexivity | exact Hpost].
        -- destruct pre as [|x pre]; rewrite ?append_nil, ?append_cons in Hs.
           ++ injection Hs as <- _. congruence.
           ++ injection Hs as <- ->. right. exists pre, c', rest.
              split; [reflexivity|]. split; [exact Hc' | exact Hw].
Qed.

(** [s.split()] gives exactly the whitespace-separated words of [s]. *)
Lemma split_words (w s : string) : In w (split s) <-> word_of w s.
Proof.
  unfold split. rewrite split_from_words. unfold word_of. split.
  - intros [(Hw & r & post & -> & Hr & -> & Hpost)
           | (pre & c & rest & -> & Hc & Hw & r & post & -> & Hr & -> & Hpost)];
      rewrite ?append_nil in *.
    + split; [exact Hw|]. split; [exact Hr|]. exists EmptyString, post.
      split; [reflexivity|]. split; [left; reflexivity | exact Hpost].
    + split; [exact Hw|]. split; [exact Hr|].
      exists (pre +:+ String c EmptyString), post.
      split; [rewrite append_assoc; reflexivity|].
      split; [right; exists pre, c; split; [reflexivity | exact Hc] | exact Hpost].
  - intros (Hw & Hr & pre & post & -> & [-> | (pre' & c & -> & Hc)] & Hpost).
    + left. split; [exact Hw|]. exists w, post. repeat split; assumption.
    + right. exists pre', c, (w +:+ post).
      split; [rewrite append_assoc; reflexivity|]. split; [exact Hc|].
      split; [exact Hw|]. exists w, post. repeat split; assumption.
Qed.

(** The overlap counts the distinct whitespace-separated words that the
    two lowercased texts have in common. *)
Lemma overlap_counts_words_of (p a : string) :
  exists shared : list string,
    NoDup shared /\
    (forall w, In w shared <-> word_of w (lower p) /\ word_of w (lower a)) /\
    overlap_of p a = Z.of_nat (List.length shared).
Proof.
  destruct (overlap_counts_shared_words p a) as (shared & Hnd & Hin & Hlen).
  exists shared. split; [exact Hnd|]. split; [|exact Hlen].
  intros w. rewrite Hin, !split_words. reflexivity.
Qed.

End WordSpecFacts.

(* ===================================================================== *)
(** * The claims                                                          *)
(* ===================================================================== *)

Module Claims.
Import Float64 PyStr PyVal Models Grading Endpoints Spec WordSpec.
Import Float64Facts WordFacts GradingFacts WordSpecFacts.

(** C1, as stated: a multiple-choice question without an [answer_key]
    would keep the default 0.5 when it is answered.  It does not: for
    [choice_without_key] answered with [1] the engine assigns 0.0. *)
Lemma C1_absent_key_counterexample :
  (forall rt : PyRuntime,
     @correctness_of rt choice_without_key (Some (answer_at 0 (PInt 1)))
     = Ok (f0_0, "Incorrect option"%string)) /\
  ~ absent_key_keeps_default.
Proof.
  split; [reflexivity|].
  intros Hclaim.
  destruct (Hclaim sample_runtime choice_without_key (answer_at 0 (PInt 1))
              eq_refl eq_refl) as (rationale & Hc).
  cbv [correctness_of choice_without_key type String.eqb Ascii.eqb Bool.eqb
       answer_key is_not_none andb] in Hc.
  injection Hc as H0 _.
  pose proof (pow2_pos 1073 ltac:(lia)). lia.
Qed.

(** C1, amended: for every multiple-choice question whose [answer_key] is
    absent, a submitted answer is graded as incorrect: [correctness] is 0.0
    with the rationale "Incorrect option", and the question earns 0. *)
Theorem C1_absent_key_is_incorrect `{PyRuntime} (q : Question)
    (ua : SubmissionAnswer) :
  type q = "multiple_choice"%string -> answer_key q = PNone ->
  correctness_of q (Some ua) = Ok (f0_0, "Incorrect option"%string) /\
  forall (qs : list Question) (answers : list SubmissionAnswer)
         (r : GradeResult) (i : nat),
    grade qs answers = Ok r -> qs !! i = Some q ->
    find_answer answers i = Some ua ->
    exists fb, feedback r !! i = Some fb /\
      fb_correctness fb = f0_0 /\ fb_earned fb = 0 /\
      fb_feedback fb = "Incorrect option"%string.
Proof.
  intros Ht Hkey.
  assert (Hc : correctness_of q (Some ua) = Ok (f0_0, "Incorrect option"%string)).
  { rewrite correctness_multiple_choice by assumption. rewrite Hkey. reflexivity. }
  split; [exact Hc|].
  intros qs answers r i Hg Hq Hfind.
  destruct (feedback_at qs answers r i q Hg Hq)
    as (fb & c & rationale & x & Hfb & Hc' & Hx & He & _ & _ & Hcorr & Hrat).
  rewrite Hfind, Hc in Hc'. injection Hc' as <- <-.
  exists fb. rewrite (round_zero_product _ _ Hx) in He. injection He as He.
  repeat split; auto.
Qed.

Lemma C1_absent_key_is_incorrect_witness :
  type choice_without_key = "multiple_choice"%string /\
  answer_key choice_without_key = PNone /\
  @correctness_of sample_runtime choice_without_key (Some (answer_at 0 (PInt 1)))
  = Ok (f0_0, "Incorrect option"%string).
Proof.
  split; [reflexivity | split; [reflexivity|]].
  apply (@C1_absent_key_is_incorrect sample_runtime choice_without_key
           (answer_at 0 (PInt 1))); reflexivity.
Defined.




(** C3: for every short-answer question with a submitted answer,
    [correctness] is [min(1.0, k / 5.0)], where [k] counts the distinct
    whitespace-separated words ([word_of], which does not mention [split])
    that the lowercased prompt and the lowercased answer text share; it is
    the float nearest to the exact [min(1, k / 5)], it does not decrease
    when [k] grows, and it is at most 1.0. *)
Theorem C3_short_answer_overlap `{PyRuntime} (q : Question)
    (ua : SubmissionAnswer) :
  type q = "short_answer"%string -> python_sized (prompt q) ->
  let k := overlap_of (prompt q) (py_str (answer ua)) in
  let rationale := ("Keyword overlap score: " +:+ str_of_int k)%string in
  (exists shared : list string,
     NoDup shared /\
     (forall w, In w shared <->
                word_of w (lower (prompt q)) /\
                word_of w (lower (py_str (answer ua)))) /\
     k = Z.of_nat (List.length shared)) /\
  (exists x, float_of_int k = Ok x /\
     correctness_of q (Some ua) = Ok (py_min f1_0 (fdiv x f5_0), rationale) /\
     py_min f1_0 (fdiv x f5_0) = min_one_fifth k) /\
  (forall (qs : list Question) (answers : list SubmissionAnswer)
          (r : GradeResult) (i : nat),
     grade qs answers = Ok r -> qs !! i = Some q ->
     find_answer answers i = Some ua ->
     exists fb, feedback r !! i = Some fb /\ fb_correctness fb = min_one_fifth k) /\
  (forall j l, 0 <= j <= l -> fle (min_one_fifth j) (min_one_fifth l) = true) /\
  (forall j, 0 <= j -> fle (min_one_fifth j) f1_0 = true) /\
  (forall j, 5 <= j -> min_one_fifth j = f1_0).
Proof.
  intros Ht Hsize k rationale.
  pose proof (correctness_short_answer q ua Ht Hsize) as Hc. cbv zeta in Hc.
  fold k in Hc. fold rationale in Hc.
  destruct (overlap_le_length (prompt q) (py_str (answer ua))) as [Hk0 Hk1].
  fold k in Hk0, Hk1.
  split; [apply overlap_counts_words_of|].
  split.
  { destruct (float_of_int_defined k) as (x & Hx).
    { unfold python_sized, sys_maxsize in Hsize. rewrite Z.abs_eq by lia.
      transitivity (2 ^ 63); [lia|]. apply Z.pow_le_mono_r; lia. }
    exists x. pose proof (short_answer_credit k x Hk0 Hx) as Hcredit.
    split; [exact Hx | split; [|exact Hcredit]].
    rewrite Hcredit. exact Hc. }
  split.
  { intros qs answers r i Hg Hq Hfind.
    destruct (feedback_at qs answers r i q Hg Hq)
      as (fb & c & rat & x & Hfb & Hc' & _ & _ & _ & _ & Hcorr & _).
    rewrite Hfind, Hc in Hc'. injection Hc' as <- _.
    exists fb. split; assumption. }
  split; [intros j l Hjl; apply min_one_fifth_monotone; exact Hjl|].
  split; [intros j Hj; apply min_one_fifth_range; exact Hj|].
  intros j Hj. apply min_one_fifth_large. exact Hj.
Qed.

(** The prompt of the upload template shares three words with the answer
    [The MAIN concept is the thing], and six with [tabbed_answer]. *)
Lemma overlap_three :
  overlap_of (prompt template_short) "The MAIN concept is the thing" = 3.
Proof. vm_compute. reflexivity. Qed.

Lemma overlap_six : overlap_of (prompt template_short) tabbed_answer = 6.
Proof. vm_compute. reflexivity. Qed.

Lemma credit_of_three : min_one_fifth 3 = f0_6.
Proof. vm_compute. reflexivity. Qed.

Lemma C3_short_answer_overlap_witness :
  type template_short = "short_answer"%string /\
  python_sized (prompt template_short) /\
  (exists shared : list string,
     NoDup shared /\
     (forall w, In w shared <->
                word_of w (lower (prompt template_short)) /\
                word_of w (lower "The MAIN concept is the thing")) /\
     List.length shared = 3%nat) /\
  @correctness_of sample_runtime template_short
     (Some (answer_at 0 (PStr "The MAIN concept is the thing")))
  = Ok (f0_6, "Keyword overlap score: 3"%string) /\
  @correctness_of sample_runtime template_short
     (Some (answer_at 0 (PStr tabbed_answer)))
  = Ok (f1_0, "Keyword overlap score: 6"%string).
Proof.
  split; [reflexivity|].
  assert (Hsize : python_sized (prompt template_short))
    by (unfold python_sized, sys_maxsize; simpl; lia).
  split; [exact Hsize|].
  destruct (@C3_short_answer_overlap sample_runtime template_short
              (answer_at 0 (PStr "The MAIN concept is the thing")) eq_refl Hsize)
    as ((shared & Hnd & Hin & Hlen) & (x & _ & Hcorr & Hmin) & _).
  destruct (@C3_short_answer_overlap sample_runtime template_short
              (answer_at 0 (PStr tabbed_answer)) eq_refl Hsize)
    as (_ & (y & _ & Hcorr' & Hmin') & _ & _ & _ & Hcap).
  cbn [answer answer_at py_str] in Hin, Hlen, Hcorr, Hmin, Hcorr', Hmin'.
  rewrite overlap_three in Hlen, Hcorr, Hmin.
  rewrite overlap_six in Hcorr', Hmin'.
  split; [|split].
  - exists shared. split; [exact Hnd|]. split; [exact Hin|]. lia.
  - rewrite Hcorr, Hmin, credit_of_three. reflexivity.
  - rewrite Hcorr', Hmin', (Hcap 6) by lia. reflexivity.
Defined.

(** C4: for every essay question with a submitted answer, [correctness]
    depends only on the number of characters of [str(answer)]: more than
    200 gives 1.0, more than 80 and at most 200 gives 0.6, at most 80
    gives 0.3. *)
Theorem C4_essay_length_steps `{PyRuntime} (q : Question)
    (ua : SubmissionAnswer) :
  type q = "essay"%string ->
  let n := Z.of_nat (String.length (py_str (answer ua))) in
  let rationale := ("Length heuristic: " +:+ str_of_int n +:+ " chars")%string in
  (200 < n -> correctness_of q (Some ua) = Ok (f1_0, rationale)) /\
  (80 < n <= 200 -> correctness_of q (Some ua) = Ok (f0_6, rationale)) /\
  (n <= 80 -> correctness_of q (Some ua) = Ok (f0_3, rationale)) /\
  (forall (qs : list Question) (answers : list SubmissionAnswer)
          (r : GradeResult) (i : nat),
     grade qs answers = Ok r -> qs !! i = Some q ->
     find_answer answers i = Some ua ->
     exists fb, feedback r !! i = Some fb /\
       fb_correctness fb =
         if 200 <? n then f1_0 else if 80 <? n then f0_6 else f0_3).
Proof.
  intros Ht n rationale.
  pose proof (correctness_essay q ua Ht) as Hc. cbv zeta in Hc.
  fold n in Hc. fold rationale in Hc.
  split; [|split; [|split]].
  - intros Hn. rewrite Hc. destruct (Z.ltb_spec 200 n); [reflexivity | lia].
  - intros Hn. rewrite Hc. destruct (Z.ltb_spec 200 n); [lia|].
    destruct (Z.ltb_spec 80 n); [reflexivity | lia].
  - intros Hn. rewrite Hc. destruct (Z.ltb_spec 200 n); [lia|].
    destruct (Z.ltb_spec 80 n); [lia | reflexivity].
  - intros qs answers r i Hg Hq Hfind.
    destruct (feedback_at qs answers r i q Hg Hq)
      as (fb & c & rat & x & Hfb & Hc' & _ & _ & _ & _ & Hcorr & _).
    rewrite Hfind, Hc in Hc'. injection Hc' as <- _.
    exists fb. split; assumption.
Qed.

Lemma C4_essay_length_steps_witness :
  type template_essay = "essay"%string /\
  @correctness_of sample_runtime template_essay
     (Some (answer_at 1 (PStr fifty_characters)))
  = Ok (f0_3, "Length heuristic: 50 chars"%string).
Proof.
  split; [reflexivity|].
  apply (@C4_essay_length_steps sample_runtime template_essay
           (answer_at 1 (PStr fifty_characters)) eq_refl).
  simpl. lia.
Defined.

(** C5: a question at index [i] that no submitted answer names (answers
    with an index outside the question list name none) gets [correctness]
    0.5, and its feedback entry adds [round(points * 0.5)] to the earned
    total from which the score is computed. *)
Theorem C5_unanswered_default `{PyRuntime} (qs : list Question)
    (answers : list SubmissionAnswer) (i : nat) (q : Question) :
  qs !! i = Some q ->
  (forall a, In a answers -> question_index a <> Z.of_nat i) ->
  (forall a, question_index a < 0 \/ Z.of_nat (List.length qs) <= question_index a ->
             question_index a <> Z.of_nat i) /\
  correctness_of q (find_answer answers i)
  = Ok (f0_5, "Partial credit: baseline heuristic"%string) /\
  forall r, grade qs answers = Ok r ->
    exists fb, feedback r !! i = Some fb /\
      fb_correctness fb = f0_5 /\
      (x ← int_mul_float (points q) f0_5; py_round x) = Ok (fb_earned fb) /\
      (Z.abs (points q) <= 2 ^ 53 -> fb_earned fb = round_half_even (points q) 2) /\
      earned_total (feedback r)
      = earned_total (take i (feedback r)) + fb_earned fb
        + earned_total (drop (S i) (feedback r)) /\
      score_of (earned_total (feedback r)) (total_points r) = Ok (score r).
Proof.
  intros Hq Hnone.
  split.
  { intros a Hrange. apply lookup_lt_Some in Hq. lia. }
  apply find_answer_none in Hnone.
  assert (Hc : correctness_of q (find_answer answers i)
               = Ok (f0_5, "Partial credit: baseline heuristic"%string))
    by (rewrite Hnone; reflexivity).
  split; [exact Hc|].
  intros r Hg.
  destruct (feedback_at qs answers r i q Hg Hq)
    as (fb & c & rat & x & Hfb & Hc' & Hx & He & _ & _ & Hcorr & _).
  rewrite Hc in Hc'. injection Hc' as <- _.
  exists fb.
  assert (Hearned : (x ← int_mul_float (points q) f0_5; py_round x)
                    = Ok (fb_earned fb)).
  { unfold int_mul_float. rewrite (bind_Ok _ _ _ Hx). exact He. }
  split; [exact Hfb|]. split; [exact Hcorr|]. split; [exact Hearned|].
  split.
  { intros Hpts. rewrite (half_of_int _ Hpts) in Hearned.
    injection Hearned as <-. reflexivity. }
  split.
  { rewrite <- (take_drop_middle _ _ _ Hfb) at 1.
    rewrite earned_total_app. unfold earned_total at 2. cbn [fold_right].
    fold (earned_total (drop (S i) (feedback r))). lia. }
  apply grade_inv in Hg as (_ & -> & _ & _ & Hscore). exact Hscore.
Qed.

Lemma C5_unanswered_default_witness :
  [plain_question 5] !! 0%nat = Some (plain_question 5) /\
  (forall a, In a [answer_at 7 (PInt 1)] -> question_index a <> Z.of_nat 0) /\
  @correctness_of sample_runtime (plain_question 5)
     (find_answer [answer_at 7 (PInt 1)] 0)
  = Ok (f0_5, "Partial credit: baseline heuristic"%string).
Proof.
  assert (Hnone : forall a, In a [answer_at 7 (PInt 1)] ->
                            question_index a <> Z.of_nat 0).
  { intros a [<- | []]. simpl. lia. }
  split; [reflexivity | split; [exact Hnone|]].
  apply (@C5_unanswered_default sample_runtime [plain_question 5]
           [answer_at 7 (PInt 1)] 0 (plain_question 5) eq_refl Hnone).
Defined.





(** An unanswered question of 5 points: it earns 2 of 5, a score of 40.0. *)
Lemma plain_five_graded :
  @grade sample_runtime [plain_question 5] []
  = Ok {| graded := true; total_points := 5; score := literal 40 0;
          feedback := [ {| fb_question_index := 0; fb_points := 5;
                           fb_earned := 2; fb_correctness := f0_5;
                           fb_feedback := "Partial credit: baseline heuristic" |} ] |}.
Proof. vm_compute. reflexivity. Qed.



(** C7: the assessment of one multiple-choice question ([answer_key] 1,
    3 points) answered with 1 and one essay question (10 points) answered
    with a text of 50 characters is graded: question 0 earns 3 with
    [correctness] 1.0, question 1 earns 3 with [correctness] 0.3,
    [total_points] is 13 and [score] is 46.15. *)
Theorem C7_scenario `{PyRuntime} :
  grade [template_choice; template_essay]
        [answer_at 0 (PInt 1); answer_at 1 (PStr fifty_characters)]
  = Ok {| graded := true;
          total_points := 13;
          score := literal 4615 2;
          feedback :=
            [ {| fb_question_index := 0; fb_points := 3; fb_earned := 3;
                 fb_correctness := f1_0; fb_feedback := "Correct option" |};
              {| fb_question_index := 1; fb_points := 10; fb_earned := 3;
                 fb_correctness := f0_3;
                 fb_feedback := "Length heuristic: 50 chars" |} ] |}.
Proof. vm_compute. reflexivity. Qed.


(** C8, as stated: a request whose [assessment_id] resolves to no stored
    assessment would fail with the 404 "Assessment not found".  It does
    not when the id is malformed: for the id [not-an-id], [ObjectId] raises
    [InvalidId] before the lookup. *)
Lemma C8_malformed_id_counterexample :
  (forall drv : Driver,
     @create_submission drv
        {| assessment_id := "not-an-id"; student_name := None; answers := [] |} ∅
     = (Raise InvalidId, ∅)) /\
  ~ unresolved_is_not_found.
Proof.
  split; [reflexivity|].
  intros Hclaim.
  specialize (Hclaim sample_driver
                {| assessment_id := "not-an-id"; student_name := None; answers := [] |} ∅).
  assert (Hun : ~ resolves ∅ "not-an-id").
  { intros (oid & doc & Hoid & _). discriminate Hoid. }
  specialize (Hclaim Hun). discriminate Hclaim.
Qed.

(** C8, amended: a request whose [assessment_id] resolves to no stored
    assessment fails and leaves the store as it was; the error is the 404
    "Assessment not found" when the id is well formed (24 characters that
    [bytes.fromhex] accepts), and [InvalidId] when it is not. *)
Theorem C8_missing_assessment `{Driver} (payload : SubmissionCreate)
    (db : database) :
  ~ resolves db (assessment_id payload) ->
  snd (create_submission payload db) = db /\
  (forall oid, ObjectId (assessment_id payload) = Ok oid ->
     String.length (assessment_id payload) = 24%nat /\
     fromhex (assessment_id payload) = Some oid /\
     fst (create_submission payload db)
     = Raise (HTTPException 404 "Assessment not found")) /\
  ((forall oid, ObjectId (assessment_id payload) <> Ok oid) ->
     fst (create_submission payload db) = Raise InvalidId).
Proof.
  intros Hun. unfold create_submission.
  destruct (ObjectId (assessment_id payload)) as [oid|e] eqn:Hoid.
  - destruct (find_one db "assessment" oid) as [doc|] eqn:Hfind.
    { exfalso. apply Hun. exists oid, doc. split; assumption. }
    split; [reflexivity|]. split.
    + intros oid' [= <-]. unfold ObjectId in Hoid.
      destruct (Nat.eqb_spec (String.length (assessment_id payload)) 24);
        [|discriminate].
      destruct (fromhex (assessment_id payload)); [|discriminate].
      injection Hoid as ->. repeat split; assumption.
    + intros Hno. exfalso. exact (Hno oid eq_refl).
  - split; [reflexivity|]. split; [intros oid' [=]|].
    intros _. cbn [fst]. f_equal. unfold ObjectId in Hoid.
    destruct (String.length (assessment_id payload) =? 24)%nat;
      [destruct (fromhex (assessment_id payload)); [discriminate|] |];
      injection Hoid as <-; reflexivity.
Qed.

Lemma C8_missing_assessment_witness :
  ~ resolves ∅ "0123456789abcdef01234567" /\
  @create_submission sample_driver
     {| assessment_id := "0123456789abcdef01234567"; student_name := None;
        answers := [] |} ∅
  = (Raise (HTTPException 404 "Assessment not found"), ∅).
Proof.
  assert (Hun : ~ resolves ∅ "0123456789abcdef01234567").
  { intros (oid & doc & Hoid & Hfind). vm_compute in Hoid.
    injection Hoid as <-. vm_compute in Hfind. discriminate Hfind. }
  split; [exact Hun|].
  pose proof (@C8_missing_assessment sample_driver
                {| assessment_id := "0123456789abcdef01234567";
                   student_name := None; answers := [] |} ∅ Hun)
    as (Hstore & Hnotfound & _).
  destruct (Hnotfound _ eq_refl) as (_ & _ & Herr).
  rewrite (surjective_pairing (create_submission _ _)).
  rewrite Hstore, Herr. reflexivity.
Defined.

(** C9: the points a question earns are [round(points * correctness)] with
    Python's [round], which rounds a tie to the even integer: an unanswered
    question ([correctness] 0.5) of 1 point earns 0 and one of 5 points
    earns 2; more generally an even number of points earns its half, and
    an odd number the even neighbour of its half. *)
Theorem C9_round_half_to_even `{PyRuntime} (i : nat) (q : Question)
    (answers : list SubmissionAnswer) :
  find_answer answers i = None -> Z.abs (points q) <= 2 ^ 53 ->
  exists fb, grade_question i q answers = Ok fb /\
    fb_earned fb = round_half_even (points q) 2 /\
    (Z.even (points q) = true -> points q = 2 * fb_earned fb) /\
    (Z.even (points q) = false ->
       Z.even (fb_earned fb) = true /\ Z.abs (2 * fb_earned fb - points q) = 1) /\
    (points q = 1 -> fb_earned fb = 0) /\
    (points q = 5 -> fb_earned fb = 2).
Proof.
  intros Hnone Hpts.
  assert (Hc : correctness_of q (find_answer answers i)
               = Ok (f0_5, "Partial credit: baseline heuristic"%string))
    by (rewrite Hnone; reflexivity).
  pose proof (float_of_int_exact _ Hpts) as Hx.
  pose proof (half_of_int _ Hpts) as Hhalf.
  unfold int_mul_float in Hhalf. rewrite (bind_Ok _ _ _ Hx) in Hhalf.
  cbn [mbind result_bind] in Hhalf.
  eexists. split; [exact (grade_question_intro _ _ _ _ _ _ _ Hc Hx Hhalf)|].
  cbn [fb_earned].
  destruct (round_half_even_two (points q)) as [Heven Hodd].
  repeat split.
  - exact Heven.
  - apply Hodd; assumption.
  - apply Hodd; assumption.
  - intros ->. reflexivity.
  - intros ->. reflexivity.
Qed.

Lemma C9_round_half_to_even_witness :
  find_answer [] 0 = None /\ Z.abs (points (plain_question 5)) <= 2 ^ 53 /\
  exists fb, @grade_question sample_runtime 0 (plain_question 5) [] = Ok fb /\
             fb_earned fb = 2.
Proof.
  assert (Hpts : Z.abs (points (plain_question 5)) <= 2 ^ 53) by (simpl; lia).
  split; [reflexivity | split; [exact Hpts|]].
  destruct (@C9_round_half_to_even sample_runtime 0 (plain_question 5) []
              eq_refl Hpts) as (fb & Hg & _ & _ & _ & _ & Hfive).
  exists fb. split; [exact Hg | apply Hfive; reflexivity].
Defined.


(** C10, as stated: with non-negative points every question would earn at
    most its points.  It does not once the points exceed what a float
    holds exactly: [2^53 + 3] points convert to the float [2^53 + 4], and a
    correct answer earns 9007199254740996 of 9007199254740995 points. *)
Lemma C10_large_points_counterexample :
  (forall rt : PyRuntime,
     @grade rt [choice_with_large_points] [answer_at 0 (PInt 1)]
     = Ok {| graded := true;
             total_points := 9007199254740995;
             score := f100_0;
             feedback :=
               [ {| fb_question_index := 0;
                    fb_points := 9007199254740995;
                    fb_earned := 9007199254740996;
                    fb_correctness := f1_0;
                    fb_feedback := "Correct option" |} ] |}) /\
  ~ earned_within_points.
Proof.
  assert (Hg : forall rt : PyRuntime,
     @grade rt [choice_with_large_points] [answer_at 0 (PInt 1)]
     = Ok {| graded := true;
             total_points := 9007199254740995;
             score := f100_0;
             feedback :=
               [ {| fb_question_index := 0;
                    fb_points := 9007199254740995;
                    fb_earned := 9007199254740996;
                    fb_correctness := f1_0;
                    fb_feedback := "Correct option" |} ] |})
    by (intros rt; vm_compute; reflexivity).
  split; [exact Hg|].
  intros Hclaim.
  assert (Hqs : forall q, In q [choice_with_large_points] -> 0 <= points q)
    by (intros q [<- | []]; simpl; lia).
  destruct (Hclaim sample_runtime _ _ _ Hqs (Hg sample_runtime)) as [Hfb _].
  cbn [feedback] in Hfb.
  destruct (Hfb _ (or_introl eq_refl)) as (_ & _ & _ & Hle).
  cbn [fb_earned fb_points] in Hle. lia.
Qed.

(** C10, amended: for every grading run over questions whose points are
    integers from 0 to [2^53] (the ints a float holds exactly), every
    [correctness] lies between 0.0 and 1.0, every question earns between 0
    and its points, and the score lies between 0.0 and 100.0 whenever
    [total_points > 0]. *)
Theorem C10_bounds_for_exact_points `{PyRuntime} (qs : list Question)
    (answers : list SubmissionAnswer) (r : GradeResult) :
  (forall q, In q qs -> 0 <= points q <= 2 ^ 53) ->
  grade qs answers = Ok r ->
  (forall fb, In fb (feedback r) ->
     fle f0_0 (fb_correctness fb) = true /\ fle (fb_correctness fb) f1_0 = true /\
     0 <= fb_earned fb <= fb_points fb) /\
  (0 < total_points r ->
     fle f0_0 (score r) = true /\ fle (score r) f100_0 = true).
Proof.
  intros Hqs Hg. destruct (grade_bounds qs answers r Hqs Hg) as [Hfb Hscore].
  split.
  - intros fb Hin. destruct (Hfb fb Hin) as [He Hu].
    destruct (unit_interval_fle _ Hu) as [H0 H1]. repeat split; auto; lia.
  - intros Hpos. destruct (Hscore Hpos) as (n & -> & Hn).
    unfold f0_0, f100_0. cbn [fle fval]. split; apply Z.leb_le; lia.
Qed.

Lemma C10_bounds_for_exact_points_witness :
  (forall q, In q [plain_question 5] -> 0 <= points q <= 2 ^ 53) /\
  exists r, @grade sample_runtime [plain_question 5] [] = Ok r /\
    (0 < total_points r ->
       fle f0_0 (score r) = true /\ fle (score r) f100_0 = true).
Proof.
  assert (Hqs : forall q, In q [plain_question 5] -> 0 <= points q <= 2 ^ 53)
    by (intros q [<- | []]; simpl; lia).
  split; [exact Hqs|].
  eexists. split; [exact plain_five_graded|].
  apply (@C10_bounds_for_exact_points sample_runtime _ _ _ Hqs plain_five_graded).
Defined.

End Claims.

(* ===================================================================== *)
(** * More about the grading engine                                       *)
(* ===================================================================== *)

Module EngineFacts.
Import Float64 PyStr PyVal Models Grading Endpoints Spec.
Import Float64Facts WordFacts GradingFacts.

(** ** The answers only matter through the one found for each question *)

Lemma grade_question_ext `{PyRuntime} (i : nat) (q : Question)
    (a1 a2 : list SubmissionAnswer) :
  find_answer a1 i = find_answer a2 i ->
  grade_question i q a1 = grade_question i q a2.
Proof. intros Hf. unfold grade_question. rewrite Hf. reflexivity. Qed.

Lemma grade_loop_ext `{PyRuntime} (a1 a2 : list SubmissionAnswer)
    (qs : list Question) :
  forall (i : nat) (e : Z) (fbs : list Feedback),
    (forall j, (j < List.length qs)%nat ->
               find_answer a1 (i + j) = find_answer a2 (i + j)) ->
    grade_loop i qs a1 e fbs = grade_loop i qs a2 e fbs.
Proof.
  induction qs as [|q qs IH]; intros i e fbs Hf; cbn [grade_loop]; [reflexivity|].
  rewrite (grade_question_ext i q a1 a2).
  2: { rewrite <- (Nat.add_0_r i). apply Hf. simpl. lia. }
  destruct (grade_question i q a2) as [fb|err]; [|reflexivity].
  cbn [mbind result_bind]. apply IH.
  intros j Hj. replace (S i + j)%nat with (i + S j)%nat by lia.
  apply Hf. simpl. lia.
Qed.

Lemma grade_ext `{PyRuntime} (qs : list Question)
    (a1 a2 : list SubmissionAnswer) :
  (forall i, (i < List.length qs)%nat -> find_answer a1 i = find_answer a2 i) ->
  grade qs a1 = grade qs a2.
Proof.
  intros Hf. unfold grade.
  rewrite (grade_loop_ext a1 a2 qs 0 0 []); [reflexivity|].
  intros j Hj. apply Hf. exact Hj.
Qed.

Lemma find_answer_app (l1 l2 : list SubmissionAnswer) (i : nat) :
  find_answer (l1 ++ l2) i =
    match find_answer l1 i with
    | Some a => Some a
    | None => find_answer l2 i
    end.
Proof.
  unfold find_answer. induction l1 as [|a l1 IH]; cbn [app find]; [reflexivity|].
  destruct (question_index a =? Z.of_nat i); [reflexivity | exact IH].
Qed.

Lemma find_answer_some (answers : list SubmissionAnswer) (i : nat)
    (a : SubmissionAnswer) :
  find_answer answers i = Some a ->
  In a answers /\ question_index a = Z.of_nat i.
Proof.
  unfold find_answer. intros Hf. apply find_some in Hf as [Hin Heq].
  split; [exact Hin | apply Z.eqb_eq, Heq].
Qed.

(** X1: only the first answer given for a question counts: answers added
    after a submission for indices it already answers change nothing. *)
Theorem later_duplicates_are_ignored `{PyRuntime} (qs : list Question)
    (answers extra : list SubmissionAnswer) :
  (forall b, In b extra ->
     exists a, In a answers /\ question_index a = question_index b) ->
  grade qs (answers ++ extra) = grade qs answers.
Proof.
  intros Hdup. apply grade_ext. intros i _.
  rewrite find_answer_app.
  destruct (find_answer answers i) as [a|] eqn:Hf; [reflexivity|].
  apply find_answer_none. intros b Hb Hidx.
  destruct (Hdup b Hb) as (a & Ha & Heq).
  apply (proj1 (find_answer_none _ _) Hf a Ha). congruence.
Qed.

Lemma later_duplicates_are_ignored_witness :
  (forall b, In b [answer_at 0 (PInt 2)] ->
     exists a, In a [answer_at 0 (PInt 1)] /\ question_index a = question_index b) /\
  @grade sample_runtime [template_choice] ([answer_at 0 (PInt 1)] ++ [answer_at 0 (PInt 2)])
  = @grade sample_runtime [template_choice] [answer_at 0 (PInt 1)].
Proof.
  assert (Hdup : forall b, In b [answer_at 0 (PInt 2)] ->
     exists a, In a [answer_at 0 (PInt 1)] /\ question_index a = question_index b).
  { intros b [<- | []]. exists (answer_at 0 (PInt 1)). split; [left|]; reflexivity. }
  split; [exact Hdup|].
  apply (@later_duplicates_are_ignored sample_runtime [template_choice] _ _ Hdup).
Defined.

Lemma find_answer_filter (P : SubmissionAnswer -> bool)
    (answers : list SubmissionAnswer) (i : nat) :
  (forall a, question_index a = Z.of_nat i -> P a = true) ->
  find_answer (List.filter P answers) i = find_answer answers i.
Proof.
  intros HP. unfold find_answer.
  induction answers as [|a answers IH]; cbn [List.filter find]; [reflexivity|].
  destruct (Z.eqb_spec (question_index a) (Z.of_nat i)) as [Heq | Hne].
  - rewrite (HP a Heq). cbn [find].
    destruct (Z.eqb_spec (question_index a) (Z.of_nat i)); [reflexivity | contradiction].
  - destruct (P a); [cbn [find]|exact IH].
    destruct (Z.eqb_spec (question_index a) (Z.of_nat i)); [contradiction | exact IH].
Qed.

(** X2: answers whose [question_index] is negative or not below the number
    of questions are ignored: dropping them from the submission gives the
    same result. *)
Theorem out_of_range_answers_are_ignored `{PyRuntime} (qs : list Question)
    (answers : list SubmissionAnswer) :
  grade qs
    (List.filter (fun a => (0 <=? question_index a) &&
                           (question_index a <? Z.of_nat (List.length qs)))
                 answers)
  = grade qs answers.
Proof.
  apply grade_ext. intros i Hi. apply find_answer_filter.
  intros a Ha. rewrite Ha. apply andb_true_intro. split.
  - apply Z.leb_le. lia.
  - apply Z.ltb_lt. lia.
Qed.

(** X3: when no two answers name the same question, the order of the
    answers does not matter. *)
Theorem answer_order_is_irrelevant `{PyRuntime} (qs : list Question)
    (answers answers' : list SubmissionAnswer) :
  List.NoDup (List.map question_index answers) ->
  Permutation answers answers' ->
  grade qs answers' = grade qs answers.
Proof.
  intros Hnd Hperm. apply grade_ext. intros i _.
  assert (Hnd' : List.NoDup (List.map question_index answers')).
  { eapply Permutation_NoDup; [|exact Hnd]. apply Permutation_map. exact Hperm. }
  assert (Huniq : forall l a b, List.NoDup (List.map question_index l) ->
            In a l -> In b l -> question_index a = question_index b -> a = b).
  { clear. induction l as [|x l IH]; intros a b Hnd Ha Hb Heq; [contradiction|].
    cbn [List.map] in Hnd. inversion Hnd as [|? ? Hx Hl]; subst.
    destruct Ha as [-> | Ha], Hb as [-> | Hb].
    - reflexivity.
    - exfalso. apply Hx. rewrite Heq. apply in_map. exact Hb.
    - exfalso. apply Hx. rewrite <- Heq. apply in_map. exact Ha.
    - apply IH; assumption. }
  destruct (find_answer answers' i) as [a'|] eqn:Hf';
    destruct (find_answer answers i) as [a|] eqn:Hf; try reflexivity.
  - apply find_answer_some in Hf' as [Hin' Hi'].
    apply find_answer_some in Hf as [Hin Hi].
    f_equal. apply (Huniq answers' a' a Hnd' Hin'); [|congruence].
    eapply Permutation_in; [exact Hperm | exact Hin].
  - exfalso. apply find_answer_some in Hf' as [Hin' Hi'].
    apply (proj1 (find_answer_none _ _) Hf a'); [|exact Hi'].
    eapply Permutation_in; [symmetry; exact Hperm | exact Hin'].
  - exfalso. apply find_answer_some in Hf as [Hin Hi].
    apply (proj1 (find_answer_none _ _) Hf' a); [|exact Hi].
    eapply Permutation_in; [exact Hperm | exact Hin].
Qed.

Lemma answer_order_is_irrelevant_witness :
  List.NoDup (List.map question_index [answer_at 0 (PInt 1); answer_at 1 (PStr "x")]) /\
  Permutation [answer_at 0 (PInt 1); answer_at 1 (PStr "x")]
              [answer_at 1 (PStr "x"); answer_at 0 (PInt 1)] /\
  @grade sample_runtime [template_choice; template_essay]
         [answer_at 1 (PStr "x"); answer_at 0 (PInt 1)]
  = @grade sample_runtime [template_choice; template_essay]
           [answer_at 0 (PInt 1); answer_at 1 (PStr "x")].
Proof.
  assert (Hnd : List.NoDup (List.map question_index
                              [answer_at 0 (PInt 1); answer_at 1 (PStr "x")])).
  { simpl. constructor; [intros [H | []]; discriminate|].
    constructor; [intros []|]. constructor. }
  assert (Hperm : Permutation [answer_at 0 (PInt 1); answer_at 1 (PStr "x")]
                              [answer_at 1 (PStr "x"); answer_at 0 (PInt 1)])
    by apply perm_swap.
  split; [exact Hnd | split; [exact Hperm|]].
  apply (@answer_order_is_irrelevant sample_runtime _ _ _ Hnd Hperm).
Defined.


(** ** The shape of the feedback *)

(** X4: a grading run that returns gives one feedback entry per question,
    in the order of the questions: entry [i] carries index [i] and the
    points of question [i]. *)
Theorem feedback_follows_questions `{PyRuntime} (qs : list Question)
    (answers : list SubmissionAnswer) (r : GradeResult) :
  grade qs answers = Ok r ->
  List.length (feedback r) = List.length qs /\
  forall (i : nat) (fb : Feedback), feedback r !! i = Some fb ->
    fb_question_index fb = Z.of_nat i /\
    exists q, qs !! i = Some q /\ fb_points fb = points q.
Proof.
  intros Hg. pose proof (grade_inv qs answers r Hg) as (_ & _ & Hlen & _ & _).
  split; [exact Hlen|]. intros i fb Hfb.
  assert (Hi : (i < List.length qs)%nat).
  { rewrite <- Hlen. apply lookup_lt_Some in Hfb. exact Hfb. }
  destruct (lookup_lt_is_Some_2 qs i Hi) as (q & Hq).
  destruct (feedback_at qs answers r i q Hg Hq)
    as (fb' & c & rat & x & Hfb' & _ & _ & _ & Hidx & Hpts & _).
  rewrite Hfb in Hfb'. injection Hfb' as <-.
  split; [exact Hidx|]. exists q. split; assumption.
Qed.

Lemma feedback_follows_questions_witness :
  exists r, @grade sample_runtime [plain_question 5] [] = Ok r /\
            List.length (feedback r) = List.length [plain_question 5].
Proof.
  eexists. split; [exact Claims.plain_five_graded|].
  apply (@feedback_follows_questions sample_runtime _ _ _ Claims.plain_five_graded).
Defined.

(** ** The exceptions of the engine *)

Lemma bind_Raise_inv {A B : Type} (c : result A) (k : A -> result B) (e : exn) :
  c ≫= k = Raise e -> c = Raise e \/ exists a, c = Ok a /\ k a = Raise e.
Proof.
  destruct c as [a|e']; intros H; [right; exists a; split; [reflexivity | exact H]|].
  left. injection H as ->. reflexivity.
Qed.

Lemma float_of_int_raises (z : Z) (e : exn) :
  float_of_int z = Raise e -> e = OverflowError.
Proof.
  unfold float_of_int. destruct (huge <=? _); [|discriminate].
  intros [= <-]. reflexivity.
Qed.

Lemma correctness_of_raises `{PyRuntime} (q : Question)
    (ua : option SubmissionAnswer) (e : exn) :
  correctness_of q ua = Raise e -> e = OverflowError.
Proof.
  unfold correctness_of. destruct ua as [ua|]; [|discriminate].
  destruct (String.eqb (type q) "multiple_choice").
  { destruct (is_not_none (answer_key q) && py_eq (answer ua) (answer_key q));
      discriminate. }
  destruct (String.eqb (type q) "short_answer").
  { intros Hr. apply bind_Raise_inv in Hr as [Hr | (c & _ & Hr)]; [|discriminate].
    unfold int_div_float in Hr.
    apply bind_Raise_inv in Hr as [Hr | (x & _ & Hr)].
    - exact (float_of_int_raises _ _ Hr).
    - unfold float_truediv in Hr. rewrite five_is_not_zero in Hr. discriminate. }
  destruct (String.eqb (type q) "essay"); discriminate.
Qed.

Lemma grade_question_raises `{PyRuntime} (i : nat) (q : Question)
    (answers : list SubmissionAnswer) (e : exn) :
  grade_question i q answers = Raise e -> e = OverflowError.
Proof.
  unfold grade_question. intros Hr.
  apply bind_Raise_inv in Hr as [Hr | ([c rat] & Hc & Hr)];
    [exact (correctness_of_raises _ _ _ Hr)|].
  cbn [fst snd] in Hr. unfold int_mul_float in Hr.
  apply bind_Raise_inv in Hr as [Hr | (y & Hy & Hr)].
  { apply bind_Raise_inv in Hr as [Hr | (x & _ & Hr)]; [|discriminate].
    exact (float_of_int_raises _ _ Hr). }
  apply bind_Ok_inv in Hy as (x & Hx & [= <-]).
  apply bind_Raise_inv in Hr as [Hr | (n & _ & Hr)]; [|discriminate].
  exfalso.
  destruct (float_of_int_finite _ _ Hx) as (a & ->).
  destruct (float_of_int_representable _ _ Hx) as [Hrep Hlt].
  destruct (credits_unit_interval c (correctness_of_credit_inv _ _ _ _ Hc))
    as (b & -> & Hb).
  destruct (py_round_fmul_defined a b Hrep Hlt) as (n & Hn);
    [rewrite Z.abs_eq; lia|].
  rewrite Hn in Hr. discriminate.
Qed.

Lemma grade_loop_raises `{PyRuntime} (answers : list SubmissionAnswer)
    (qs : list Question) :
  forall (i : nat) (earned : Z) (fbs : list Feedback) (e : exn),
    grade_loop i qs answers earned fbs = Raise e -> e = OverflowError.
Proof.
  induction qs as [|q qs IH]; intros i earned fbs e Hr; cbn [grade_loop] in Hr;
    [discriminate|].
  apply bind_Raise_inv in Hr as [Hr | (fb & _ & Hr)].
  - exact (grade_question_raises _ _ _ _ Hr).
  - exact (IH _ _ _ _ Hr).
Qed.

Lemma grade_raises `{PyRuntime} (qs : list Question)
    (answers : list SubmissionAnswer) (e : exn) :
  grade qs answers = Raise e -> e = OverflowError.
Proof.
  unfold grade. intros Hr.
  apply bind_Raise_inv in Hr as [Hr | (ef & _ & Hr)];
    [exact (grade_loop_raises _ _ _ _ _ _ Hr)|].
  apply bind_Raise_inv in Hr as [Hr | (s & _ & Hr)]; [|discriminate].
  unfold score_of in Hr.
  destruct (Z.ltb_spec 0 (sum_points qs)) as [Hpos|]; [|discriminate].
  apply bind_Raise_inv in Hr as [Hr | (x & _ & Hr)]; [|discriminate].
  unfold int_truediv in Hr.
  destruct (Z.eqb_spec (sum_points qs) 0); [lia|].
  destruct (huge <=? _); [|discriminate].
  injection Hr as <-. reflexivity.
Qed.

(** X5: the engine raises no exception but [OverflowError] (the error of an
    int too large for a float): never [ZeroDivisionError], whatever the
    points sum to, and never an error of [round]. *)
Theorem engine_raises_only_overflow `{PyRuntime} (qs : list Question)
    (answers : list SubmissionAnswer) (e : exn) :
  grade qs answers = Raise e ->
  e = OverflowError /\ e <> ZeroDivisionError /\ e <> ValueError.
Proof.
  intros Hr. rewrite (grade_raises _ _ _ Hr). repeat split; discriminate.
Qed.

Lemma engine_raises_only_overflow_witness :
  exists e, @grade sample_runtime [plain_question (2 ^ 1024)] [] = Raise e /\
            e = OverflowError.
Proof.
  assert (Hg : @grade sample_runtime [plain_question (2 ^ 1024)] []
               = Raise OverflowError) by (vm_compute; reflexivity).
  eexists. split; [exact Hg|].
  exact (proj1 (@engine_raises_only_overflow sample_runtime _ _ _ Hg)).
Defined.

(** X6: whenever every question's points are between 0 and [2^53] and
    every prompt has the size of a Python str, the engine returns a result:
    no submission makes it raise. *)
Theorem engine_returns `{PyRuntime} (qs : list Question)
    (answers : list SubmissionAnswer) :
  (forall q, In q qs -> 0 <= points q <= 2 ^ 53 /\ python_sized (prompt q)) ->
  exists r, grade qs answers = Ok r.
Proof.
  intros Hqs. destruct (grade_bounded qs answers Hqs) as (r & Hg & _).
  exists r. exact Hg.
Qed.

Lemma engine_returns_witness :
  (forall q, In q [template_short; template_choice; template_essay] ->
             0 <= points q <= 2 ^ 53 /\ python_sized (prompt q)) /\
  exists r, @grade sample_runtime [template_short; template_choice; template_essay]
                   [answer_at 5 PNone] = Ok r.
Proof.
  assert (Hqs : forall q, In q [template_short; template_choice; template_essay] ->
                          0 <= points q <= 2 ^ 53 /\ python_sized (prompt q)).
  { intros q [<- | [<- | [<- | []]]]; unfold python_sized, sys_maxsize; simpl; lia. }
  split; [exact Hqs|].
  apply (@engine_returns sample_runtime _ _ Hqs).
Defined.


(** ** The two ends of the score *)

Lemma round2_hundred : py_round2 f100_0 = f100_0.
Proof.
  unfold py_round2, f100_0. pose proof unit_pos as HU.
  destruct (Z.ltb_spec (100 * unit_) 0); [lia|].
  replace (100 * (100 * unit_)) with (10000 * unit_) by ring.
  rewrite round_half_even_exact by lia.
  change (Z.abs 10000) with 10000.
  replace (10000 * unit_) with (100 * unit_ * 100) by ring.
  rewrite nearest_even_exact;
    [ | lia | lia | apply representable_int; simpl; lia ].
  apply pack_pos. split; [lia|]. apply (int_units_lt_huge 100). simpl; lia.
Qed.

Lemma score_of_full (t : Z) : 0 < t -> score_of t t = Ok f100_0.
Proof.
  intros Ht. unfold score_of, int_truediv. pose proof unit_pos as HU.
  destruct (Z.ltb_spec 0 t); [|lia]. destruct (Z.eqb_spec t 0); [lia|].
  rewrite (Z.abs_eq t) by lia. rewrite (Z.mul_comm t unit_).
  rewrite nearest_even_exact; [ | lia | lia | apply representable_unit ].
  pose proof unit_lt_huge.
  destruct (Z.leb_spec huge unit_); [lia|].
  destruct (Z.ltb_spec t 0); [lia|]. cbn [xorb mbind result_bind].
  rewrite pack_pos by lia. apply (f_equal Ok).
  destruct (fmul_bounded unit_ (100 * unit_) (100 * unit_)) as (m & Hm & Hm0 & Hm1);
    [ lia | lia | apply representable_int; simpl; lia
    | apply (int_units_lt_huge 100); simpl; lia | lia | ].
  assert (Hge : fle (Fin (100 * unit_)) (fmul (Fin unit_) (Fin (100 * unit_))) = true).
  { apply fmul_at_least; [lia | lia | apply representable_int; simpl; lia | lia]. }
  unfold f100_0 at 1. rewrite Hm in *. cbn [fle fval] in Hge. apply Z.leb_le in Hge.
  replace m with (100 * unit_) by lia. apply round2_hundred.
Qed.

Lemma score_of_nothing (t : Z) : 0 < t -> score_of 0 t = Ok f0_0.
Proof.
  intros Ht. unfold score_of. pose proof unit_pos as HU.
  destruct (Z.ltb_spec 0 t); [|lia].
  destruct (int_truediv_bounded 0 t 0) as (n & Hn & Hn0); [lia | lia | simpl; lia | lia |].
  rewrite (bind_Ok _ _ _ Hn). replace n with 0 by lia.
  assert (Hzero : representable 0)
    by (exists 0, 0; split; [reflexivity | split; [simpl; lia | lia]]).
  destruct (fmul_bounded 0 (100 * unit_) 0) as (m & Hm & Hm0);
    [lia | lia | exact Hzero | pose proof unit_lt_huge; lia | lia |].
  unfold f100_0. rewrite Hm. replace m with 0 by lia.
  destruct (py_round2_bounded 0 0) as (k & Hk & Hk0); [lia | simpl; lia |].
  rewrite Hk. replace k with 0 by lia. reflexivity.
Qed.

(** X7: a submission that earns every point of an assessment with a
    positive total scores exactly 100.0, and one that earns nothing scores
    exactly 0.0. *)
Theorem score_extremes `{PyRuntime} (qs : list Question)
    (answers : list SubmissionAnswer) (r : GradeResult) :
  grade qs answers = Ok r -> 0 < total_points r ->
  (earned_total (feedback r) = total_points r -> score r = f100_0) /\
  (earned_total (feedback r) = 0 -> score r = f0_0).
Proof.
  intros Hg Hpos. apply grade_inv in Hg as (_ & Htot & _ & _ & Hscore).
  rewrite Htot in *. split; intros He; rewrite He in Hscore.
  - rewrite score_of_full in Hscore by assumption. injection Hscore as <-. reflexivity.
  - rewrite score_of_nothing in Hscore by assumption. injection Hscore as <-. reflexivity.
Qed.

(** X24: an assessment whose points sum to zero or less (one without
    questions, for instance) is graded with a score of 0.0: the engine does
    not divide by the total then. *)
Theorem score_without_points `{PyRuntime} (qs : list Question)
    (answers : list SubmissionAnswer) (r : GradeResult) :
  grade qs answers = Ok r -> total_points r <= 0 -> score r = f0_0.
Proof.
  intros Hg Hnone. apply grade_inv in Hg as (_ & Htot & _ & _ & Hscore).
  rewrite Htot in Hnone. unfold score_of in Hscore.
  destruct (Z.ltb_spec 0 (sum_points qs)); [lia|].
  injection Hscore as <-. reflexivity.
Qed.

Lemma score_without_points_witness :
  exists r, @grade sample_runtime [] [answer_at 0 (PInt 1)] = Ok r /\
            total_points r <= 0 /\ score r = f0_0.
Proof.
  assert (Hg : @grade sample_runtime [] [answer_at 0 (PInt 1)]
               = Ok {| graded := true; total_points := 0; score := f0_0;
                       feedback := [] |}) by reflexivity.
  assert (Hnone : 0 <= 0) by lia.
  eexists. split; [exact Hg|]. split; [exact Hnone|].
  exact (@score_without_points sample_runtime _ _ _ Hg Hnone).
Defined.

(** ** All or nothing for a multiple-choice question *)

Lemma round_one_product (z : Z) :
  Z.abs z <= 2 ^ 53 -> py_round (fmul (Fin (z * unit_)) f1_0) = Ok z.
Proof.
  intros Hz. pose proof unit_pos as HU. unfold fmul, f1_0, magnitude, sign_of.
  rewrite Z.abs_mul, (Z.abs_eq unit_) by lia.
  rewrite nearest_even_exact;
    [ | nia | lia | apply representable_int; rewrite Z.abs_idemp; exact Hz ].
  pose proof (int_units_lt_huge z Hz) as Hh.
  destruct (Z.ltb_spec unit_ 0); [lia|]. rewrite xorb_false_r.
  unfold pack. destruct (Z.leb_spec huge (Z.abs z * unit_)); [lia|].
  destruct (Z.eqb_spec (Z.abs z * unit_) 0) as [E | NE].
  - assert (z = 0) by nia. subst z. rewrite Z.mul_0_l. cbn [Z.ltb Z.compare py_round].
    apply (f_equal Ok). apply (round_half_even_exact 0 unit_). lia.
  - assert (Hv : (if z * unit_ <? 0 then - (Z.abs z * unit_) else Z.abs z * unit_)
                 = z * unit_).
    { destruct (Z.ltb_spec (z * unit_) 0);
        [rewrite Z.abs_neq by nia | rewrite Z.abs_eq by nia]; ring. }
    rewrite Hv. cbn [py_round]. apply (f_equal Ok). apply round_half_even_exact. lia.
Qed.

(** X8: a multiple-choice question whose points are at most [2^53] in
    magnitude is all or nothing: an answer equal to the key earns all the
    points, every other answer earns 0. *)
Theorem multiple_choice_all_or_nothing `{PyRuntime} (qs : list Question)
    (answers : list SubmissionAnswer) (r : GradeResult) (i : nat)
    (q : Question) (ua : SubmissionAnswer) :
  grade qs answers = Ok r -> qs !! i = Some q ->
  find_answer answers i = Some ua ->
  type q = "multiple_choice"%string -> Z.abs (points q) <= 2 ^ 53 ->
  exists fb, feedback r !! i = Some fb /\
    fb_earned fb =
      if is_not_none (answer_key q) && py_eq (answer ua) (answer_key q)
      then points q else 0.
Proof.
  intros Hg Hq Hfind Ht Hpts.
  destruct (feedback_at qs answers r i q Hg Hq)
    as (fb & c & rat & x & Hfb & Hc & Hx & He & _).
  exists fb. split; [exact Hfb|].
  rewrite Hfind, (correctness_multiple_choice q ua Ht) in Hc.
  destruct (is_not_none (answer_key q) && py_eq (answer ua) (answer_key q));
    injection Hc as <- _.
  - rewrite (float_of_int_exact _ Hpts) in Hx. injection Hx as <-.
    rewrite (round_one_product _ Hpts) in He. injection He as <-. reflexivity.
  - rewrite (round_zero_product _ _ Hx) in He. injection He as <-. reflexivity.
Qed.

(** ** Question types the engine does not know *)

(** X9: a question whose type is none of [multiple_choice], [short_answer]
    and [essay] (the comparison is exact, so [Essay] is such a type) gets
    the default [correctness] 0.5 whether it is answered or not, whatever
    the answer is. *)
Theorem unknown_type_gets_default `{PyRuntime} (q : Question)
    (ua : option SubmissionAnswer) :
  type q <> "multiple_choice"%string -> type q <> "short_answer"%string ->
  type q <> "essay"%string ->
  correctness_of q ua = Ok (f0_5, "Partial credit: baseline heuristic"%string) /\
  forall (qs : list Question) (answers : list SubmissionAnswer)
         (r : GradeResult) (i : nat),
    grade qs answers = Ok r -> qs !! i = Some q ->
    exists fb, feedback r !! i = Some fb /\ fb_correctness fb = f0_5 /\
      (x ← int_mul_float (points q) f0_5; py_round x) = Ok (fb_earned fb).
Proof.
  intros Hmc Hsa Hes.
  assert (Hc : forall ua, correctness_of q ua
                 = Ok (f0_5, "Partial credit: baseline heuristic"%string)).
  { intros [ua'|]; [|reflexivity]. unfold correctness_of.
    apply String.eqb_neq in Hmc, Hsa, Hes. rewrite Hmc, Hsa, Hes. reflexivity. }
  split; [apply Hc|].
  intros qs answers r i Hg Hq.
  destruct (feedback_at qs answers r i q Hg Hq)
    as (fb & c & rat & x & Hfb & Hc' & Hx & He & _ & _ & Hcorr & _).
  rewrite Hc in Hc'. injection Hc' as <- _.
  exists fb. split; [exact Hfb | split; [exact Hcorr|]].
  unfold int_mul_float. rewrite (bind_Ok _ _ _ Hx). exact He.
Qed.


(** The multiple-choice question of the upload template, answered with its
    key: 3 of 3 points, a score of 100.0. *)
Lemma choice_graded :
  @grade sample_runtime [template_choice] [answer_at 0 (PInt 1)]
  = Ok {| graded := true; total_points := 3; score := f100_0;
          feedback := [ {| fb_question_index := 0; fb_points := 3;
                           fb_earned := 3; fb_correctness := f1_0;
                           fb_feedback := "Correct option" |} ] |}.
Proof. vm_compute. reflexivity. Qed.

Lemma score_extremes_witness :
  exists r, @grade sample_runtime [template_choice] [answer_at 0 (PInt 1)] = Ok r /\
            0 < total_points r /\ score r = f100_0.
Proof.
  eexists. split; [exact choice_graded|].
  assert (Hpos : 0 < 3) by lia. split; [exact Hpos|].
  apply (proj1 (@score_extremes sample_runtime _ _ _ choice_graded Hpos)).
  reflexivity.
Defined.

Lemma multiple_choice_all_or_nothing_witness :
  exists r, @grade sample_runtime [template_choice] [answer_at 0 (PInt 1)] = Ok r /\
    [template_choice] !! 0%nat = Some template_choice /\
    find_answer [answer_at 0 (PInt 1)] 0 = Some (answer_at 0 (PInt 1)) /\
    type template_choice = "multiple_choice"%string /\
    Z.abs (points template_choice) <= 2 ^ 53 /\
    exists fb, feedback r !! 0%nat = Some fb /\ fb_earned fb = 3.
Proof.
  assert (Hpts : Z.abs (points template_choice) <= 2 ^ 53) by (simpl; lia).
  eexists. split; [exact choice_graded|].
  split; [reflexivity|]. split; [reflexivity|]. split; [reflexivity|].
  split; [exact Hpts|].
  exact (@multiple_choice_all_or_nothing sample_runtime _ _ _ 0 template_choice
           (answer_at 0 (PInt 1)) choice_graded eq_refl eq_refl eq_refl Hpts).
Defined.

Lemma unknown_type_gets_default_witness :
  let q := {| prompt := "Discuss."; type := "Essay"; options := None;
              answer_key := PNone; points := 4 |} in
  type q <> "multiple_choice"%string /\ type q <> "short_answer"%string /\
  type q <> "essay"%string /\
  @correctness_of sample_runtime q (Some (answer_at 0 (PStr "A long essay.")))
  = Ok (f0_5, "Partial credit: baseline heuristic"%string).
Proof.
  cbv zeta. split; [discriminate|]. split; [discriminate|]. split; [discriminate|].
  apply (@unknown_type_gets_default sample_runtime
           {| prompt := "Discuss."; type := "Essay"; options := None;
              answer_key := PNone; points := 4 |}
           (Some (answer_at 0 (PStr "A long essay."))));
    discriminate.
Defined.

(** ** What a short answer is compared by *)

Lemma lower_char_idempotent (c : ascii) : lower_char (lower_char c) = lower_char c.
Proof.
  destruct c as [b0 b1 b2 b3 b4 b5 b6 b7].
  destruct b0, b1, b2, b3, b4, b5, b6, b7; reflexivity.
Qed.

Lemma lower_idempotent (s : string) : lower (lower s) = lower s.
Proof.
  induction s as [|c s IH]; cbn [lower]; [reflexivity|].
  rewrite lower_char_idempotent, IH. reflexivity.
Qed.

Lemma word_set_same_words (s s' : string) :
  (forall w, In w (split (lower s)) <-> In w (split (lower s'))) ->
  word_set s = word_set s'.
Proof.
  intros Hw. unfold word_set. apply set_eq. intros w.
  rewrite !elem_of_list_to_set, !list_elem_of_In. apply Hw.
Qed.

(** X10: the credit of a short answer depends only on which lowercase
    words the answer text holds: two answers with the same set of words
    (in any order, any number of times, in any letter case) get the same
    [correctness] and rationale. *)
Theorem short_answer_compares_word_sets `{PyRuntime} (q : Question)
    (ua ua' : SubmissionAnswer) :
  type q = "short_answer"%string ->
  (forall w, In w (split (lower (py_str (answer ua)))) <->
             In w (split (lower (py_str (answer ua'))))) ->
  correctness_of q (Some ua) = correctness_of q (Some ua').
Proof.
  intros Ht Hw. unfold correctness_of. rewrite Ht.
  cbn [String.eqb Ascii.eqb Bool.eqb]. unfold overlap_of.
  rewrite (word_set_same_words _ _ Hw). reflexivity.
Qed.

Lemma short_answer_compares_word_sets_witness :
  type template_short = "short_answer"%string /\
  (forall w, In w (split (lower "Main the MAIN concept")) <->
             In w (split (lower "the concept main"))) /\
  @correctness_of sample_runtime template_short
     (Some (answer_at 0 (PStr "Main the MAIN concept")))
  = @correctness_of sample_runtime template_short
     (Some (answer_at 0 (PStr "the concept main"))).
Proof.
  assert (Hw : forall w, In w (split (lower "Main the MAIN concept")) <->
                         In w (split (lower "the concept main"))).
  { intros w. vm_compute. tauto. }
  split; [reflexivity | split; [exact Hw|]].
  apply (@short_answer_compares_word_sets sample_runtime template_short
           (answer_at 0 (PStr "Main the MAIN concept"))
           (answer_at 0 (PStr "the concept main")) eq_refl Hw).
Defined.

(** X11: short answers are compared without regard to letter case: an
    answer text and its lowercase form get the same [correctness], and so
    do a prompt and its lowercase form. *)
Theorem short_answer_ignores_case `{PyRuntime} (q q' : Question)
    (i : Z) (s : string) :
  type q = "short_answer"%string -> type q' = "short_answer"%string ->
  prompt q' = lower (prompt q) ->
  correctness_of q (Some (answer_at i (PStr (lower s))))
  = correctness_of q (Some (answer_at i (PStr s))) /\
  correctness_of q' (Some (answer_at i (PStr s)))
  = correctness_of q (Some (answer_at i (PStr s))).
Proof.
  intros Ht Ht' Hp. split.
  - unfold correctness_of. rewrite Ht.
    cbn [String.eqb Ascii.eqb Bool.eqb answer answer_at py_str].
    unfold overlap_of, word_set. rewrite lower_idempotent. reflexivity.
  - unfold correctness_of. rewrite Ht, Ht'.
    cbn [String.eqb Ascii.eqb Bool.eqb]. unfold overlap_of, word_set.
    rewrite Hp, lower_idempotent. reflexivity.
Qed.

Lemma short_answer_ignores_case_witness :
  let q' := {| prompt := lower (prompt template_short); type := "short_answer";
               options := None; answer_key := PNone; points := 5 |} in
  type template_short = "short_answer"%string /\ type q' = "short_answer"%string /\
  prompt q' = lower (prompt template_short) /\
  @correctness_of sample_runtime template_short
     (Some (answer_at 0 (PStr (lower "The Main Concept"))))
  = @correctness_of sample_runtime template_short
     (Some (answer_at 0 (PStr "The Main Concept"))).
Proof.
  cbv zeta. split; [reflexivity|]. split; [reflexivity|]. split; [reflexivity|].
  apply (@short_answer_ignores_case sample_runtime template_short
           {| prompt := lower (prompt template_short); type := "short_answer";
              options := None; answer_key := PNone; points := 5 |}
           0 "The Main Concept" eq_refl eq_refl eq_refl).
Defined.


End EngineFacts.


(* ===================================================================== *)
(** * Facts about the store and the submission endpoints                  *)
(* ===================================================================== *)

Module EndpointFacts.
Import Float64 PyStr PyVal Models Grading Endpoints Spec Samples.
Import Float64Facts WordFacts GradingFacts.

(** ** Ids and their text *)

Lemma hex_digit_value (n : N) : (n < 16)%N -> hex_value (hex_digit n) = Some n.
Proof.
  intros Hn. rewrite <- (N2Nat.id n).
  assert (Hm : (N.to_nat n < 16)%nat) by lia.
  revert Hm. generalize (N.to_nat n). intros m Hm.
  do 16 (destruct m as [|m]; [reflexivity|]). lia.
Qed.

Lemma hex_digit_not_space (n : N) : (n < 16)%N -> ascii_space (hex_digit n) = false.
Proof.
  intros Hn. rewrite <- (N2Nat.id n).
  assert (Hm : (N.to_nat n < 16)%nat) by lia.
  revert Hm. generalize (N.to_nat n). intros m Hm.
  do 16 (destruct m as [|m]; [reflexivity|]). lia.
Qed.

Lemma fromhex_hex_of (bytes : string) : fromhex (hex_of bytes) = Some bytes.
Proof.
  induction bytes as [|c rest IH]; [reflexivity|].
  cbn [hex_of fromhex].
  pose proof (N_ascii_bounded c) as Hc.
  assert (Hhi : (N_of_ascii c / 16 < 16)%N)
    by (apply N.Div0.div_lt_upper_bound; lia).
  assert (Hlo : (N_of_ascii c mod 16 < 16)%N) by (apply N.mod_lt; lia).
  rewrite (hex_digit_not_space _ Hhi), (hex_digit_value _ Hhi),
          (hex_digit_value _ Hlo), IH.
  f_equal. f_equal.
  rewrite <- (N.div_mod (N_of_ascii c) 16) by lia. apply ascii_N_embedding.
Qed.

Lemma hex_of_length (bytes : string) :
  String.length (hex_of bytes) = (2 * String.length bytes)%nat.
Proof. induction bytes as [|c rest IH]; cbn [hex_of String.length]; lia. Qed.

Lemma ObjectId_hex_of (oid : string) :
  String.length oid = 12%nat -> ObjectId (hex_of oid) = Ok oid.
Proof.
  intros Hlen. unfold ObjectId. rewrite hex_of_length, Hlen, fromhex_hex_of.
  reflexivity.
Qed.

(** ** Reading a store after a write *)

Lemma find_one_insert (db : database) (c c' : string) (oid oid' : string)
    (d : document) :
  find_one (<[c := <[oid := d]> (db !!! c)]> db) c' oid' =
    if decide (c = c' /\ oid = oid') then Some d else find_one db c' oid'.
Proof.
  unfold find_one. destruct (decide (c = c')) as [<- | Hc].
  - rewrite lookup_total_insert_eq. destruct (decide (oid = oid')) as [<- | Ho].
    + rewrite lookup_insert_eq. rewrite decide_True by auto. reflexivity.
    + rewrite lookup_insert_ne by exact Ho.
      rewrite decide_False by (intros [_ ?]; contradiction). reflexivity.
  - rewrite lookup_total_insert_ne by exact Hc.
    rewrite decide_False by (intros [? _]; contradiction). reflexivity.
Qed.


(** ** [POST /submissions], when the assessment exists *)

(** X12: a submission for an existing assessment is stored as it was sent,
    ungraded, under the id the store assigns; the text of that id is
    returned; no assessment and no other submission changes. *)
Theorem create_submission_stores `{Driver} (payload : SubmissionCreate)
    (db : database) (oid : string) (doc : document) :
  ObjectId (assessment_id payload) = Ok oid ->
  find_one db "assessment" oid = Some doc ->
  exists db',
    create_submission payload db = (Ok (hex_of (generate_id db), payload), db') /\
    find_one db' "submission" (generate_id db) = Some (SubmissionDoc payload None) /\
    (forall a, find_one db' "assessment" a = find_one db "assessment" a) /\
    (forall s, s <> generate_id db ->
               find_one db' "submission" s = find_one db "submission" s).
Proof.
  intros Hoid Hfind. unfold create_submission. rewrite Hoid, Hfind.
  unfold create_document. cbn [fst snd].
  eexists. split; [reflexivity|]. split; [|split].
  - rewrite find_one_insert. rewrite decide_True by auto. reflexivity.
  - intros a. rewrite find_one_insert.
    rewrite decide_False by (intros [? _]; discriminate). reflexivity.
  - intros s Hs. rewrite find_one_insert.
    rewrite decide_False by (intros [_ ?]; congruence). reflexivity.
Qed.

(** ** [POST /submissions/{submission_id}/grade] *)

Lemma grade_submission_inv `{PyRuntime} (submission_id : string) (db db' : database)
    (g : GradeResult) :
  grade_submission submission_id db = (Ok g, db') ->
  exists sid sub g0 aid adoc,
    ObjectId submission_id = Ok sid /\
    find_one db "submission" sid = Some (SubmissionDoc sub g0) /\
    ObjectId (assessment_id sub) = Ok aid /\
    find_one db "assessment" aid = Some adoc /\
    grade (questions_of adoc) (answers sub) = Ok g /\
    db' = <["submission" := <[sid := SubmissionDoc sub (Some g)]> (db !!! "submission")]> db.
Proof.
  unfold grade_submission.
  destruct (ObjectId submission_id) as [sid|] eqn:Hsid; [|discriminate].
  destruct (find_one db "submission" sid) as [sdoc|] eqn:Hsub; [|discriminate].
  destruct sdoc as [a | sub g0]; [discriminate|]. cbn [assessment_id_of mbind result_bind].
  destruct (ObjectId (assessment_id sub)) as [aid|] eqn:Haid; [|discriminate].
  destruct (find_one db "assessment" aid) as [adoc|] eqn:Hadoc; [|discriminate].
  cbn [answers_of].
  destruct (grade (questions_of adoc) (answers sub)) as [g'|] eqn:Hg; [|discriminate].
  intros [= <- <-]. exists sid, sub, g0, aid, adoc.
  repeat split; try assumption.
  unfold update_one. rewrite Hsub. reflexivity.
Qed.

Lemma grade_submission_run `{PyRuntime} (submission_id : string) (db : database)
    (sid : string) (sub : SubmissionCreate) (g0 : option GradeResult)
    (aid : string) (adoc : document) :
  ObjectId submission_id = Ok sid ->
  find_one db "submission" sid = Some (SubmissionDoc sub g0) ->
  ObjectId (assessment_id sub) = Ok aid ->
  find_one db "assessment" aid = Some adoc ->
  grade_submission submission_id db =
    match grade (questions_of adoc) (answers sub) with
    | Ok g => (Ok g, <["submission" := <[sid := SubmissionDoc sub (Some g)]>
                                         (db !!! "submission")]> db)
    | Raise e => (Raise e, db)
    end.
Proof.
  intros Hsid Hsub Haid Hadoc. unfold grade_submission.
  rewrite Hsid, Hsub. cbn [assessment_id_of mbind result_bind answers_of].
  rewrite Haid, Hadoc.
  destruct (grade (questions_of adoc) (answers sub)); [|reflexivity].
  unfold update_one. rewrite Hsub. reflexivity.
Qed.

(** X13: a grading request that succeeds returns what the engine computes
    from the stored questions and answers, and writes exactly that result
    into the graded submission: its answers, every other submission and
    every assessment stay as they were. *)
Theorem grade_submission_persists `{PyRuntime} (submission_id : string)
    (db db' : database) (g : GradeResult) :
  grade_submission submission_id db = (Ok g, db') ->
  exists sid sub g0 aid adoc,
    ObjectId submission_id = Ok sid /\
    find_one db "submission" sid = Some (SubmissionDoc sub g0) /\
    ObjectId (assessment_id sub) = Ok aid /\
    find_one db "assessment" aid = Some adoc /\
    grade (questions_of adoc) (answers sub) = Ok g /\
    find_one db' "submission" sid = Some (SubmissionDoc sub (Some g)) /\
    (forall s, s <> sid -> find_one db' "submission" s = find_one db "submission" s) /\
    (forall a, find_one db' "assessment" a = find_one db "assessment" a).
Proof.
  intros Hrun.
  destruct (grade_submission_inv _ _ _ _ Hrun)
    as (sid & sub & g0 & aid & adoc & Hsid & Hsub & Haid & Hadoc & Hg & ->).
  exists sid, sub, g0, aid, adoc. repeat split; try assumption.
  - rewrite find_one_insert. rewrite decide_True by auto. reflexivity.
  - intros s Hs. rewrite find_one_insert.
    rewrite decide_False by (intros [_ ?]; congruence). reflexivity.
  - intros a. rewrite find_one_insert.
    rewrite decide_False by (intros [? _]; discriminate). reflexivity.
Qed.

(** X14: grading is idempotent: grading a submission again, right after
    it was graded, returns the same result and leaves the store as the
    first grading left it. *)
Theorem grade_submission_idempotent `{PyRuntime} (submission_id : string)
    (db db' : database) (g : GradeResult) :
  grade_submission submission_id db = (Ok g, db') ->
  grade_submission submission_id db' = (Ok g, db').
Proof.
  intros Hrun.
  destruct (grade_submission_inv _ _ _ _ Hrun)
    as (sid & sub & g0 & aid & adoc & Hsid & Hsub & Haid & Hadoc & Hg & ->).
  rewrite (grade_submission_run submission_id _ sid sub (Some g) aid adoc Hsid);
    [ | | exact Haid | ].
  - rewrite Hg. f_equal.
    rewrite lookup_total_insert_eq, insert_insert_eq, insert_insert_eq. reflexivity.
  - rewrite find_one_insert. rewrite decide_True by auto. reflexivity.
  - rewrite find_one_insert.
    rewrite decide_False by (intros [? _]; discriminate). exact Hadoc.
Qed.

(** X15: a grading request that fails leaves the store as it was, and it
    fails in one of five ways: the id of the submission or of its
    assessment is malformed ([InvalidId]), the submission is missing (404),
    its assessment is missing (404), the stored submission has no
    [assessment_id] ([KeyError]), or an int is too large for a float
    ([OverflowError]). *)
Theorem grade_submission_failures `{PyRuntime} (submission_id : string)
    (db db' : database) (e : exn) :
  grade_submission submission_id db = (Raise e, db') ->
  db' = db /\
  (e = InvalidId \/
   e = HTTPException 404 "Submission not found" \/
   e = HTTPException 404 "Assessment not found for submission" \/
   e = KeyError \/
   e = OverflowError).
Proof.
  assert (Hid : forall s x, ObjectId s = Raise x -> x = InvalidId).
  { intros s x. unfold ObjectId. destruct (_ =? _)%nat; [destruct (fromhex s)|];
      intros [= <-]; reflexivity. }
  unfold grade_submission.
  destruct (ObjectId submission_id) as [sid|x] eqn:Hsid.
  2: { intros [= <- <-]. split; [reflexivity|]. left. exact (Hid _ _ Hsid). }
  destruct (find_one db "submission" sid) as [sdoc|] eqn:Hsub.
  2: { intros [= <- <-]. split; [reflexivity|]. right. left. reflexivity. }
  destruct sdoc as [a | sub g0]; cbn [assessment_id_of mbind result_bind].
  { intros [= <- <-]. split; [reflexivity|]. do 3 right. left. reflexivity. }
  destruct (ObjectId (assessment_id sub)) as [aid|x] eqn:Haid.
  2: { intros [= <- <-]. split; [reflexivity|]. left. exact (Hid _ _ Haid). }
  destruct (find_one db "assessment" aid) as [adoc|] eqn:Hadoc.
  2: { intros [= <- <-]. split; [reflexivity|]. do 2 right. left. reflexivity. }
  destruct (grade (questions_of adoc) (answers_of (SubmissionDoc sub g0)))
    as [g|x] eqn:Hg; [discriminate|].
  intros [= <- <-]. split; [reflexivity|]. do 4 right.
  exact (EngineFacts.grade_raises _ _ _ Hg).
Qed.

(** X16: a submission that was created can be graded under the id that
    was returned for it (when the store's ids have 12 bytes): the request
    runs the engine on the questions of its assessment and on the answers
    that were sent. *)
Theorem create_then_grade `{PyRuntime} `{Driver} (payload : SubmissionCreate)
    (db : database) (aid : string) (adoc : document) :
  ObjectId (assessment_id payload) = Ok aid ->
  find_one db "assessment" aid = Some adoc ->
  String.length (generate_id db) = 12%nat ->
  exists id db',
    create_submission payload db = (Ok (id, payload), db') /\
    grade_submission id db' =
      match grade (questions_of adoc) (answers payload) with
      | Ok g => (Ok g, <["submission" :=
                          <[generate_id db := SubmissionDoc payload (Some g)]>
                            (db' !!! "submission")]> db')
      | Raise e => (Raise e, db')
      end.
Proof.
  intros Haid Hadoc Hlen. unfold create_submission. rewrite Haid, Hadoc.
  unfold create_document. cbn [fst snd].
  eexists _, _. split; [reflexivity|].
  apply (grade_submission_run _ _ (generate_id db) payload None aid adoc).
  - apply ObjectId_hex_of. exact Hlen.
  - rewrite find_one_insert. rewrite decide_True by auto. reflexivity.
  - exact Haid.
  - rewrite find_one_insert.
    rewrite decide_False by (intros [? _]; discriminate). exact Hadoc.
Qed.


(** ** The sample store *)

Lemma sample_id_parses : ObjectId sample_id_text = Ok sample_id.
Proof. vm_compute. reflexivity. Qed.

Lemma sample_assessment_stored :
  find_one store_with_assessment "assessment" sample_id
  = Some (AssessmentDoc sample_assessment).
Proof.
  unfold find_one, store_with_assessment.
  rewrite lookup_total_singleton_eq. apply lookup_singleton_eq.
Qed.

Lemma sample_submission_absent :
  find_one store_with_assessment "submission" sample_id = None.
Proof.
  unfold find_one, store_with_assessment.
  rewrite lookup_total_singleton_ne by discriminate. apply lookup_empty.
Qed.

Lemma sample_submission_stored :
  find_one store_with_submission "submission" sample_id
  = Some (SubmissionDoc sample_submission None).
Proof.
  unfold find_one, store_with_submission.
  rewrite lookup_total_insert_eq. apply lookup_singleton_eq.
Qed.

Lemma sample_assessment_kept :
  find_one store_with_submission "assessment" sample_id
  = Some (AssessmentDoc sample_assessment).
Proof.
  unfold find_one, store_with_submission.
  rewrite lookup_total_insert_ne by discriminate. exact sample_assessment_stored.
Qed.

Lemma sample_submission_id_parses :
  ObjectId (assessment_id sample_submission) = Ok sample_id.
Proof. exact sample_id_parses. Qed.

Lemma sample_grading :
  @grade_submission sample_runtime sample_id_text store_with_submission
  = (Ok sample_grade, store_with_grade).
Proof.
  pose proof (@grade_submission_run sample_runtime sample_id_text
                store_with_submission sample_id sample_submission None sample_id
                (AssessmentDoc sample_assessment)
                sample_id_parses sample_submission_stored
                sample_submission_id_parses sample_assessment_kept) as Hrun.
  cbn [questions_of sample_assessment questions sample_submission answers] in Hrun.
  rewrite EngineFacts.choice_graded in Hrun.
  etransitivity; [exact Hrun|].
  apply (f_equal (pair (Ok sample_grade))).
  unfold store_with_grade, store_with_submission.
  rewrite lookup_total_insert_eq, insert_insert_eq, insert_singleton_eq.
  reflexivity.
Qed.

Lemma sample_not_found :
  @grade_submission sample_runtime sample_id_text store_with_assessment
  = (Raise (HTTPException 404 "Submission not found"), store_with_assessment).
Proof.
  unfold grade_submission.
  rewrite sample_id_parses, sample_submission_absent. reflexivity.
Qed.

(** ** The four theorems above on the sample store *)

Lemma create_submission_stores_witness :
  ObjectId (assessment_id sample_submission) = Ok sample_id /\
  find_one store_with_assessment "assessment" sample_id
    = Some (AssessmentDoc sample_assessment) /\
  exists db',
    @create_submission sample_driver sample_submission store_with_assessment
      = (Ok (sample_id_text, sample_submission), db') /\
    find_one db' "submission" sample_id = Some (SubmissionDoc sample_submission None).
Proof.
  split; [exact sample_submission_id_parses|].
  split; [exact sample_assessment_stored|].
  destruct (@create_submission_stores sample_driver _ _ _ _
              sample_submission_id_parses sample_assessment_stored)
    as (db' & Hrun & Hnew & _).
  exists db'. split; [exact Hrun|exact Hnew].
Defined.

Lemma grade_submission_persists_witness :
  @grade_submission sample_runtime sample_id_text store_with_submission
    = (Ok sample_grade, store_with_grade) /\
  exists sid sub,
    find_one store_with_grade "submission" sid
      = Some (SubmissionDoc sub (Some sample_grade)) /\
    forall a, find_one store_with_grade "assessment" a
              = find_one store_with_submission "assessment" a.
Proof.
  split; [exact sample_grading|].
  destruct (@grade_submission_persists sample_runtime _ _ _ _ sample_grading)
    as (sid & sub & g0 & aid & adoc & _ & _ & _ & _ & _ & Hnew & _ & Hkeep).
  exists sid, sub. split; [exact Hnew|exact Hkeep].
Defined.

Lemma grade_submission_idempotent_witness :
  @grade_submission sample_runtime sample_id_text store_with_submission
    = (Ok sample_grade, store_with_grade) /\
  @grade_submission sample_runtime sample_id_text store_with_grade
    = (Ok sample_grade, store_with_grade).
Proof.
  split; [exact sample_grading|].
  exact (@grade_submission_idempotent sample_runtime _ _ _ _ sample_grading).
Defined.

Lemma grade_submission_failures_witness :
  @grade_submission sample_runtime sample_id_text store_with_assessment
    = (Raise (HTTPException 404 "Submission not found"), store_with_assessment) /\
  store_with_assessment = store_with_assessment.
Proof.
  split; [exact sample_not_found|].
  exact (proj1 (@grade_submission_failures sample_runtime _ _ _ _ sample_not_found)).
Defined.

Lemma create_then_grade_witness :
  ObjectId (assessment_id sample_submission) = Ok sample_id /\
  find_one store_with_assessment "assessment" sample_id
    = Some (AssessmentDoc sample_assessment) /\
  String.length (@generate_id sample_driver store_with_assessment) = 12%nat /\
  exists id db',
    @create_submission sample_driver sample_submission store_with_assessment
      = (Ok (id, sample_submission), db') /\
    fst (@grade_submission sample_runtime id db') = Ok sample_grade.
Proof.
  assert (Hlen : String.length (@generate_id sample_driver store_with_assessment)
                 = 12%nat) by reflexivity.
  split; [exact sample_submission_id_parses|].
  split; [exact sample_assessment_stored|]. split; [exact Hlen|].
  destruct (@create_then_grade sample_runtime sample_driver _ _ _ _
              sample_submission_id_parses sample_assessment_stored Hlen)
    as (id & db' & Hcreate & Hgrade).
  exists id, db'. split; [exact Hcreate|].
  rewrite Hgrade. cbn [questions_of sample_assessment questions sample_submission answers].
  rewrite EngineFacts.choice_graded. reflexivity.
Defined.

End EndpointFacts.

(* ===================================================================== *)
(** * Facts about [serialize_doc]                                         *)
(* ===================================================================== *)

Module DocumentFacts.
Import Float64 PyStr PyVal Endpoints Documents Samples.

Lemma str_if_object_id_idempotent (x : bson) :
  str_if_object_id (str_if_object_id x) = str_if_object_id x.
Proof. destruct x; reflexivity. Qed.

Lemma convert_idempotent (v : bson) : convert (convert v) = convert v.
Proof.
  destruct v; try reflexivity. cbn [convert]. f_equal.
  rewrite List.map_map. apply List.map_ext. intros x.
  apply str_if_object_id_idempotent.
Qed.

(** What [serialize_doc] returns for a dict that is not empty. *)
Lemma serialize_doc_some `{BsonRuntime} (doc : dict) :
  serialize_doc (Some doc) =
    Some (convert <$> match doc !! "_id" with
                      | Some v => <["id" := BString (bson_str v)]> (delete "_id" doc)
                      | None => doc
                      end).
Proof.
  unfold serialize_doc. destruct (decide (doc = ∅)) as [-> | _]; [|reflexivity].
  rewrite lookup_empty, fmap_empty. reflexivity.
Qed.

(** X17: [serialize_doc] returns a dict without the key [_id]; when the
    document had an [_id], the key [id] holds its text, in place of any
    [id] the document had; under every other key an [ObjectId] became its
    text, a list had its [ObjectId]s replaced by their texts, and any other
    value was kept. *)
Theorem serialize_doc_fields `{BsonRuntime} (doc : dict) :
  exists d,
    serialize_doc (Some doc) = Some d /\
    d !! "_id" = None /\
    (forall v, doc !! "_id" = Some v -> d !! "id" = Some (BString (bson_str v))) /\
    (forall k, k <> "_id"%string -> k <> "id"%string \/ doc !! "_id" = None ->
               d !! k = convert <$> doc !! k).
Proof.
  eexists. split; [apply serialize_doc_some|].
  destruct (doc !! "_id") as [v|] eqn:Hid.
  - split; [|split].
    + rewrite lookup_fmap, lookup_insert_ne by discriminate.
      rewrite lookup_delete_eq. reflexivity.
    + intros w [= <-]. rewrite lookup_fmap, lookup_insert_eq. reflexivity.
    + intros k Hk [Hk' | Hnone]; [|discriminate].
      rewrite lookup_fmap, lookup_insert_ne by congruence.
      rewrite lookup_delete_ne by congruence. reflexivity.
  - split; [|split].
    + rewrite lookup_fmap, Hid. reflexivity.
    + intros v [=].
    + intros k _ _. apply lookup_fmap.
Qed.

(** X18: serializing twice is serializing once. *)
Theorem serialize_doc_idempotent `{BsonRuntime} (doc : option dict) :
  serialize_doc (serialize_doc doc) = serialize_doc doc.
Proof.
  destruct doc as [doc|]; [|reflexivity].
  rewrite (serialize_doc_some doc).
  set (d := match doc !! "_id" with
            | Some v => <["id" := BString (bson_str v)]> (delete "_id" doc)
            | None => doc
            end).
  assert (Hd : d !! "_id" = None).
  { subst d. destruct (doc !! "_id") eqn:Hid; [|exact Hid].
    rewrite lookup_insert_ne by discriminate. apply lookup_delete_eq. }
  rewrite serialize_doc_some, lookup_fmap, Hd. cbn [fmap option_fmap option_map].
  f_equal. rewrite <- map_fmap_compose. apply map_fmap_ext.
  intros k v _. apply convert_idempotent.
Qed.

Lemma convert_no_object_id (v : bson) :
  (forall oid, convert v <> BObjectId oid) /\
  (forall items, convert v = BArray items -> forall oid, ~ In (BObjectId oid) items).
Proof.
  split.
  - intros oid. destruct v; discriminate.
  - intros items Hv oid Hin. destruct v; try discriminate.
    cbn [convert] in Hv. injection Hv as <-.
    apply List.in_map_iff in Hin as (x & Hx & _). destruct x; discriminate.
Qed.

(** X19: in what [serialize_doc] returns, no key holds an [ObjectId], and
    no list under a key has an [ObjectId] among its elements. *)
Theorem serialize_doc_no_object_id `{BsonRuntime} (doc : option dict) (d : dict)
    (k : string) (v : bson) :
  serialize_doc doc = Some d ->
  d !! k = Some v ->
  (forall oid, v <> BObjectId oid) /\
  (forall items, v = BArray items -> forall oid, ~ In (BObjectId oid) items).
Proof.
  destruct doc as [doc|]; [|discriminate].
  rewrite serialize_doc_some. intros [= <-].
  rewrite lookup_fmap. intros Hk.
  apply fmap_Some in Hk as (w & _ & ->). apply convert_no_object_id.
Qed.


Lemma serialize_doc_no_object_id_witness :
  exists d v,
    @serialize_doc sample_bson_runtime (Some sample_document) = Some d /\
    d !! "owners" = Some v /\
    v = BArray [BString sample_id_text; BInt 7] /\
    forall oid, v <> BObjectId oid.
Proof.
  eexists _, (BArray [BString sample_id_text; BInt 7]).
  pose proof (@serialize_doc_some sample_bson_runtime sample_document) as Hs.
  assert (Hk : (convert <$> match sample_document !! "_id" with
                            | Some v => <["id" := BString (@bson_str sample_bson_runtime v)]>
                                          (delete "_id" sample_document)
                            | None => sample_document
                            end) !! "owners"
               = Some (BArray [BString sample_id_text; BInt 7])).
  { unfold sample_document. rewrite lookup_insert_eq, lookup_fmap.
    rewrite lookup_insert_ne by discriminate.
    rewrite lookup_delete_ne by discriminate.
    rewrite lookup_insert_ne by discriminate.
    rewrite lookup_insert_ne by discriminate.
    rewrite lookup_singleton_eq. reflexivity. }
  split; [exact Hs|]. split; [exact Hk|]. split; [reflexivity|].
  exact (proj1 (@serialize_doc_no_object_id sample_bson_runtime _ _ _ _ Hs Hk)).
Defined.

End DocumentFacts.

(* ===================================================================== *)
(** * Facts about the assessment endpoints                                *)
(* ===================================================================== *)

Module AssessmentFacts.
Import Float64 PyStr PyVal Models Grading Endpoints Spec Assessments Samples.
Import Float64Facts WordFacts GradingFacts EndpointFacts.

(** ** [POST /assessments] *)

(** X20: when the store's ids have 12 bytes, [create_assessment] returns
    the payload with the text of the new id, and has stored the payload
    under that id; no other assessment and no submission changes. *)
Theorem create_assessment_stores `{Driver} (payload : AssessmentCreate)
    (db : database) :
  String.length (generate_id db) = 12%nat ->
  exists db',
    create_assessment payload db =
      (Ok {| id := Some (hex_of (generate_id db)); fields := payload |}, db') /\
    find_one db' "assessment" (generate_id db) = Some (AssessmentDoc payload) /\
    (forall a, a <> generate_id db ->
               find_one db' "assessment" a = find_one db "assessment" a) /\
    (forall s, find_one db' "submission" s = find_one db "submission" s).
Proof.
  intros Hlen. unfold create_assessment, create_document. cbn [fst snd].
  rewrite (ObjectId_hex_of _ Hlen).
  eexists. split; [reflexivity|]. split; [|split].
  - rewrite find_one_insert. rewrite decide_True by auto. reflexivity.
  - intros a Ha. rewrite find_one_insert.
    rewrite decide_False by (intros [_ ?]; congruence). reflexivity.
  - intros s. rewrite find_one_insert.
    rewrite decide_False by (intros [? _]; discriminate). reflexivity.
Qed.

(** X21: [create_assessment] is not atomic: when the id the store assigned
    is not one of 12 bytes, the request fails with [InvalidId] after the
    assessment was stored. *)
Theorem create_assessment_fails_after_storing `{Driver}
    (payload : AssessmentCreate) (db : database) :
  String.length (generate_id db) <> 12%nat ->
  exists db',
    create_assessment payload db = (Raise InvalidId, db') /\
    find_one db' "assessment" (generate_id db) = Some (AssessmentDoc payload).
Proof.
  intros Hlen. unfold create_assessment, create_document. cbn [fst snd].
  unfold ObjectId. rewrite hex_of_length.
  destruct (Nat.eqb_spec (2 * String.length (generate_id db)) 24) as [Heq|_]; [lia|].
  eexists. split; [reflexivity|].
  rewrite find_one_insert. rewrite decide_True by auto. reflexivity.
Qed.

(** X22: the three requests compose: with a store whose ids have 12 bytes,
    an assessment that was created accepts a submission under the id that
    was returned, and grading that submission under its returned id gives
    what the engine computes from the questions of the payload and the
    answers of the submission. *)
Theorem create_submit_grade `{PyRuntime} `{Driver} (payload : AssessmentCreate)
    (student : option string) (answers : list SubmissionAnswer) (db : database) :
  (forall db, String.length (generate_id db) = 12%nat) ->
  exists aid db1 sid db2,
    create_assessment payload db = (Ok {| id := Some aid; fields := payload |}, db1) /\
    create_submission
      {| assessment_id := aid; student_name := student; answers := answers |} db1
      = (Ok (sid, {| assessment_id := aid; student_name := student;
                     answers := answers |}), db2) /\
    fst (grade_submission sid db2) = grade (questions payload) answers.
Proof.
  intros Hlen.
  unfold create_assessment, create_document. cbn [fst snd].
  rewrite (ObjectId_hex_of _ (Hlen db)).
  set (db1 := <["assessment" := _]> db).
  assert (Hfind : find_one db1 "assessment" (generate_id db)
                  = Some (AssessmentDoc payload)).
  { subst db1. rewrite find_one_insert. rewrite decide_True by auto. reflexivity. }
  set (sub := {| assessment_id := hex_of (generate_id db); student_name := student;
                 answers := answers |}).
  exists (hex_of (generate_id db)), db1, (hex_of (generate_id db1)).
  unfold create_submission, create_document.
  cbn [assessment_id fst snd]. rewrite (ObjectId_hex_of _ (Hlen db)), Hfind.
  eexists. split; [reflexivity|]. split; [reflexivity|].
  rewrite (grade_submission_run _ _ (generate_id db1) sub None (generate_id db)
             (AssessmentDoc payload)).
  - cbn [questions_of]. subst sub. cbn [Models.answers].
    destruct (grade (questions payload) answers); reflexivity.
  - apply ObjectId_hex_of, Hlen.
  - rewrite find_one_insert. rewrite decide_True by auto. reflexivity.
  - apply ObjectId_hex_of, Hlen.
  - rewrite find_one_insert.
    rewrite decide_False by (intros [? _]; discriminate). exact Hfind.
Qed.

(** ** [POST /assessments/from-upload] *)

Lemma fake_questions_bounded (filename : string) :
  python_sized ("Describe the main concept from " +:+ filename +:+ ".") ->
  forall q, In q (fake_questions filename) ->
            0 <= points q <= 2 ^ 53 /\ python_sized (prompt q).
Proof.
  intros Hsize q [<- | [<- | [<- | []]]]; cbn [points prompt].
  - split; [lia|exact Hsize].
  - split; [lia|]. unfold python_sized, sys_maxsize. simpl. lia.
  - split; [lia|]. unfold python_sized, sys_maxsize. simpl. lia.
Qed.

(** X23: an upload never fails and stores an assessment of three questions
    worth 18 points, whatever the file: a file without a name is called
    [upload], and every submission to the stored assessment is graded, out
    of 18 points, with three feedback entries and a score between 0.0 and
    100.0 (the prompt made from the file name being a Python str). *)
Theorem upload_is_gradable `{PyRuntime} `{Driver}
    (title description source_type : string) (filename : option string)
    (db : database) (answers : list SubmissionAnswer) :
  let name := match filename with
              | None | Some EmptyString => "upload"%string
              | Some name => name
              end in
  python_sized ("Describe the main concept from " +:+ name +:+ ".") ->
  exists qs db' r,
    create_assessment_from_upload title description source_type filename db =
      ({| id := Some (hex_of (generate_id db));
          fields := {| Models.title := title;
                       Models.description := Some description;
                       Models.source_type := Some source_type;
                       source_reference := Some name;
                       questions := qs |} |}, db') /\
    find_one db' "assessment" (generate_id db) =
      Some (AssessmentDoc {| Models.title := title;
                             Models.description := Some description;
                             Models.source_type := Some source_type;
                             source_reference := Some name;
                             questions := qs |}) /\
    grade qs answers = Ok r /\
    total_points r = 18 /\
    List.length (feedback r) = 3%nat /\
    0 <= earned_total (feedback r) <= 18 /\
    fle f0_0 (score r) = true /\ fle (score r) f100_0 = true.
Proof.
  intros name Hsize.
  assert (Hname : filename_or_upload filename = name).
  { subst name. destruct filename as [[|c s]|]; reflexivity. }
  unfold create_assessment_from_upload, create_document. cbn [fst snd].
  rewrite Hname.
  destruct (grade_bounded (fake_questions name) answers
              (fake_questions_bounded name Hsize)) as (r & Hg & Hfb & Hscore & _).
  destruct (grade_inv _ _ _ Hg) as (_ & Htotal & Hlen & Hqs & Hs).
  exists (fake_questions name). eexists. exists r.
  split; [reflexivity|]. split.
  { rewrite find_one_insert. rewrite decide_True by auto. reflexivity. }
  split; [exact Hg|]. split; [exact Htotal|]. split; [exact Hlen|].
  assert (Hearned : 0 <= earned_total (feedback r) <= 18).
  { change 18 with (sum_points (fake_questions name)).
    apply earned_total_bounded.
    apply Forall2_same_length_lookup_2; [symmetry; exact Hlen|].
    intros i q fb Hq Hfbi.
    destruct (Hqs i q Hq) as (fb' & Hfb' & Hgq).
    rewrite Hfbi in Hfb'. injection Hfb' as <-.
    apply grade_question_bounds in Hgq as (_ & He & _); [exact He|].
    apply (fake_questions_bounded name Hsize).
    apply list_elem_of_In, (list_elem_of_lookup_2 _ i), Hq. }
  split; [exact Hearned|].
  destruct Hscore as (n & Hn & Hrange); [rewrite Htotal; reflexivity|].
  rewrite Hn. unfold f0_0, f100_0. cbn [fle fval]. split; apply Z.leb_le; lia.
Qed.


Lemma create_assessment_stores_witness :
  String.length (@generate_id sample_driver ∅) = 12%nat /\
  exists db',
    @create_assessment sample_driver sample_assessment ∅
      = (Ok {| id := Some sample_id_text; fields := sample_assessment |}, db') /\
    find_one db' "assessment" sample_id = Some (AssessmentDoc sample_assessment).
Proof.
  assert (Hlen : String.length (@generate_id sample_driver ∅) = 12%nat)
    by reflexivity.
  split; [exact Hlen|].
  destruct (@create_assessment_stores sample_driver sample_assessment ∅ Hlen)
    as (db' & Hrun & Hnew & _).
  exists db'. split; [exact Hrun|exact Hnew].
Defined.

Lemma create_assessment_fails_after_storing_witness :
  String.length (@generate_id short_id_driver ∅) <> 12%nat /\
  exists db',
    @create_assessment short_id_driver sample_assessment ∅ = (Raise InvalidId, db') /\
    find_one db' "assessment" "abc" = Some (AssessmentDoc sample_assessment).
Proof.
  assert (Hlen : String.length (@generate_id short_id_driver ∅) <> 12%nat)
    by (cbn; lia).
  split; [exact Hlen|].
  exact (@create_assessment_fails_after_storing short_id_driver sample_assessment ∅ Hlen).
Defined.

Lemma create_submit_grade_witness :
  (forall db, String.length (@generate_id sample_driver db) = 12%nat) /\
  exists aid db1 sid db2,
    @create_assessment sample_driver sample_assessment ∅
      = (Ok {| id := Some aid; fields := sample_assessment |}, db1) /\
    @create_submission sample_driver
      {| assessment_id := aid; student_name := None;
         answers := [answer_at 0 (PInt 1)] |} db1
      = (Ok (sid, {| assessment_id := aid; student_name := None;
                     answers := [answer_at 0 (PInt 1)] |}), db2) /\
    fst (@grade_submission sample_runtime sid db2) = Ok sample_grade.
Proof.
  assert (Hlen : forall db, String.length (@generate_id sample_driver db) = 12%nat)
    by (intros db; reflexivity).
  split; [exact Hlen|].
  destruct (@create_submit_grade sample_runtime sample_driver sample_assessment None
              [answer_at 0 (PInt 1)] ∅ Hlen)
    as (aid & db1 & sid & db2 & Ha & Hs & Hg).
  exists aid, db1, sid, db2. split; [exact Ha|]. split; [exact Hs|].
  rewrite Hg. exact EngineFacts.choice_graded.
Defined.

Lemma upload_is_gradable_witness :
  python_sized "Describe the main concept from upload." /\
  exists qs db' r,
    fst (@create_assessment_from_upload sample_driver "Generated Assessment"
           "Generated from uploaded source" "file" None ∅)
      = {| id := Some sample_id_text;
           fields := {| title := "Generated Assessment";
                        description := Some "Generated from uploaded source"%string;
                        source_type := Some "file"%string;
                        source_reference := Some "upload"%string;
                        questions := qs |} |} /\
    find_one db' "assessment" sample_id =
      Some (AssessmentDoc {| title := "Generated Assessment";
                        description := Some "Generated from uploaded source"%string;
                        source_type := Some "file"%string;
                        source_reference := Some "upload"%string;
                        questions := qs |}) /\
    @grade sample_runtime qs [] = Ok r /\ total_points r = 18.
Proof.
  assert (Hsize : python_sized "Describe the main concept from upload.")
    by (unfold python_sized, sys_maxsize; simpl; lia).
  split; [exact Hsize|].
  destruct (@upload_is_gradable sample_runtime sample_driver "Generated Assessment"
              "Generated from uploaded source" "file" None ∅ [] Hsize)
    as (qs & db' & r & Hrun & Hfind & Hg & Htotal & _).
  exists qs, db', r. split; [rewrite Hrun; reflexivity|].
  split; [exact Hfind|]. split; [exact Hg|exact Htotal].
Defined.

End AssessmentFacts.
